(** * Chart-API (main.py): schema profiling, chart suggestion, query
      execution and result reshaping.

    A shallow embedding of the decision logic of
    [back_end/Chart-API-main/main.py] followed by the properties checked
    against it.

    Conventions of the embedding.
    - A Python [str] is a Rocq [string]; the text is taken to be ASCII
      (case folding, digits and white space follow the ASCII part of the
      Python predicates).
    - A Python [float] is a binary64 value, Rocq's primitive [float];
      [float(text)] rounds the numeral to the nearest binary64 (ties to
      even, overflow to an infinity) and [str] of a float is its shortest
      numeral that converts back.
    - A raw JSON cell is a [pyval]: [None], a bool, an int, a float or a
      str.
    - Exceptions are explicit: a function that can raise returns a
      [result]. *)

From stdpp Require Import base gmap sets list strings.
From Stdlib Require Import Ascii ZArith Floats DecimalString.

Close Scope Z_scope.
Open Scope string_scope.
Set Warnings "-inexact-float".

(** ** Exceptions *)

Inductive exn : Type :=
| HTTPException (status_code : nat) (detail : string)
| ZeroDivisionError
| KeyError (key : string)
| OtherError (text : string).

Inductive result (A : Type) : Type :=
| Ok (a : A)
| Raise (e : exn).
Arguments Ok {A} a.
Arguments Raise {A} e.

(** ** Python string primitives *)

Module PyStr.

Definition code (c : ascii) : nat := nat_of_ascii c.

(** [str.isspace] on one ASCII character: TAB..CR, FS..US and space. *)
Definition isspace (c : ascii) : bool :=
  (Nat.leb 9 (code c) && Nat.leb (code c) 13)
  || (Nat.leb 28 (code c) && Nat.leb (code c) 32).

Definition isdigit_char (c : ascii) : bool :=
  Nat.leb 48 (code c) && Nat.leb (code c) 57.

Fixpoint lstrip (s : string) : string :=
  match s with
  | String c r => if isspace c then lstrip r else s
  | EmptyString => EmptyString
  end.

Fixpoint rstrip (s : string) : string :=
  match s with
  | String c r =>
      match rstrip r with
      | EmptyString => if isspace c then EmptyString else String c EmptyString
      | r' => String c r'
      end
  | EmptyString => EmptyString
  end.

(** [s.strip()] *)
Definition strip (s : string) : string := rstrip (lstrip s).

Fixpoint all_chars (p : ascii -> bool) (s : string) : bool :=
  match s with
  | String c r => p c && all_chars p r
  | EmptyString => true
  end.

(** [s.isdigit()]: at least one character, all of them digits. *)
Definition isdigit (s : string) : bool :=
  match s with
  | EmptyString => false
  | _ => all_chars isdigit_char s
  end.

(** [s.replace(c, '')] for a one-character [c]. *)
Fixpoint remove_char (c : ascii) (s : string) : string :=
  match s with
  | String d r => if Ascii.eqb c d then remove_char c r else String d (remove_char c r)
  | EmptyString => EmptyString
  end.

Definition lower_char (c : ascii) : ascii :=
  if Nat.leb 65 (code c) && Nat.leb (code c) 90
  then ascii_of_nat (code c + 32) else c.

(** [s.lower()] *)
Fixpoint lower (s : string) : string :=
  match s with
  | String c r => String (lower_char c) (lower r)
  | EmptyString => EmptyString
  end.

(** [s.startswith(p)] *)
Fixpoint startswith (p s : string) : bool :=
  match p, s with
  | EmptyString, _ => true
  | String a p', String b s' => Ascii.eqb a b && startswith p' s'
  | String _ _, EmptyString => false
  end.

Fixpoint drop_chars (n : nat) (s : string) : string :=
  match n, s with
  | S k, String _ r => drop_chars k r
  | _, _ => s
  end.

Fixpoint take_chars (n : nat) (s : string) : string :=
  match n, s with
  | S k, String c r => String c (take_chars k r)
  | _, _ => EmptyString
  end.

(** [s[a:b]] for [0 <= a], [0 <= b] *)
Definition slice (a b : nat) (s : string) : string := take_chars (b - a) (drop_chars a s).

(** [s.endswith(p)] *)
Definition endswith (p s : string) : bool :=
  Nat.leb (String.length p) (String.length s)
  && String.eqb (drop_chars (String.length s - String.length p) s) p.

(** Index of the first occurrence of [sub] in [s]. *)
Fixpoint find_nat (sub s : string) : option nat :=
  if startswith sub s then Some 0
  else match s with
       | String _ r => S <$> find_nat sub r
       | EmptyString => None
       end.

(** Index of the last occurrence of [sub] in [s]. *)
Fixpoint rfind_nat (sub s : string) : option nat :=
  match s with
  | String _ r =>
      match rfind_nat sub r with
      | Some i => Some (S i)
      | None => if startswith sub s then Some 0 else None
      end
  | EmptyString => if startswith sub s then Some 0 else None
  end.

Definition index_or_minus1 (o : option nat) : Z :=
  match o with Some i => Z.of_nat i | None => (-1)%Z end.

(** [s.find(sub)] and [s.rfind(sub)], with Python's [-1] for a miss. *)
Definition find (sub s : string) : Z := index_or_minus1 (find_nat sub s).
Definition rfind (sub s : string) : Z := index_or_minus1 (rfind_nat sub s).

(** [sub in s] *)
Definition contains (sub s : string) : bool :=
  match find_nat sub s with Some _ => true | None => false end.

(** [re.sub(r'</?s>', '', s)]: one left-to-right pass deleting every
    non-overlapping [<s>] and [</s>]; [skip] counts the characters of
    the current match still to be dropped. *)
Fixpoint strip_s_tags_go (skip : nat) (s : string) : string :=
  match s with
  | String c r =>
      match skip with
      | S k => strip_s_tags_go k r
      | O =>
          if startswith "<s>" s then strip_s_tags_go 2 r
          else if startswith "</s>" s then strip_s_tags_go 3 r
          else String c (strip_s_tags_go 0 r)
      end
  | EmptyString => EmptyString
  end.
Definition strip_s_tags (s : string) : string := strip_s_tags_go 0 s.

(** [re.search(r'\[OUT\](.*?)\[/OUT\]', s, re.DOTALL)]: the leftmost
    [[OUT]] and the nearest [[/OUT]] after it; the result is group 1. *)
Definition search_out_wrapper (s : string) : option string :=
  match find_nat "[OUT]" s with
  | Some i =>
      let body := drop_chars (i + 5) s in
      match find_nat "[/OUT]" body with
      | Some j => Some (take_chars j body)
      | None => None
      end
  | None => None
  end.

(** [', '.join(l)] and friends *)
Fixpoint join (sep : string) (l : list string) : string :=
  match l with
  | [] => ""
  | [x] => x
  | x :: r => x ++ sep ++ join sep r
  end.

End PyStr.

(** ** [float]: binary64 values, [float(text)] and [repr] *)

Module PyFloat.
Import PyStr.

(** A Python float is a binary64 value, Rocq's primitive [float]: [add],
    [div] and [ltb] are the IEEE 754 operations, rounding to nearest, ties
    to even. *)

(** The binary64 nearest to [m * 10^e] for [m >= 0], ties to even, with
    the sign [neg]: how [strtod] rounds a decimal numeral and how an int
    converts.  The value is written as a quotient of two integers, which
    [SFdiv] divides exactly and rounds once (to an infinity beyond the
    largest binary64, to a subnormal or zero below the smallest normal
    one). *)
Definition of_decimal (neg : bool) (m e : Z) : float :=
  match m with
  | Zpos p =>
      let '(num, den) :=
        match e with
        | Zneg k => (p, Pos.pow 10 k)
        | Z0 => (p, 1%positive)
        | Zpos k => ((p * Pos.pow 10 k)%positive, 1%positive)
        end in
      SF2Prim (SFdiv prec emax (S754_finite neg num 0) (S754_finite false den 0))
  | _ => if neg then neg_zero else zero
  end.

(** [float(n)] for an int [n >= 0] *)
Definition of_nat (n : nat) : float := of_decimal false (Z.of_nat n) 0.

(** White space as [float()] skips it: C's [isspace], TAB..CR and space.
    FS..US, which [str.strip] removes, are not skipped. *)
Definition c_isspace (c : ascii) : bool :=
  (Nat.leb 9 (code c) && Nat.leb (code c) 13) || Nat.eqb (code c) 32.

Fixpoint skip_leading (s : string) : string :=
  match s with
  | String c r => if c_isspace c then skip_leading r else s
  | EmptyString => EmptyString
  end.

Fixpoint skip_trailing (s : string) : string :=
  match s with
  | String c r =>
      match skip_trailing r with
      | EmptyString => if c_isspace c then EmptyString else String c EmptyString
      | r' => String c r'
      end
  | EmptyString => EmptyString
  end.

(** digitpart ::= digit (["_"] digit)*, after its first digit. *)
Fixpoint digits_tail (s : string) : list ascii * string :=
  match s with
  | String c r =>
      if isdigit_char c then
        let '(ds, r') := digits_tail r in (c :: ds, r')
      else if Ascii.eqb c "_" then
        match r with
        | String d r2 =>
            if isdigit_char d then
              let '(ds, r') := digits_tail r2 in (d :: ds, r')
            else ([], s)
        | EmptyString => ([], s)
        end
      else ([], s)
  | EmptyString => ([], EmptyString)
  end.

(** The digits of a leading digitpart (none when there is no digit) and
    the unread rest. *)
Definition digitpart (s : string) : list ascii * string :=
  match s with
  | String c r =>
      if isdigit_char c then
        let '(ds, r') := digits_tail r in (c :: ds, r')
      else ([], s)
  | EmptyString => ([], EmptyString)
  end.

Definition read_sign (s : string) : bool * string :=
  match s with
  | String c r =>
      if Ascii.eqb c "-" then (true, r)
      else if Ascii.eqb c "+" then (false, r)
      else (false, s)
  | EmptyString => (false, s)
  end.

Definition digits_value (ds : list ascii) : Z :=
  fold_left (fun acc c => (10 * acc + (Z.of_nat (code c) - 48))%Z) ds 0%Z.

(** number ::= [digitpart] "." digitpart | digitpart ["."] *)
Definition read_number (s : string) : option (list ascii * list ascii * string) :=
  let '(ip, r1) := digitpart s in
  match r1 with
  | String c r2 =>
      if Ascii.eqb c "." then
        let '(fp, r3) := digitpart r2 in
        match ip, fp with
        | [], [] => None
        | _, _ => Some (ip, fp, r3)
        end
      else match ip with [] => None | _ => Some (ip, [], r1) end
  | EmptyString => match ip with [] => None | _ => Some (ip, [], r1) end
  end.

(** exponent ::= ("e" | "E") [sign] digitpart, which must end the text;
    an empty text is exponent 0. *)
Definition read_exponent (s : string) : option Z :=
  match s with
  | EmptyString => Some 0%Z
  | String c r =>
      if Ascii.eqb c "e" || Ascii.eqb c "E" then
        let '(neg, r1) := read_sign r in
        match digitpart r1 with
        | ([], _) => None
        | (ds, EmptyString) =>
            Some (if neg then (- digits_value ds)%Z else digits_value ds)
        | (_, String _ _) => None
        end
      else None
  end.

(** [float(s)] for a str [s]; [None] stands for [ValueError]. *)
Definition py_float (s : string) : option float :=
  let '(neg, body) := read_sign (skip_trailing (skip_leading s)) in
  let word := lower body in
  if String.eqb word "inf" || String.eqb word "infinity" then
    Some (if neg then neg_infinity else infinity)
  else if String.eqb word "nan" then Some nan
  else
    match read_number body with
    | Some (ip, fp, rest) =>
        match read_exponent rest with
        | Some e =>
            Some (of_decimal neg (digits_value (ip ++ fp))
                             (e - Z.of_nat (length fp)))
        | None => None
        end
    | None => None
    end.

(** [a < b] and [a > b]; every comparison with NaN is false. *)
Definition flt (a b : float) : bool := PrimFloat.ltb a b.
Definition fgt (a b : float) : bool := PrimFloat.ltb b a.

(** [min(l)] and [max(l)]: keep the first item, replace it by a later
    one only when that one compares strictly smaller (larger). *)
Definition py_min (l : list float) : option float :=
  match l with
  | [] => None
  | x :: r => Some (fold_left (fun m y => if flt y m then y else m) r x)
  end.
Definition py_max (l : list float) : option float :=
  match l with
  | [] => None
  | x :: r => Some (fold_left (fun m y => if fgt y m then y else m) r x)
  end.

(** [sum(l)] for floats: from the int 0, one binary64 addition per item,
    left to right (CPython up to 3.11; later versions compensate the
    rounding error of the partial sums). *)
Definition py_sum (l : list float) : float :=
  fold_left PrimFloat.add l zero.

(** [a / n] for an int [n] *)
Definition fdiv_nat (a : float) (n : nat) : float := PrimFloat.div a (of_nat n).

(** *** [repr]: the shortest numeral that converts back *)

Definition dec_text (z : Z) : string := NilEmpty.string_of_int (Z.to_int z).

(** The value [m * 2^e] as a fraction. *)
Definition fraction (m : positive) (e : Z) : Z * Z :=
  match e with
  | Zneg k => (Zpos m, Z.pow 2 (Zpos k))
  | _ => (Zpos m * Z.pow 2 e, 1)%Z
  end.

Fixpoint log10_below (fuel : nat) (num den k : Z) : Z :=
  match fuel with
  | O => k
  | S fuel' =>
      if (den <=? num)%Z then k
      else log10_below fuel' (10 * num)%Z den (k - 1)%Z
  end.

(** The [k] with [10^k <= num/den < 10^(k+1)]. *)
Definition log10_floor (num den : Z) : Z :=
  if (den <=? num)%Z
  then (Z.of_nat (String.length (dec_text (num / den))) - 1)%Z
  else log10_below 400 (10 * num)%Z den (-1)%Z.

(** [num/den] counted in units of [10^p]: the whole units, and the rest
    as a remainder over a divisor. *)
Definition scaled (num den p : Z) : Z * Z * Z :=
  let '(n, d) :=
    if (0 <=? p)%Z then (num, den * 10 ^ p)%Z else (num * 10 ^ (- p), den)%Z in
  ((n / d)%Z, (n mod d)%Z, d).

(** The shortest digit string that converts back to [f], tried with
    [n], [n+1], ... significant digits: of the value cut to [n] digits and
    its successor the one that converts back, the nearer one when both do
    (the even one on a tie).  The result is [(d, p)] for [d * 10^p]; 17
    digits always convert back. *)
Fixpoint shortest (fuel : nat) (f : float) (num den k n : Z) : Z * Z :=
  let p := (k + 1 - n)%Z in
  let '(lo, r, d) := scaled num den p in
  let hi := (lo + 1)%Z in
  match fuel with
  | O => (lo, p)
  | S fuel' =>
      let lo_ok := PrimFloat.eqb (of_decimal false lo p) f in
      let hi_ok := PrimFloat.eqb (of_decimal false hi p) f in
      if lo_ok && hi_ok then
        (if (2 * r <? d)%Z || ((2 * r =? d)%Z && Z.even lo) then lo else hi, p)
      else if lo_ok then (lo, p)
      else if hi_ok then (hi, p)
      else shortest fuel' f num den k (n + 1)%Z
  end.

Fixpoint trim_zeros (fuel : nat) (d p : Z) : Z * Z :=
  match fuel with
  | O => (d, p)
  | S fuel' =>
      if (d mod 10 =? 0)%Z && negb (d =? 0)%Z
      then trim_zeros fuel' (d / 10)%Z (p + 1)%Z
      else (d, p)
  end.

Fixpoint zeros (n : nat) : string :=
  match n with
  | O => ""
  | S k => String "0" (zeros k)
  end.

(** The layout of [repr]: exponent notation when the decimal point would
    sit more than 16 digits to the right or more than 3 zeros to the left
    of the digits, [.0] after a whole number otherwise. *)
Definition layout (neg : bool) (d p : Z) : string :=
  let ds := dec_text d in
  let nd := Z.of_nat (String.length ds) in
  let decpt := (nd + p)%Z in
  let body :=
    if (decpt <=? -4)%Z || (16 <? decpt)%Z then
      let mantissa :=
        match ds with
        | String c (String c' r) => String c ("." ++ String c' r)
        | _ => ds
        end in
      let e := (decpt - 1)%Z in
      mantissa ++ "e" ++ (if (e <? 0)%Z then "-" else "+")
        ++ (if (Z.abs e <? 10)%Z then "0" else "") ++ dec_text (Z.abs e)
    else if (decpt <=? 0)%Z then "0." ++ zeros (Z.to_nat (- decpt)) ++ ds
    else if (nd <=? decpt)%Z then ds ++ zeros (Z.to_nat (decpt - nd)) ++ ".0"
    else take_chars (Z.to_nat decpt) ds ++ "." ++ drop_chars (Z.to_nat decpt) ds in
  (if neg then "-" else "") ++ body.

(** [repr(f)], which is also [str(f)] *)
Definition float_repr (f : float) : string :=
  match Prim2SF f with
  | S754_nan => "nan"
  | S754_infinity s => if s then "-inf" else "inf"
  | S754_zero s => if s then "-0.0" else "0.0"
  | S754_finite s m e =>
      let '(num, den) := fraction m e in
      let '(d, p) := shortest 17 (PrimFloat.abs f) num den (log10_floor num den) 1 in
      let '(d, p) := trim_zeros 17 d p in
      layout s d p
  end.

End PyFloat.

(** ** Raw values *)

Inductive pyval : Type :=
| PNone
| PBool (b : bool)
| PInt (z : Z)
| PFloat (f : float)
| PStr (s : string).

Definition is_none (v : pyval) : bool :=
  match v with PNone => true | _ => false end.

(** [str(v)] *)
Definition py_str (v : pyval) : string :=
  match v with
  | PNone => "None"
  | PBool true => "True"
  | PBool false => "False"
  | PInt z => NilEmpty.string_of_int (Z.to_int z)
  | PFloat f => PyFloat.float_repr f
  | PStr s => s
  end.

(** ** The exception monad *)

Definition result_bind {A B : Type} (f : A -> result B) (r : result A) : result B :=
  match r with
  | Ok a => f a
  | Raise e => Raise e
  end.

#[global] Instance result_mret : MRet result := fun _ a => Ok a.
#[global] Instance result_mbind : MBind result := fun _ _ f r => result_bind f r.

Fixpoint result_mapM {A B : Type} (f : A -> result B) (l : list A) : result (list B) :=
  match l with
  | [] => Ok []
  | x :: r => y ← f x; ys ← result_mapM f r; Ok (y :: ys)
  end.

(** ** Type Inference: [infer_column_type] *)

Inductive TypeTag : Type :=
| TNumeric | TDate | TCategory | TString | TBoolean | TUnknown.

#[global] Instance TypeTag_eq_dec : EqDecision TypeTag.
Proof. solve_decision. Defined.

Definition tag_text (t : TypeTag) : string :=
  match t with
  | TNumeric => "numeric"
  | TDate => "date"
  | TCategory => "category"
  | TString => "string"
  | TBoolean => "boolean"
  | TUnknown => "unknown"
  end.

Module TypeInference.
Import PyStr PyFloat.

Definition date_patterns : list string :=
  ["-"; "/"; "2020"; "2021"; "2022"; "2023"; "2024"; "2025"].

Definition boolean_words : list string :=
  ["true"; "false"; "yes"; "no"; "0"; "1"].

(** [[str(v) for v in values if v is not None]] *)
Definition str_values_of (values : list pyval) : list string :=
  omap (fun v => if is_none v then None else Some (py_str v)) values.

(** [v.replace(',', '').replace('.', '').replace('-', '').isdigit()] *)
Definition digits_only (v : string) : bool :=
  isdigit (remove_char "-" (remove_char "." (remove_char "," v))).

(** [sum(1 for v in str_values if ...)] *)
Definition numeric_count (str_values : list string) : nat :=
  length (List.filter digits_only str_values).

(** [count > total * 0.8].  Both sides are small integers times 0.8:
    the binary64 product is the integer [4*total/5] when 5 divides
    [total] and otherwise lies at least 0.2 away from every integer, so
    the comparison agrees with the exact [10*count > 8*total]. *)
Definition above_80_percent (count total : nat) : bool :=
  Nat.ltb (8 * total) (10 * count).

(** [num / den < 0.3]; the division raises on a zero divisor.  The
    quotient is correctly rounded, hence equal to the literal [0.3]
    exactly when [10*num = 3*den], and below it exactly when
    [10*num < 3*den]. *)
Definition ratio_below_30_percent (num den : nat) : result bool :=
  match den with
  | O => Raise ZeroDivisionError
  | S _ => Ok (Nat.ltb (10 * num) (3 * den))
  end.

(** [len(set(str_values))] *)
Definition unique_count (str_values : list string) : nat :=
  size (list_to_set str_values : gset string).

(** The body of [if str_values:]; [None] when it falls through. *)
Definition classify_by_content (str_values : list string) : option TypeTag :=
  match str_values with
  | sample :: _ =>
      let numeric :=
        match py_float (remove_char "," sample) with
        | Some _ =>
            above_80_percent (numeric_count str_values) (length str_values)
        | None => false   (* the bare [except: pass] *)
        end in
      if numeric then Some TNumeric
      else if existsb (fun p => contains p sample) date_patterns
              && Nat.leb 8 (String.length sample)
      then Some TDate
      else if forallb (fun v => bool_decide (lower v ∈ boolean_words)) str_values
      then Some TBoolean
      else None
  | [] => None
  end.

Definition infer_column_type (values : list pyval) : result TypeTag :=
  match values with
  | [] => Ok TUnknown
  | _ :: _ =>
      let str_values := str_values_of values in
      match classify_by_content str_values with
      | Some t => Ok t
      | None =>
          low ← ratio_below_30_percent (unique_count str_values)
                                        (Nat.max (length str_values) 1);
          Ok (if low : bool then TCategory else TString)
      end
  end.

End TypeInference.

(** ** Schema Profiler: [build_schema_profile] *)

Module Profiler.
Import PyStr PyFloat TypeInference.

(** One entry of [columns_data].  [rc_text] is [str(col)], the text used
    as the name when neither name key holds a non-empty string. *)
Record raw_column : Type := {
  rc_column_name : option string;
  rc_name : option string;
  rc_data_type : option string;
  rc_type : option string;
  rc_text : string
}.

Record Stats : Type := {
  st_min : float;
  st_max : float;
  st_sample_avg : float
}.

Record ColumnProfile : Type := {
  cp_name : string;
  cp_type : TypeTag;
  cp_samples : list pyval;
  cp_stats : option Stats
}.

Record SchemaProfile : Type := {
  columns : list ColumnProfile;
  row_count : Z;
  column_names : list string;
  summary : string
}.

(** [a or b] where [a] is a str or missing *)
Definition or_else (a : option string) (b : string) : string :=
  match a with
  | Some (String c r) => String c r
  | _ => b
  end.

Definition col_name_of (col : raw_column) : string :=
  or_else (rc_column_name col) (or_else (rc_name col) (rc_text col)).

Definition col_type_raw_of (col : raw_column) : string :=
  or_else (rc_data_type col) (or_else (rc_type col) "").

(** The sample loop: the first five rows, the cells present under the
    column's name that are neither [None] nor blank. *)
Definition collect_samples (col_name : string)
    (sample_rows : list (gmap string pyval)) : list pyval :=
  omap (fun row : gmap string pyval =>
          match row !! col_name with
          | Some val =>
              if is_none val then None
              else match strip (py_str val) with
                   | EmptyString => None
                   | _ => Some val
                   end
          | None => None
          end)
       (take 5 sample_rows).

Definition declared_type (col_type_raw : string) : option TypeTag :=
  let t := lower col_type_raw in
  if contains "int" t || contains "float" t || contains "double" t
     || contains "decimal" t then Some TNumeric
  else if contains "date" t || contains "time" t then Some TDate
  else if contains "bool" t then Some TBoolean
  else None.

Definition column_type (col_type_raw : string) (samples : list pyval)
  : result TypeTag :=
  match declared_type col_type_raw with
  | Some t => Ok t
  | None =>
      match samples with
      | [] => Ok TString
      | _ => infer_column_type samples
      end
  end.

(** [[float(str(v).replace(',', '')) for v in xs if v is not None]];
    [None] when one conversion raises. *)
Definition numeric_vals_of (xs : list pyval) : option (list float) :=
  mapM (fun v => py_float (remove_char "," (py_str v)))
       (List.filter (fun v => negb (is_none v)) xs).

(** The [try] block that builds ["stats"] from a list of values. *)
Definition stats_of (xs : list pyval) : option Stats :=
  match numeric_vals_of xs with
  | Some (x :: r) =>
      let vals := x :: r in
      Some {| st_min := default x (py_min vals);
              st_max := default x (py_max vals);
              st_sample_avg := fdiv_nat (py_sum vals) (length vals) |}
  | _ => None
  end.

(** One iteration of [for col in columns_data]. *)
Definition profile_column (sample_rows : list (gmap string pyval))
    (col : raw_column) : result ColumnProfile :=
  let col_name := col_name_of col in
  let samples := collect_samples col_name sample_rows in
  inferred_type ← column_type (col_type_raw_of col) samples;
  Ok {| cp_name := col_name;
        cp_type := inferred_type;
        cp_samples := take 3 samples;
        cp_stats :=
          match inferred_type, samples with
          | TNumeric, _ :: _ => stats_of samples
          | _, _ => None
          end |}.

Definition type_order : list TypeTag :=
  [TNumeric; TDate; TCategory; TString; TBoolean; TUnknown].

Definition nat_text (n : nat) : string := py_str (PInt (Z.of_nat n)).

Definition summary_part (cols : list ColumnProfile) (t : TypeTag)
  : option string :=
  let col_names :=
    cp_name <$> List.filter (fun c => bool_decide (cp_type c = t)) cols in
  match col_names with
  | [] => None
  | _ =>
      Some (nat_text (length col_names) ++ " " ++ tag_text t ++ " ("
            ++ join ", " (take 3 col_names)
            ++ (if Nat.ltb 3 (length col_names) then "..." else "")
            ++ ")")
  end.

Definition build_schema_profile (columns_data : list raw_column)
    (sample_rows : list (gmap string pyval)) (row_count_arg : option Z)
  : result SchemaProfile :=
  profile_columns ← result_mapM (profile_column sample_rows) columns_data;
  Ok {| columns := profile_columns;
        row_count := default 0%Z row_count_arg;
        column_names := cp_name <$> profile_columns;
        summary := nat_text (length profile_columns) ++ " columns: "
                   ++ join ", " (omap (summary_part profile_columns) type_order) |}.

End Profiler.

(** ** JSON Extraction: [clean_llm_json] *)

Module JsonExtraction.
Import PyStr.

(** The [[OUT]...[/OUT]] step. *)
Definition unwrap_out (content : string) : string :=
  if contains "[OUT]" content && contains "[/OUT]" content then
    match search_out_wrapper content with
    | Some inner => strip inner
    | None => content
    end
  else content.

(** The markdown fence step: [content[7:]], [content[3:]], [content[:-3]]. *)
Definition strip_fences (content : string) : string :=
  let opened :=
    if startswith "```json" content then drop_chars 7 content
    else if startswith "```" content then drop_chars 3 content
    else content in
  if endswith "```" opened
  then take_chars (String.length opened - 3) opened
  else opened.

(** Everything between the emptiness test and the bracket scan. *)
Definition strip_artifacts (content : string) : string :=
  strip (strip_fences (strip (unwrap_out (strip_s_tags (strip content))))).

(** [content[i] == '{'] *)
Definition has_brace_at (i : Z) (content : string) : bool :=
  match String.get (Z.to_nat i) content with
  | Some c => Ascii.eqb c "{"
  | None => false
  end.

(** The bracket scan, from [start_obj = content.find('{')] on. *)
Definition extract_span (content : string) : string :=
  let start_obj := find "{" content in
  let start_arr := find "[" content in
  if Z.eqb start_obj (-1) && Z.eqb start_arr (-1) then "{}"
  else
    let start_idx :=
      if Z.eqb start_obj (-1) then start_arr
      else if Z.eqb start_arr (-1) then start_obj
      else Z.min start_obj start_arr in
    let end_idx :=
      if has_brace_at start_idx content then rfind "}" content
      else rfind "]" content in
    let content' :=
      if negb (Z.eqb end_idx (-1)) && Z.ltb start_idx end_idx
      then slice (Z.to_nat start_idx) (Z.to_nat (end_idx + 1)) content
      else content in
    strip content'.

(** [content] is [None] when the reply carries no text. *)
Definition clean_llm_json (content : option string) : string :=
  match content with
  | None | Some EmptyString => "{}"
  | Some text => extract_span (strip_artifacts text)
  end.

End JsonExtraction.

(** ** Chart Candidate Generator: [ChartSuggester] *)

Module ChartSuggester.
Import Profiler.

Record ChartCandidate : Type := {
  cc_id : Z;
  cc_name : string;
  cc_reason : string;
  (** ["encoding"]; a chart without the key reads as the empty mapping *)
  cc_encoding : gmap string string
}.

Record Suggestion : Type := {
  user_prompt : string;
  chosen_charts : list ChartCandidate
}.

(** What one completion request amounts to once its text went through
    [clean_llm_json] and [json.loads(...).get("chosen_charts", [])]. *)
Inductive llm_reply : Type :=
| LlmRaises
| LlmUnparseable
| LlmCharts (chosen : list ChartCandidate).

Definition generic_charts : list ChartCandidate :=
  [ {| cc_id := 1; cc_name := "bar_chart";
       cc_reason := "Default comparison chart"; cc_encoding := ∅ |};
    {| cc_id := 9; cc_name := "line_chart";
       cc_reason := "Default trend chart"; cc_encoding := ∅ |};
    {| cc_id := 6; cc_name := "pie_chart";
       cc_reason := "Default distribution chart"; cc_encoding := ∅ |};
    {| cc_id := 10; cc_name := "big_number";
       cc_reason := "Default KPI chart"; cc_encoding := ∅ |} ].

Definition names_of_type (ok : TypeTag -> bool) (cols : list ColumnProfile)
  : list string :=
  cp_name <$> List.filter (fun c => ok (cp_type c)) cols.

(** The six rules, in order, before the cut to four. *)
Definition rule_suggestions (cols : list ColumnProfile) : list ChartCandidate :=
  let date_cols := names_of_type (fun t => bool_decide (t = TDate)) cols in
  let numeric_cols := names_of_type (fun t => bool_decide (t = TNumeric)) cols in
  let category_cols :=
    names_of_type (fun t => bool_decide (t = TCategory) || bool_decide (t = TString)) cols in
  (match date_cols, numeric_cols with
   | d :: _, n :: _ =>
       [ {| cc_id := 9; cc_name := "line_chart";
            cc_reason := "Time trend: " ++ d ++ " vs " ++ n;
            cc_encoding := {[ "x" := d; "y" := n ]} |} ]
   | _, _ => []
   end)
  ++ (match category_cols, numeric_cols with
      | c :: _, n :: _ =>
          [ {| cc_id := 1; cc_name := "bar_chart";
               cc_reason := "Comparison: " ++ c ++ " vs " ++ n;
               cc_encoding := {[ "x" := c; "y" := n ]} |} ]
      | _, _ => []
      end)
  ++ (match numeric_cols with
      | n :: _ =>
          [ {| cc_id := 4; cc_name := "histogram";
               cc_reason := "Distribution of " ++ n;
               cc_encoding := {[ "x" := n ]} |} ]
      | [] => []
      end)
  ++ (match category_cols, numeric_cols with
      | c :: _, n :: _ =>
          [ {| cc_id := 6; cc_name := "pie_chart";
               cc_reason := "Share by " ++ c;
               cc_encoding := {[ "x" := c; "y" := n ]} |} ]
      | _, _ => []
      end)
  ++ (match numeric_cols with
      | n0 :: n1 :: _ =>
          [ {| cc_id := 5; cc_name := "scatter_plot";
               cc_reason := "Correlation: " ++ n0 ++ " vs " ++ n1;
               cc_encoding := {[ "x" := n0; "y" := n1 ]} |} ]
      | _ => []
      end)
  ++ (match numeric_cols with
      | n :: _ =>
          [ {| cc_id := 10; cc_name := "big_number";
               cc_reason := "Total " ++ n;
               cc_encoding := {[ "y" := n ]} |} ]
      | [] => []
      end).

(** [not schema_profile or not schema_profile.get("columns")] *)
Definition usable_columns (schema_profile : option SchemaProfile)
  : option (list ColumnProfile) :=
  match schema_profile with
  | Some p => match columns p with [] => None | cols => Some cols end
  | None => None
  end.

Definition _generate_fallback_suggestions (user_prompts : list string)
    (schema_profile : option SchemaProfile) : list Suggestion :=
  match usable_columns schema_profile with
  | None =>
      (fun prompt => {| user_prompt := prompt; chosen_charts := generic_charts |})
        <$> user_prompts
  | Some cols =>
      (fun prompt => {| user_prompt := prompt;
                        chosen_charts := take 4 (rule_suggestions cols) |})
        <$> user_prompts
  end.

(** [encoding.get(role, "")] *)
Definition encoding_get (chart : ChartCandidate) (role : string) : string :=
  default "" (cc_encoding chart !! role).

(** The test guarding [validated_charts.append(chart)]. *)
Definition references_known_columns (valid_columns : gset string)
    (chart : ChartCandidate) : bool :=
  let x_col := encoding_get chart "x" in
  let y_col := encoding_get chart "y" in
  (String.eqb x_col "" || bool_decide (x_col ∈ valid_columns))
  && (String.eqb y_col "" || bool_decide (y_col ∈ valid_columns)).

(** The validation block of [suggest], ending with
    [validated_charts if validated_charts else chosen_charts[:4]]. *)
Definition validate_charts (schema_profile : SchemaProfile)
    (chosen : list ChartCandidate) : list ChartCandidate :=
  let valid_columns : gset string := list_to_set (column_names schema_profile) in
  match List.filter (references_known_columns valid_columns) chosen with
  | [] => take 4 chosen
  | validated_charts => validated_charts
  end.

Definition fallback_charts (prompt : string) (schema_profile : option SchemaProfile)
  : list ChartCandidate :=
  match _generate_fallback_suggestions [prompt] schema_profile with
  | s :: _ => chosen_charts s
  | [] => []
  end.

(** One iteration of [for prompt in user_prompts]. *)
Definition suggest_prompt (schema_profile : SchemaProfile) (prompt : string)
    (reply : llm_reply) : Suggestion :=
  {| user_prompt := prompt;
     chosen_charts :=
       match reply with
       | LlmCharts chosen => validate_charts schema_profile chosen
       | LlmUnparseable | LlmRaises => fallback_charts prompt (Some schema_profile)
       end |}.

(** [llm i prompt] is the outcome of the completion request made for the
    [i]-th prompt. *)
Definition suggest (llm : nat -> string -> llm_reply) (user_prompts : list string)
    (schema_profile : option SchemaProfile) : list Suggestion :=
  match schema_profile, usable_columns schema_profile with
  | Some p, Some _ =>
      imap (fun i prompt => suggest_prompt p prompt (llm i prompt)) user_prompts
  | _, _ => _generate_fallback_suggestions user_prompts schema_profile
  end.

End ChartSuggester.

(** ** Query specifications and result payloads *)

(** One entry of ["select"]: the 3-field record, or a bare string. *)
Inductive select_item : Type :=
| SelRecord (column aggregation alias : option string)
| SelBare (text : string).

Record QuerySpec : Type := {
  source : string;
  select : list select_item;
  filters : list (string * string * pyval);
  groupBy : list string;
  orderBy : list (string * string);
  limit : option Z
}.

Definition with_source (q : QuerySpec) (s : string) : QuerySpec :=
  {| source := s; select := select q; filters := filters q;
     groupBy := groupBy q; orderBy := orderBy q; limit := limit q |}.

Definition with_select (q : QuerySpec) (sel : list select_item) : QuerySpec :=
  {| source := source q; select := sel; filters := filters q;
     groupBy := groupBy q; orderBy := orderBy q; limit := limit q |}.

(** A result row: a dict in key order. *)
Definition row : Type := list (string * pyval).

(** [row.get(key, dflt)] *)
Fixpoint row_get (r : row) (key : string) (dflt : pyval) : pyval :=
  match r with
  | (k, v) :: rest => if String.eqb k key then v else row_get rest key dflt
  | [] => dflt
  end.

(** The JSON body of [POST /query]. *)
Record submit_body : Type := { jobId : option string }.

(** The JSON body of [GET /query/{jobId}]; [resultData], when present, is
    a list of row mappings. *)
Record status_body : Type := {
  status : option string;
  message : option string;
  rowCount : option Z;
  resultData : option (list row)
}.

(** ** Query Execution Client: [execute_query_on_datalake] *)

Module Execution.

(** The outcome of one HTTP exchange, [raise_for_status] and [.json()]
    included. *)
Inductive http_reply (A : Type) : Type :=
| TransportError (text : string)   (* an [httpx.HTTPError] *)
| Malformed (text : string)        (* any other exception *)
| Body (a : A).
Arguments TransportError {A} text.
Arguments Malformed {A} text.
Arguments Body {A} a.

(** The data backend: the reply to a submission, and the reply to the
    [attempt]-th status request for a job. *)
Record backend : Type := {
  post_query : QuerySpec -> http_reply submit_body;
  get_query : string -> nat -> http_reply status_body
}.

Definition max_attempts : nat := 60.

(** [for attempt in range(60)], from [attempt] with [remaining] rounds
    left; the second component counts the status requests made. *)
Fixpoint poll (be : backend) (job_id : string) (attempt remaining : nat)
  : result status_body * nat :=
  match remaining with
  | O => (Raise (HTTPException 500 "Query execution timeout"), 0)
  | S k =>
      match get_query be job_id attempt with
      | TransportError text =>
          (Raise (HTTPException 500 ("Data-lakehouse error: " ++ text)), 1)
      | Malformed text => (Raise (OtherError text), 1)
      | Body status_data =>
          if bool_decide (status status_data = Some "completed") then
            (Ok status_data, 1)
          else if bool_decide (status status_data = Some "failed") then
            (Raise (HTTPException 500
                      ("Query failed: "
                       ++ default "Unknown error" (message status_data))), 1)
          else
            let '(r, n) := poll be job_id (S attempt) k in (r, S n)
      end
  end.

Definition execute_query_on_datalake (be : backend) (query_json : QuerySpec)
  : result status_body * nat :=
  match post_query be query_json with
  | TransportError text =>
      (Raise (HTTPException 500 ("Data-lakehouse error: " ++ text)), 0)
  | Malformed text => (Raise (OtherError text), 0)
  | Body result =>
      match jobId result with
      | Some (String c r) => poll be (String c r) 0 max_attempts
      | _ =>
          (Raise (HTTPException 500 "No jobId returned from data-lakehouse"), 0)
      end
  end.

End Execution.

(** ** Result Reshaper: [transform_to_chartjs_format] *)

Module Reshaper.
Import PyStr PyFloat.

(** A value of a dataset: an int, bool or float kept as it is, or the
    float a text converts to. *)
Inductive number : Type :=
| NInt (z : Z)
| NBool (b : bool)
| NFloat (f : float).

Record Dataset : Type := {
  label : string;
  data : list number;
  backgroundColor : list string
}.

Record ChartData : Type := {
  labels : list string;
  datasets : list Dataset
}.

Definition empty_chart : ChartData := {| labels := []; datasets := [] |}.

Definition colors : list string :=
  [ "#BCFF3C"; "#3CBCFF"; "#FF3CBC"; "#FFBC3C";
    "#3CFFBC"; "#BC3CFF"; "#FF6B6B"; "#6BFFB8" ].

(** The body of [for row in result_data] for one cell. *)
Definition to_number (val : pyval) : number :=
  match val with
  | PInt z => NInt z                  (* [isinstance(val, (int, float))] *)
  | PBool b => NBool b
  | PFloat f => NFloat f
  | PStr EmptyString => NInt 0        (* [val] is falsy *)
  | PStr s =>
      match py_float s with
      | Some f => NFloat f
      | None => NInt 0                (* [ValueError] *)
      end
  | PNone => NInt 0                   (* [val] is falsy *)
  end.

(** [for i, col in enumerate(cols, start=i)] *)
Fixpoint build_datasets (i : nat) (cols : list string) (result_data : list row)
  : list Dataset :=
  match cols with
  | [] => []
  | col :: rest =>
      let data_values :=
        (fun r => to_number (row_get r col (PInt 0))) <$> result_data in
      {| label := col;
         data := data_values;
         backgroundColor :=
           replicate (length data_values)
                     (default "" (colors !! (i mod length colors))) |}
      :: build_datasets (S i) rest result_data
  end.

Definition transform_to_chartjs_format (execution_result : status_body)
  : ChartData :=
  let result_data := default [] (resultData execution_result) in
  match result_data with
  | [] => empty_chart
  | first :: _ =>
      match fst <$> first with
      | [] => empty_chart
      | label_col :: value_cols =>
          {| labels := (fun r => py_str (row_get r label_col (PStr ""))) <$> result_data;
             datasets := build_datasets 0 value_cols result_data |}
      end
  end.

End Reshaper.

(** ** The exposed operations that execute chart queries *)

Module Api.
Import Execution Reshaper.

(** A chart of the query builder's reply.  [cr_error] is [None] while the
    key is absent, [Some None] once it is set to [None]. *)
Record ChartResult : Type := {
  cr_user_prompt : string;
  cr_chart_id : option string;
  cr_chart_type : string;
  cr_query : option QuerySpec;
  cr_encoding : gmap string string;
  cr_data : option ChartData;
  cr_error : option (option string)
}.

Definition set_query (c : ChartResult) (q : QuerySpec) : ChartResult :=
  {| cr_user_prompt := cr_user_prompt c; cr_chart_id := cr_chart_id c;
     cr_chart_type := cr_chart_type c; cr_query := Some q;
     cr_encoding := cr_encoding c; cr_data := cr_data c;
     cr_error := cr_error c |}.

Definition set_data (c : ChartResult) (d : ChartData) : ChartResult :=
  {| cr_user_prompt := cr_user_prompt c; cr_chart_id := cr_chart_id c;
     cr_chart_type := cr_chart_type c; cr_query := cr_query c;
     cr_encoding := cr_encoding c; cr_data := Some d;
     cr_error := cr_error c |}.

Definition set_error (c : ChartResult) (e : option string) : ChartResult :=
  {| cr_user_prompt := cr_user_prompt c; cr_chart_id := cr_chart_id c;
     cr_chart_type := cr_chart_type c; cr_query := cr_query c;
     cr_encoding := cr_encoding c; cr_data := cr_data c;
     cr_error := Some e |}.

Record BuildResult : Type := {
  intent : string;
  charts : list ChartResult
}.

(** What the query builder's completion request amounts to. *)
Inductive builder_reply : Type :=
| BuilderRaises (text : string)
| BuilderUnparseable
| BuilderResult (r : BuildResult).

(** [str(e)] *)
Definition exn_text (e : exn) : string :=
  match e with
  | HTTPException _ detail => detail
  | ZeroDivisionError => "division by zero"
  | KeyError key => "'" ++ key ++ "'"
  | OtherError text => text
  end.

Section Operations.
(** The request's [dataset_metadata] and [suggestions] reach the code
    only as text handed to the completion service. *)
Context {Metadata Suggestions : Type}.
Variable builder_llm : Metadata -> Suggestions -> builder_reply.

Definition build_final_charts (dataset_metadata : Metadata)
    (recommended : Suggestions) : result BuildResult :=
  match builder_llm dataset_metadata recommended with
  | BuilderResult r => Ok r
  | BuilderUnparseable => Ok {| intent := "visualization"; charts := [] |}
  | BuilderRaises text =>
      Raise (HTTPException 500 ("Error in Query Builder: " ++ text))
  end.

Definition hardcoded_source : string := "elm4r7a.sales".

(** One iteration of the loop of [api_build_queries]: the chart as it
    is left in the reply, and the queries handed to the backend.  A
    chart without ["chart_id"] makes the logging line raise inside the
    handler, which ends the request. *)
Definition build_queries_chart (be : backend) (chart : ChartResult)
  : result ChartResult * list QuerySpec :=
  match cr_chart_id chart with
  | None => (Raise (KeyError "chart_id"), [])
  | Some _ =>
      match cr_query chart with
      | None =>
          (Ok (set_error chart (Some ("Execution error: " ++ exn_text (KeyError "query")))), [])
      | Some q =>
          let query_spec := with_source q hardcoded_source in
          let chart := set_query chart query_spec in
          (match fst (execute_query_on_datalake be query_spec) with
           | Ok execution_result =>
               Ok (set_error (set_data chart (transform_to_chartjs_format execution_result)) None)
           | Raise (HTTPException _ detail) =>
               Ok (set_error chart (Some detail))
           | Raise e =>
               Ok (set_error chart (Some ("Execution error: " ++ exn_text e)))
           end, [query_spec])
      end
  end.

(** [for chart in result.get("charts", [])]; [be i] is the backend as
    it answers during the [i]-th iteration. *)
Fixpoint build_queries_loop (be : nat -> backend) (i : nat)
    (todo : list ChartResult) : result (list ChartResult) * list QuerySpec :=
  match todo with
  | [] => (Ok [], [])
  | chart :: rest =>
      match build_queries_chart (be i) chart with
      | (Ok chart', sent) =>
          let '(r, sent') := build_queries_loop be (S i) rest in
          (cs ← r; Ok (chart' :: cs), (sent ++ sent')%list)
      | (Raise e, sent) => (Raise e, sent)
      end
  end.

Definition api_build_queries (be : nat -> backend)
    (dataset_metadata : Metadata) (suggestions : Suggestions)
  : result BuildResult * list QuerySpec :=
  match build_final_charts dataset_metadata suggestions with
  | Raise e => (Raise e, [])
  | Ok result =>
      let '(r, sent) := build_queries_loop be 0 (charts result) in
      (cs ← r; Ok {| intent := intent result; charts := cs |}, sent)
  end.

End Operations.

(** *** Step 5 of [api_execute_prompt] *)

Definition selected_column (s : select_item) : option string :=
  match s with
  | SelRecord (Some (String c r)) _ _ => Some (String c r)
  | _ => None
  end.

(** [isinstance(s, dict) and s.get("column") in valid_column_names] *)
Definition keeps_select (valid_column_names : gset string) (s : select_item) : bool :=
  match s with
  | SelRecord (Some col) _ _ => bool_decide (col ∈ valid_column_names)
  | _ => false
  end.

(** The column check; [None] is the [continue] on an emptied select. *)
Definition repair_select (valid_column_names : gset string) (q : QuerySpec)
  : option QuerySpec :=
  let query_columns : gset string := list_to_set (omap selected_column (select q)) in
  if bool_decide (query_columns ∖ valid_column_names = ∅) then Some q
  else
    match List.filter (keeps_select valid_column_names) (select q) with
    | [] => None
    | kept => Some (with_select q kept)
    end.

(** One iteration of the loop of step 5: [None] when the chart is
    skipped, otherwise the chart appended to [valid_charts]. *)
Definition execute_prompt_chart (be : backend) (valid_column_names : gset string)
    (project_id table_name : string) (chart : ChartResult) : option ChartResult :=
  match cr_query chart with
  | None => None
  | Some q =>
      match repair_select valid_column_names q with
      | None => None
      | Some q1 =>
          let query_spec := with_source q1 (project_id ++ "." ++ table_name) in
          let chart := set_query chart query_spec in
          match fst (execute_query_on_datalake be query_spec) with
          | Ok execution_result =>
              Some (set_error (set_data chart (transform_to_chartjs_format execution_result)) None)
          | Raise (HTTPException _ detail) =>
              Some (set_data (set_error chart (Some detail)) empty_chart)
          | Raise e =>
              Some (set_data (set_error chart (Some ("Execution error: " ++ exn_text e))) empty_chart)
          end
      end
  end.

Definition execute_prompt_charts (be : nat -> backend)
    (valid_column_names : gset string) (project_id table_name : string)
    (todo : list ChartResult) : list ChartResult :=
  omap id (imap (fun i chart =>
                   execute_prompt_chart (be i) valid_column_names
                                        project_id table_name chart) todo).

End Api.


(** ** Fallback query builder: [_build_fallback_charts] *)

Module FallbackBuilder.
Import Profiler ChartSuggester Api.

(** A str that is present and not empty. *)
Definition truthy (o : option string) : option string :=
  match o with
  | Some (String c r) => Some (String c r)
  | _ => None
  end.

(** [encoding.get("x") or (category_cols[0] if category_cols else
    (date_cols[0] if date_cols else None))] *)
Definition pick_x (chart : ChartCandidate) (category_cols date_cols : list string)
  : option string :=
  match truthy (cc_encoding chart !! "x") with
  | Some x => Some x
  | None =>
      match category_cols with
      | c :: _ => Some c
      | [] => match date_cols with d :: _ => Some d | [] => None end
      end
  end.

(** [encoding.get("y") or (numeric_cols[0] if numeric_cols else None)] *)
Definition pick_y (chart : ChartCandidate) (numeric_cols : list string)
  : option string :=
  match truthy (cc_encoding chart !! "y") with
  | Some y => Some y
  | None => match numeric_cols with n :: _ => Some n | [] => None end
  end.

Definition fallback_query (project_id table_name : string)
    (x_col : option string) (y_col : string) : QuerySpec :=
  {| source := project_id ++ "." ++ table_name;
     select :=
       (match truthy x_col with
        | Some x => [SelRecord (Some x) None (Some x)]
        | None => []
        end)
       ++ [SelRecord (Some y_col) (Some "sum") (Some y_col)];
     filters := [];
     groupBy := match truthy x_col with Some x => [x] | None => [] end;
     orderBy := [(y_col, "desc")];
     limit := Some 20%Z |}.

(** The body of the inner loop: [None] is the [continue] taken when no
    [y] can be found.  The integer ["id"] of the candidate is carried by
    its decimal text. *)
Definition fallback_chart (project_id table_name : string)
    (numeric_cols category_cols date_cols : list string)
    (prompt : string) (chart : ChartCandidate) : option ChartResult :=
  let x_col := pick_x chart category_cols date_cols in
  match truthy (pick_y chart numeric_cols) with
  | None => None
  | Some y_col =>
      Some {| cr_user_prompt := prompt;
              cr_chart_id := Some (py_str (PInt (cc_id chart)));
              cr_chart_type := cc_name chart;
              cr_query := Some (fallback_query project_id table_name x_col y_col);
              cr_encoding :=
                {[ "x" := default "" (truthy x_col); "y" := y_col; "color" := "" ]};
              cr_data := None;
              cr_error := None |}
  end.

Definition _build_fallback_charts (suggestions : list Suggestion)
    (schema_profile : SchemaProfile) (project_id table_name : string)
  : BuildResult :=
  let cols := columns schema_profile in
  let numeric_cols := names_of_type (fun t => bool_decide (t = TNumeric)) cols in
  let category_cols :=
    names_of_type (fun t => bool_decide (t = TCategory) || bool_decide (t = TString)) cols in
  let date_cols := names_of_type (fun t => bool_decide (t = TDate)) cols in
  let all_charts :=
    suggestion_set ← suggestions;
    omap (fallback_chart project_id table_name numeric_cols category_cols date_cols
                         (user_prompt suggestion_set))
         (take 4 (chosen_charts suggestion_set)) in
  {| intent := "visualization"; charts := take 4 all_charts |}.

End FallbackBuilder.

(** ** Schema fetch: [fetch_table_columns] and its endpoint *)

Module SchemaFetch.
Import Profiler Execution Api.

(** The keys the code reads from a JSON body of the schema or job-status
    endpoint. *)
Record schema_body : Type := {
  sb_error : option string;
  sb_message : option string;
  sb_jobId : option string;
  sb_status : option string;
  sb_resultData : option (list row);
  sb_result_data : option (list row)
}.

(** A response: its status code, the text of its body and, when the text
    is JSON, the body read as such. *)
Record response : Type := {
  status_code : nat;
  text : string;
  json : option schema_body
}.

(** [{"_raw_text": resp.text}], which holds none of the keys read. *)
Definition raw_text_payload : schema_body :=
  {| sb_error := None; sb_message := None; sb_jobId := None; sb_status := None;
     sb_resultData := None; sb_result_data := None |}.

(** [try: payload = resp.json() / except Exception: ...] *)
Definition payload_of (resp : response) : schema_body :=
  default raw_text_payload (json resp).

Record schema_backend : Type := {
  get_schema : string -> string -> http_reply response;
  get_job : string -> nat -> http_reply response
}.

(** [payload.get("error") or payload.get("message") or resp.text] *)
Definition error_detail (payload : schema_body) (resp : response) : string :=
  or_else (sb_error payload) (or_else (sb_message payload) (text resp)).

(** [a or b or []] on row lists *)
Definition rows_or (a : option (list row)) (b : list row) : list row :=
  match a with
  | Some (r :: rs) => r :: rs
  | _ => b
  end.

(** [payload.get("resultData") or payload.get("result_data") or []] *)
Definition result_rows (payload : schema_body) : list row :=
  rows_or (sb_resultData payload) (rows_or (sb_result_data payload) []).

(** [for _ in range(timeout)] with its [else] clause; the second
    component counts the status requests made. *)
Fixpoint poll_schema_job (be : schema_backend) (job_id : string)
    (attempt remaining : nat) : result schema_body * nat :=
  match remaining with
  | O => (Raise (HTTPException 504 "Timed out waiting for schema job to complete"), 0)
  | S k =>
      match get_job be job_id attempt with
      | TransportError err =>
          (Raise (HTTPException 502 ("Error polling schema job: " ++ err)), 1)
      | Malformed err => (Raise (OtherError err), 1)
      | Body status_resp =>
          let status_payload := payload_of status_resp in
          if Nat.leb 500 (status_code status_resp) then
            (Raise (HTTPException 502
                      ("Schema job status endpoint error "
                       ++ nat_text (status_code status_resp) ++ ": "
                       ++ text status_resp)), 1)
          else if bool_decide (sb_status status_payload = Some "completed") then
            (Ok status_payload, 1)
          else if bool_decide (sb_status status_payload = Some "failed") then
            (Raise (HTTPException 400
                      ("Schema job failed: "
                       ++ or_else (sb_message status_payload)
                            (or_else (sb_error status_payload) (text status_resp)))), 1)
          else
            let '(r, n) := poll_schema_job be job_id (S attempt) k in (r, S n)
      end
  end.

(** [job_id and status in ("queued", "running")] *)
Definition job_pointer (payload : schema_body) : option string :=
  match FallbackBuilder.truthy (sb_jobId payload) with
  | Some job_id =>
      if bool_decide (sb_status payload = Some "queued")
         || bool_decide (sb_status payload = Some "running")
      then Some job_id else None
  | None => None
  end.

(** The value under ["columns"] of the returned dict, and the number of
    job-status requests made. *)
Definition fetch_table_columns (be : schema_backend)
    (project_id table_name : string) (timeout : nat)
  : result (list row) * nat :=
  match get_schema be project_id table_name with
  | TransportError err =>
      (Raise (HTTPException 502
                ("Network error contacting data-lakehouse: " ++ err)), 0)
  | Malformed err => (Raise (OtherError err), 0)
  | Body resp =>
      let payload := payload_of resp in
      if Nat.leb 500 (status_code resp) then
        (Raise (HTTPException 502
                  ("Data-lakehouse schema endpoint error "
                   ++ nat_text (status_code resp) ++ ": "
                   ++ error_detail payload resp)), 0)
      else if Nat.leb 400 (status_code resp) then
        (Raise (HTTPException 400
                  ("Data-lakehouse schema endpoint returned "
                   ++ nat_text (status_code resp) ++ ": "
                   ++ error_detail payload resp)), 0)
      else
        match job_pointer payload with
        | Some job_id =>
            let '(r, n) := poll_schema_job be job_id 0 timeout in
            (payload' ← r; Ok (result_rows payload'), n)
        | None => (Ok (result_rows payload), 0)
        end
  end.

Definition default_timeout : nat := 30.

(** [GET /schema/{project_id}/{table_name}/columns] *)
Definition api_get_table_columns (be : schema_backend)
    (project_id table_name : string) : result (list row) :=
  match fst (fetch_table_columns be project_id table_name default_timeout) with
  | Ok cols => Ok cols
  | Raise (HTTPException code detail) => Raise (HTTPException code detail)
  | Raise e => Raise (HTTPException 500 (exn_text e))
  end.

End SchemaFetch.

(** ** [POST /suggest-charts] *)

Module SuggestApi.
Import ChartSuggester.

(** [suggester.suggest(request.user_prompts)]: no schema is passed. *)
Definition api_suggest_charts (llm : nat -> string -> llm_reply)
    (user_prompts : list string) : list Suggestion :=
  suggest llm user_prompts None.

End SuggestApi.

(** ** [POST /execute-prompt] *)

Module ExecutePrompt.
Import Profiler ChartSuggester Execution Reshaper Api FallbackBuilder.

(** [c.get("column_name") or c.get("name")] *)
Definition name_or_none (c : raw_column) : option string :=
  match truthy (rc_column_name c) with
  | Some s => Some s
  | None => rc_name c
  end.

(** The query of step 2, over the first twenty columns. *)
Definition sample_query (columns_data : list raw_column)
    (project_id table_name : string) : QuerySpec :=
  {| source := project_id ++ "." ++ table_name;
     select := (fun c => SelRecord (name_or_none c) None (name_or_none c))
                 <$> take 20 columns_data;
     filters := [];
     groupBy := [];
     orderBy := [];
     limit := Some 100%Z |}.

(** Step 2: the first five rows of the sample result, or no row at all
    when the sample query fails in any way. *)
Definition fetch_sample_rows (be : backend) (columns_data : list raw_column)
    (project_id table_name : string) : list row :=
  match fst (execute_query_on_datalake be
               (sample_query columns_data project_id table_name)) with
  | Ok sample_result => take 5 (default [] (resultData sample_result))
  | Raise _ => []
  end.

(** [enhanced_metadata] *)
Record EnhancedMetadata : Type := {
  em_columns : list ColumnProfile;
  em_column_names : list string;
  em_summary : string;
  em_projectId : string;
  em_tableName : string
}.

Section Operation.
(** [str(e)] for the exception of the schema fetch, and the two
    completion services. *)
Variable str_exn : exn -> string.
Variable suggest_llm : nat -> string -> llm_reply.
Variable builder_llm : EnhancedMetadata -> list Suggestion -> builder_reply.

(** Step 4, with the fallback builder substituted on failure. *)
Definition build_or_fallback (schema_profile : SchemaProfile)
    (suggestions : list Suggestion) (project_id table_name : string)
  : BuildResult :=
  let enhanced_metadata :=
    {| em_columns := columns schema_profile;
       em_column_names := column_names schema_profile;
       em_summary := summary schema_profile;
       em_projectId := project_id;
       em_tableName := table_name |} in
  match build_final_charts builder_llm enhanced_metadata suggestions with
  | Ok result => result
  | Raise _ => _build_fallback_charts suggestions schema_profile project_id table_name
  end.

(** [schema] is the outcome of [fetch_table_columns], its rows read as
    column descriptors.  [be 0] answers the sample query and [be (S i)]
    the query of the [i]-th chart. *)
Definition api_execute_prompt (schema : result (list raw_column))
    (be : nat -> backend) (user_prompts : list string)
    (project_id table_name : string) : result BuildResult :=
  match schema with
  | Raise e =>
      Raise (HTTPException 400 ("Failed to fetch table schema: " ++ str_exn e))
  | Ok columns_data =>
      let sample_rows := fetch_sample_rows (be 0) columns_data project_id table_name in
      schema_profile ←
        build_schema_profile columns_data (list_to_map <$> sample_rows) None;
      let suggestions := suggest suggest_llm user_prompts (Some schema_profile) in
      let result := build_or_fallback schema_profile suggestions project_id table_name in
      Ok {| intent := intent result;
            charts :=
              execute_prompt_charts (fun i => be (S i))
                (list_to_set (column_names schema_profile))
                project_id table_name (charts result) |}
  end.

End Operation.

End ExecutePrompt.
(** * Specification predicates and sample inputs *)

Module Samples.
Import PyFloat Profiler ChartSuggester Execution Reshaper Api.

(** Six samples, five of them digit-only, led by a non-numeric one. *)
Definition samples_led_by_text : list pyval :=
  [PStr "N/A"; PInt 1; PInt 2; PInt 3; PInt 4; PInt 5].

(** [f] is a least (greatest) item of [fs]: one of them, below (above)
    which no item compares. *)
Definition least_of (fs : list float) (f : float) : Prop :=
  f ∈ fs /\ Forall (fun x => flt x f = false) fs.
Definition greatest_of (fs : list float) (f : float) : Prop :=
  f ∈ fs /\ Forall (fun x => fgt x f = false) fs.

(** [f] is the average of [fs] as binary64 arithmetic gives it: the items
    added to 0 one after the other, and that sum divided by their
    number. *)
Definition mean_of (fs : list float) (f : float) : Prop :=
  f = PrimFloat.div (fold_left PrimFloat.add fs zero) (of_nat (length fs)).

(** Four sample rows for one column that declares no type. *)
Definition revenue_rows : list (gmap string pyval) :=
  [ {[ "Revenue" := PInt 1 ]}; {[ "Revenue" := PInt 2 ]};
    {[ "Revenue" := PInt 3 ]}; {[ "Revenue" := PInt 100 ]} ].

Definition revenue_column : raw_column :=
  {| rc_column_name := Some "Revenue"; rc_name := None;
     rc_data_type := None; rc_type := None; rc_text := "" |}.

(** The characters of a text, and the closing bracket that matches an
    opening one. *)
Definition chars (s : string) : list ascii := String.list_ascii_of_string s.

Definition closer (k : ascii) : ascii :=
  if Ascii.eqb k "{" then "}"%char else "]"%char.

(** A text that does not begin with white space. *)
Definition starts_clean (s : string) : Prop :=
  match s with
  | String c _ => PyStr.isspace c = false
  | EmptyString => True
  end.

(** Every present, non-empty [x] or [y] of the chart's encoding is one of
    [names]. *)
Definition encoding_grounded (names : list string) (chart : ChartCandidate) : Prop :=
  forall role v,
    role = "x" \/ role = "y" ->
    cc_encoding chart !! role = Some v -> v <> "" -> v ∈ names.

(** A two-column profile: a category and a numeric column. *)
Definition sales_profile : SchemaProfile :=
  {| columns :=
       [ {| cp_name := "Region"; cp_type := TCategory; cp_samples := [];
            cp_stats := None |};
         {| cp_name := "Sales"; cp_type := TNumeric; cp_samples := [];
            cp_stats := None |} ];
     row_count := 0;
     column_names := ["Region"; "Sales"];
     summary := "2 columns: 1 numeric (Sales), 1 category (Region)" |}.

(** A candidate whose [y] names a column the profile does not have. *)
Definition profit_chart : ChartCandidate :=
  {| cc_id := 1; cc_name := "bar_chart"; cc_reason := "Profit by region";
     cc_encoding := {[ "x" := "Region"; "y" := "Profit" ]} |}.

Definition sales_chart (id : Z) (name : string) : ChartCandidate :=
  {| cc_id := id; cc_name := name; cc_reason := "Sales by region";
     cc_encoding := {[ "x" := "Region"; "y" := "Sales" ]} |}.

(** Five candidates that all reference existing columns. *)
Definition five_valid_charts : list ChartCandidate :=
  [ sales_chart 1 "bar_chart"; sales_chart 6 "pie_chart";
    sales_chart 9 "line_chart"; sales_chart 2 "area_chart";
    sales_chart 3 "column_chart" ].

(** A status reply that is neither [completed] nor [failed]. *)
Definition pending (r : http_reply status_body) : Prop :=
  exists d, r = Body d
            /\ status d <> Some "completed" /\ status d <> Some "failed".

Definition running_body : status_body :=
  {| status := Some "running"; message := None; rowCount := None;
     resultData := None |}.

(** A backend that accepts the job and then reports [running] for ever. *)
Definition backend_running : backend :=
  {| post_query := fun _ => Body {| jobId := Some "job-1" |};
     get_query := fun _ _ => Body running_body |}.

(** A backend that accepts the job and reports it [failed] at once. *)
Definition backend_failed : backend :=
  {| post_query := fun _ => Body {| jobId := Some "job-7" |};
     get_query := fun _ _ =>
       Body {| status := Some "failed"; message := Some "table not found";
               rowCount := None; resultData := None |} |}.

Definition sales_query : QuerySpec :=
  {| source := "uploaded_file";
     select := [ SelRecord (Some "Region") None (Some "Region");
                 SelRecord (Some "Sales") (Some "sum") (Some "Sales") ];
     filters := [];
     groupBy := ["Region"];
     orderBy := [("Sales", "desc")];
     limit := None |}.

Definition sales_chart_result : ChartResult :=
  {| cr_user_prompt := "sales by region"; cr_chart_id := Some "1";
     cr_chart_type := "bar_chart"; cr_query := Some sales_query;
     cr_encoding := {[ "x" := "Region"; "y" := "Sales" ]};
     cr_data := None; cr_error := None |}.

(** A request whose metadata names its own table, and a query builder
    that answers with the one chart whatever it is handed. *)
Definition orders_metadata : gmap string string :=
  {[ "projectId" := "acme"; "tableName" := "orders" ]}.

Definition builder_one_chart {A B : Type} (_ : A) (_ : B) : builder_reply :=
  BuilderResult {| intent := "visualization"; charts := [sales_chart_result] |}.

(** The value of a dataset cell as the reshaping rule words it: numeric
    cells as they are, other cells parsed as a float, 0 when that fails. *)
Definition reshaped_value (v : pyval) : number :=
  match v with
  | PInt z => NInt z
  | PBool b => NBool b
  | PFloat f => NFloat f
  | PStr s => from_option NFloat (NInt 0) (py_float s)
  | PNone => NInt 0
  end.

(** The rows of scenario B. *)
Definition region_sales_rows : list row :=
  [ [("Region", PStr "Asia"); ("Sales", PInt 100)];
    [("Region", PStr "EU"); ("Sales", PInt 50)] ].

(** Rows whose value cells are a float, texts that convert, a numeral
    beyond the binary64 range, texts that do not convert (the last one
    led by the FS control character), [None] and a missing cell. *)
Definition mixed_cell_rows : list row :=
  [ [("Item", PStr "a"); ("Value", PFloat 2.5)];
    [("Item", PStr "b"); ("Value", PStr "3.5")];
    [("Item", PStr "c"); ("Value", PStr " 0.1 ")];
    [("Item", PStr "d"); ("Value", PStr "1e400")];
    [("Item", PStr "e"); ("Value", PStr "n/a")];
    [("Item", PStr "f"); ("Value", PStr (String (ascii_of_nat 28) "5"))];
    [("Item", PFloat 0.5); ("Value", PNone)];
    [("Item", PNone)] ].

Definition completed_with (rows : list row) : status_body :=
  {| status := Some "completed"; message := None;
     rowCount := Some (Z.of_nat (length rows)); resultData := Some rows |}.

(** The chart's query, when it has one, reads from [s]. *)
Definition reads_from (s : string) (chart : ChartResult) : Prop :=
  match cr_query chart with
  | Some q => source q = s
  | None => True
  end.

End Samples.


(** * Further specification predicates *)

Module Shapes.
Import PyFloat Profiler ChartSuggester Execution Reshaper Api SchemaFetch.

(** Every value of the chart's encoding, under whatever role, is one of
    [names]. *)
Definition encoding_within (names : list string) (chart : ChartCandidate) : Prop :=
  forall role v, cc_encoding chart !! role = Some v -> v ∈ names.

(** The names a fallback suggestion may use: those of the profile's
    columns, none without a profile. *)
Definition profile_names (schema_profile : option SchemaProfile) : list string :=
  match schema_profile with
  | Some p => cp_name <$> columns p
  | None => []
  end.

(** [c'] is the chart [c] as far as prompt, id, type and encoding go. *)
Definition same_identity (c c' : ChartResult) : Prop :=
  cr_user_prompt c' = cr_user_prompt c
  /\ cr_chart_id c' = cr_chart_id c
  /\ cr_chart_type c' = cr_chart_type c
  /\ cr_encoding c' = cr_encoding c.

Definition has_query (c : ChartResult) : bool :=
  match cr_query c with Some _ => true | None => false end.

(** Every select record of the query that names a column names one of
    [valid]. *)
Definition selects_within (valid : gset string) (q : QuerySpec) : Prop :=
  Forall (fun s => forall col, selected_column s = Some col -> col ∈ valid)
         (select q).

(** What the fallback builder puts into a chart, for the measure [y_col]
    and the optional dimension [x_col]. *)
Definition fallback_shaped (project_id table_name : string) (c : ChartResult) : Prop :=
  exists q y_col,
    cr_query c = Some q
    /\ y_col <> ""
    /\ source q = project_id ++ "." ++ table_name
    /\ filters q = []
    /\ orderBy q = [(y_col, "desc")]
    /\ limit q = Some 20%Z
    /\ (select q = [SelRecord (Some y_col) (Some "sum") (Some y_col)]
         /\ groupBy q = [] /\ cr_encoding c !! "x" = Some ""
        \/ exists x_col,
             x_col <> ""
             /\ select q = [SelRecord (Some x_col) None (Some x_col);
                            SelRecord (Some y_col) (Some "sum") (Some y_col)]
             /\ groupBy q = [x_col] /\ cr_encoding c !! "x" = Some x_col)
    /\ cr_encoding c !! "y" = Some y_col
    /\ cr_chart_id c <> None /\ cr_data c = None /\ cr_error c = None.

(** A reply to a job-status request after which the schema fetch keeps
    polling: any response below 500, JSON or not, whose status is neither
    [completed] nor [failed]. *)
Definition schema_pending (reply : http_reply response) : Prop :=
  exists resp, reply = Body resp
               /\ status_code resp < 500
               /\ sb_status (payload_of resp) <> Some "completed"
               /\ sb_status (payload_of resp) <> Some "failed".

(** A response that points to a queued job. *)
Definition queued_response (job_id : string) : response :=
  {| status_code := 202; text := "queued";
     json := Some {| sb_error := None; sb_message := None;
                     sb_jobId := Some job_id; sb_status := Some "queued";
                     sb_resultData := None; sb_result_data := None |} |}.

(** A job-status endpoint that answers 404 with a body that is not JSON. *)
Definition not_found_response : response :=
  {| status_code := 404; text := "not found"; json := None |}.

Definition backend_queued_then_404 : schema_backend :=
  {| get_schema := fun _ _ => Body (queued_response "job-9");
     get_job := fun _ _ => Body not_found_response |}.

End Shapes.
(** * Properties *)

(** ** Type Inference *)

Section TypeInferenceFacts.
Import PyStr PyFloat TypeInference Samples.

Lemma str_values_of_all_none (values : list pyval) :
  Forall (fun v => v = PNone) values -> str_values_of values = [].
Proof.
  induction 1 as [|v vs Hv _ IH]; [reflexivity|].
  subst v. exact IH.
Qed.

Lemma ratio_below_30_percent_clamped (num len : nat) :
  exists b, ratio_below_30_percent num (Nat.max len 1) = Ok b.
Proof.
  destruct (Nat.max len 1) as [|d] eqn:E; [lia|].
  simpl. eauto.
Qed.

Lemma infer_column_type_returns (values : list pyval) :
  exists t, infer_column_type values = Ok t.
Proof.
  destruct values as [|v vs]; [by exists TUnknown|].
  unfold infer_column_type.
  destruct (classify_by_content _) as [t|]; [by exists t|].
  destruct (ratio_below_30_percent_clamped
              (unique_count (str_values_of (v :: vs)))
              (length (str_values_of (v :: vs)))) as [b ->].
  simpl. eauto.
Qed.

(** C10.  Type Inference returns a tag on every input list, it never
    raises; the divisor of the cardinality ratio is [max(len, 1)], so a
    non-empty list holding only [None] does not divide by zero and is
    tagged [category]. *)
Theorem infer_column_type_all_none (values : list pyval) :
  (exists t, infer_column_type values = Ok t)
  /\ (values <> [] -> Forall (fun v => v = PNone) values ->
      Nat.max (length (str_values_of values)) 1 = 1
      /\ infer_column_type values = Ok TCategory).
Proof.
  split; [apply infer_column_type_returns|].
  intros Hne Hall.
  destruct values as [|v vs]; [done|].
  unfold infer_column_type.
  rewrite (str_values_of_all_none _ Hall).
  split; reflexivity.
Qed.

Lemma infer_column_type_all_none_witness :
  [PNone; PNone; PNone] <> []
  /\ Forall (fun v => v = PNone) [PNone; PNone; PNone]
  /\ infer_column_type [PNone; PNone; PNone] = Ok TCategory.
Proof.
  assert (Hne : [PNone; PNone; PNone] <> []) by discriminate.
  assert (Hall : Forall (fun v => v = PNone) [PNone; PNone; PNone])
    by (repeat constructor).
  split; [exact Hne|]. split; [exact Hall|].
  exact (proj2 (proj2 (infer_column_type_all_none [PNone; PNone; PNone]) Hne Hall)).
Defined.

(** C3, as stated, fails: more than 80% of the values are numeric
    literals, yet the tag is [string], because the numeric test is only
    reached when the first value converts with [float]. *)
Lemma infer_column_type_first_value_gates :
  samples_led_by_text <> []
  /\ numeric_count (str_values_of samples_led_by_text) = 5
  /\ length (str_values_of samples_led_by_text) = 6
  /\ above_80_percent 5 6 = true
  /\ infer_column_type samples_led_by_text = Ok TString
  /\ infer_column_type samples_led_by_text <> Ok TNumeric.
Proof.
  assert (Htag : infer_column_type samples_led_by_text = Ok TString)
    by (vm_compute; reflexivity).
  split; [discriminate|].
  split; [vm_compute; reflexivity|].
  split; [vm_compute; reflexivity|].
  split; [vm_compute; reflexivity|].
  split; [exact Htag|].
  rewrite Htag. discriminate.
Qed.

(** C3, amended.  When the first non-[None] value converts with [float]
    once its commas are removed, and more than 80% of the non-[None]
    values are digit-only after removing [,], [.] and [-], the tag is
    [numeric]. *)
Theorem infer_column_type_numeric (values : list pyval)
    (sample : string) (others : list string) :
  str_values_of values = sample :: others ->
  is_Some (py_float (remove_char "," sample)) ->
  10 * numeric_count (sample :: others) > 8 * length (sample :: others) ->
  infer_column_type values = Ok TNumeric.
Proof.
  intros Hstr [f Hf] Hratio.
  destruct values as [|v vs]; [discriminate|].
  unfold infer_column_type. rewrite Hstr.
  unfold classify_by_content. rewrite Hf.
  assert (above_80_percent (numeric_count (sample :: others))
                           (length (sample :: others)) = true) as ->.
  { unfold above_80_percent. apply Nat.ltb_lt. lia. }
  reflexivity.
Qed.

Lemma infer_column_type_numeric_witness :
  str_values_of [PStr "1,200"; PNone; PInt 7; PStr "3.5"; PInt (-2); PStr "x"; PInt 9]
    = ["1,200"; "7"; "3.5"; "-2"; "x"; "9"]
  /\ is_Some (py_float (remove_char "," "1,200"))
  /\ 10 * numeric_count ["1,200"; "7"; "3.5"; "-2"; "x"; "9"]
       > 8 * length ["1,200"; "7"; "3.5"; "-2"; "x"; "9"]
  /\ infer_column_type
       [PStr "1,200"; PNone; PInt 7; PStr "3.5"; PInt (-2); PStr "x"; PInt 9]
     = Ok TNumeric.
Proof.
  assert (H1 : str_values_of
                 [PStr "1,200"; PNone; PInt 7; PStr "3.5"; PInt (-2); PStr "x"; PInt 9]
               = ["1,200"; "7"; "3.5"; "-2"; "x"; "9"]) by reflexivity.
  assert (H2 : is_Some (py_float (remove_char "," "1,200")))
    by (vm_compute; eauto).
  assert (H3 : 10 * numeric_count ["1,200"; "7"; "3.5"; "-2"; "x"; "9"]
               > 8 * length ["1,200"; "7"; "3.5"; "-2"; "x"; "9"])
    by (vm_compute; lia).
  split; [exact H1|]. split; [exact H2|]. split; [exact H3|].
  exact (infer_column_type_numeric _ _ _ H1 H2 H3).
Defined.

End TypeInferenceFacts.

(** ** Python floats *)

Section FloatFacts.
Import PyStr PyFloat.

(** [float(text)] on sample texts: binary64 rounding, overflow and
    underflow, the accepted spellings, and the texts it rejects (the FS
    control character is not white space for [float]). *)
Lemma py_float_examples :
  py_float <$> [ "0.1"; " 12 "; "1,5"; "1e400"; "-1e-400"; "1_000.5"; "1.";
                 ".5"; "-Infinity"; "NaN"; "9007199254740993";
                 String (ascii_of_nat 28) "5"; "1e"; "0x10"; ""; " " ]
  = [ Some 0.1; Some 12; None; Some infinity; Some (-0); Some 1000.5; Some 1;
      Some 0.5; Some neg_infinity; Some nan; Some 9007199254740992;
      None; None; None; None; None ]%float.
Proof. vm_compute. reflexivity. Qed.

(** [str] of sample floats: the shortest numeral that converts back, in
    exponent notation from 1e16 on and below 1e-4. *)
Lemma float_repr_examples :
  float_repr <$> [ 0.1; 0.30000000000000004; 100; -2.5; 1e15; 1e16; 0.0001;
                   0.00001; 123456789.125; 5e-324; 0; -0; infinity; nan ]%float
  = [ "0.1"; "0.30000000000000004"; "100.0"; "-2.5"; "1000000000000000.0";
      "1e+16"; "0.0001"; "1e-05"; "123456789.125"; "5e-324"; "0.0"; "-0.0";
      "inf"; "nan" ].
Proof. vm_compute. reflexivity. Qed.

Lemma SFltb_irrefl (a : spec_float) : SFltb a a = false.
Proof.
  unfold SFltb.
  destruct a as [s|s| |s m e]; simpl; try reflexivity; destruct s; simpl;
    try reflexivity; rewrite Z.compare_refl;
    change (Pos.compare_cont Eq m m) with (Pos.compare m m);
    by rewrite Pos.compare_refl.
Qed.

Lemma SFltb_trans (a b c : spec_float) :
  SFltb a b = true -> SFltb b c = true -> SFltb a c = true.
Proof.
  unfold SFltb.
  destruct a as [sa|sa| |sa ma ea], b as [sb|sb| |sb mb eb],
           c as [sc|sc| |sc mc ec];
    simpl; try discriminate; try reflexivity;
    try (destruct sa; simpl; try discriminate; try reflexivity);
    try (destruct sb; simpl; try discriminate; try reflexivity);
    try (destruct sc; simpl; try discriminate; try reflexivity).
  all: change (Pos.compare_cont Eq ma mb) with (Pos.compare ma mb);
       change (Pos.compare_cont Eq mb mc) with (Pos.compare mb mc);
       change (Pos.compare_cont Eq ma mc) with (Pos.compare ma mc).
  all: destruct (Z.compare_spec ea eb), (Z.compare_spec eb ec),
         (Z.compare_spec ea ec); try lia; try discriminate; try reflexivity.
  all: destruct (Pos.compare_spec ma mb), (Pos.compare_spec mb mc),
         (Pos.compare_spec ma mc); simpl; try lia; try discriminate;
         try reflexivity.
Qed.

Lemma flt_irrefl (x : float) : flt x x = false.
Proof. unfold flt. rewrite ltb_spec. apply SFltb_irrefl. Qed.

Lemma flt_trans (x y z : float) :
  flt x y = true -> flt y z = true -> flt x z = true.
Proof. unfold flt. rewrite !ltb_spec. apply SFltb_trans. Qed.

Lemma fgt_irrefl (x : float) : fgt x x = false.
Proof. apply flt_irrefl. Qed.

Lemma fgt_trans (x y z : float) :
  fgt x y = true -> fgt y z = true -> fgt x z = true.
Proof. unfold fgt. intros H1 H2. exact (flt_trans _ _ _ H2 H1). Qed.

End FloatFacts.
(** ** Schema Profiler *)

Section ProfilerFacts.
Import PyStr PyFloat TypeInference Profiler Samples.

(** The running choice of [min] and [max], for any strict order [lt]:
    the result is the start value or an item, and nothing seen compares
    below it. *)
Lemma fold_least (lt : float -> float -> bool) (l : list float) (m0 : float) :
  (forall x, lt x x = false) ->
  (forall x y z, lt x y = true -> lt y z = true -> lt x z = true) ->
  let m := fold_left (fun m y => if lt y m then y else m) l m0 in
  (m = m0 \/ m ∈ l)
  /\ Forall (fun x => lt x m = false) l
  /\ (forall v, lt v m0 = false -> lt v m = false).
Proof.
  intros Hirr Htrans. revert m0.
  induction l as [|a l IH]; intros m0; cbn [fold_left].
  - split; [by left|]. split; [constructor|]. auto.
  - destruct (IH (if lt a m0 then a else m0)) as (Hin & Hall & Hkeep).
    split; [|split].
    + destruct Hin as [Hin|Hin]; [|right; by constructor].
      rewrite Hin. destruct (lt a m0); [right; by constructor|by left].
    + constructor; [|exact Hall].
      apply Hkeep. destruct (lt a m0) eqn:E; [apply Hirr|exact E].
    + intros v Hv. apply Hkeep.
      destruct (lt a m0) eqn:E; [|exact Hv].
      destruct (lt v a) eqn:Eva; [|reflexivity].
      by rewrite (Htrans _ _ _ Eva E) in Hv.
Qed.

Lemma py_min_least (fs : list float) :
  fs <> [] -> exists f, py_min fs = Some f /\ least_of fs f.
Proof.
  destruct fs as [|x fs]; [done|]. intros _.
  destruct (fold_least flt fs x flt_irrefl flt_trans) as (Hin & Hall & Hkeep).
  eexists. split; [reflexivity|]. split.
  - destruct Hin as [->|Hin]; by constructor.
  - constructor; [|exact Hall]. apply Hkeep, flt_irrefl.
Qed.

Lemma py_max_greatest (fs : list float) :
  fs <> [] -> exists f, py_max fs = Some f /\ greatest_of fs f.
Proof.
  destruct fs as [|x fs]; [done|]. intros _.
  destruct (fold_least fgt fs x fgt_irrefl fgt_trans) as (Hin & Hall & Hkeep).
  eexists. split; [reflexivity|]. split.
  - destruct Hin as [->|Hin]; by constructor.
  - constructor; [|exact Hall]. apply Hkeep, fgt_irrefl.
Qed.

Lemma length_omap_le {A B : Type} (f : A -> option B) (l : list A) :
  length (omap f l) <= length l.
Proof.
  induction l as [|x l IH]; [simpl; lia|].
  change (omap f (x :: l))
    with (match f x with Some y => y :: omap f l | None => omap f l end).
  destruct (f x); simpl; lia.
Qed.

Lemma collect_samples_at_most_five (col_name : string)
    (sample_rows : list (gmap string pyval)) :
  length (collect_samples col_name sample_rows) <= 5.
Proof.
  unfold collect_samples.
  etransitivity; [apply length_omap_le|].
  rewrite length_take. lia.
Qed.

(** The statistics of a list all of whose values convert. *)
Lemma stats_of_converted (xs : list pyval) (fs : list float) :
  fs <> [] -> numeric_vals_of xs = Some fs ->
  exists st, stats_of xs = Some st
             /\ least_of fs (st_min st)
             /\ greatest_of fs (st_max st)
             /\ mean_of fs (st_sample_avg st).
Proof.
  intros Hne Hvals. unfold stats_of. rewrite Hvals.
  destruct (py_min_least fs Hne) as (fmin & Hmin & Hleast).
  destruct (py_max_greatest fs Hne) as (fmax & Hmax & Hgreatest).
  destruct fs as [|f fs]; [done|].
  cbv zeta. eexists. split; [reflexivity|].
  cbv [st_min st_max st_sample_avg].
  rewrite Hmin, Hmax. simpl default.
  split; [exact Hleast|]. split; [exact Hgreatest|]. reflexivity.
Qed.

(** One sample that does not convert leaves the column without stats,
    whatever the other samples are. *)
Lemma stats_of_unparseable (xs : list pyval) (s : string) :
  PStr s ∈ xs -> py_float (remove_char "," s) = None -> stats_of xs = None.
Proof.
  intros Hin Hbad. unfold stats_of.
  assert (Hnone : numeric_vals_of xs = None); [|by rewrite Hnone].
  unfold numeric_vals_of.
  induction xs as [|x xs IH]; [by apply elem_of_nil in Hin|].
  apply elem_of_cons in Hin as [<-|Hin].
  - simpl. rewrite Hbad. reflexivity.
  - specialize (IH Hin). simpl.
    destruct (negb (is_none x)); [|exact IH].
    simpl. rewrite IH.
    destruct (py_float (remove_char "," (py_str x))); reflexivity.
Qed.

(** The statistics are binary64 values: the average of 0.1 and 0.2 is
    not 0.15, a numeral beyond the range converts to an infinity, and a
    text that [float] rejects (here one led by the FS control character,
    which [str.strip] would remove) leaves the column without stats. *)
Lemma stats_of_binary64 :
  stats_of [PStr "0.1"; PStr "0.2"]
  = Some {| st_min := 0.1; st_max := 0.2;
            st_sample_avg := 0.15000000000000002 |}
  /\ stats_of [PStr "1e400"; PInt 7]
     = Some {| st_min := 7; st_max := infinity; st_sample_avg := infinity |}
  /\ stats_of [PFloat 2.5; PStr "1,000"]
     = Some {| st_min := 2.5; st_max := 1000; st_sample_avg := 501.25 |}
  /\ stats_of [PInt 1; PStr (String (ascii_of_nat 28) "5")] = None.
Proof. vm_compute. repeat split. Qed.

(** C4, as stated, fails: the profile keeps the first three samples but
    the statistics also cover the fourth collected one. *)
Lemma stats_cover_unretained_samples :
  exists cp,
    profile_column revenue_rows revenue_column = Ok cp
    /\ cp_type cp = TNumeric
    /\ cp_samples cp = [PInt 1; PInt 2; PInt 3]
    /\ cp_stats cp = Some {| st_min := 1; st_max := 100;
                             st_sample_avg := 26.5 |}
    /\ stats_of (cp_samples cp)
       = Some {| st_min := 1; st_max := 3; st_sample_avg := 2 |}
    /\ cp_stats cp <> stats_of (cp_samples cp).
Proof.
  eexists. split; [vm_compute; reflexivity|].
  cbv [cp_type cp_samples cp_stats].
  split; [reflexivity|]. split; [reflexivity|]. split; [reflexivity|].
  assert (Hret : stats_of [PInt 1; PInt 2; PInt 3]
                 = Some {| st_min := 1; st_max := 3; st_sample_avg := 2 |})
    by (vm_compute; reflexivity).
  split; [exact Hret|]. rewrite Hret. intros H.
  pose proof (f_equal (fun o => match o with
                                | Some st => PrimFloat.eqb (st_max st) 100
                                | None => false
                                end) H) as E.
  vm_compute in E. discriminate E.
Qed.

(** C4, amended.  For a column tagged [numeric] the profile retains the
    first three of the samples collected from the first five rows, and
    the statistics are those of all the collected samples (up to five):
    when these convert to the binary64 values [fs], [min] and [max] are a
    least and a greatest item of [fs] and [sample_avg] is their binary64
    average. *)
Theorem profile_column_stats_over_collected
    (sample_rows : list (gmap string pyval)) (col : raw_column)
    (cp : ColumnProfile) (fs : list float) :
  profile_column sample_rows col = Ok cp ->
  cp_type cp = TNumeric ->
  fs <> [] ->
  numeric_vals_of (collect_samples (col_name_of col) sample_rows) = Some fs ->
  cp_samples cp = take 3 (collect_samples (col_name_of col) sample_rows)
  /\ length (collect_samples (col_name_of col) sample_rows) <= 5
  /\ cp_stats cp = stats_of (collect_samples (col_name_of col) sample_rows)
  /\ exists st, cp_stats cp = Some st
                /\ least_of fs (st_min st)
                /\ greatest_of fs (st_max st)
                /\ mean_of fs (st_sample_avg st).
Proof.
  intros Hcp Htype Hne Hvals.
  unfold profile_column in Hcp.
  destruct (column_type _ _) as [t|e]; [|discriminate].
  simpl in Hcp. injection Hcp as <-. simpl in Htype. subst t.
  simpl cp_samples. simpl cp_stats.
  split; [reflexivity|].
  split; [apply collect_samples_at_most_five|].
  assert (Hstats :
    match collect_samples (col_name_of col) sample_rows with
    | [] => None
    | _ :: _ => stats_of (collect_samples (col_name_of col) sample_rows)
    end = stats_of (collect_samples (col_name_of col) sample_rows)).
  { destruct (collect_samples _ _) eqn:E; [|reflexivity].
    destruct fs; [done|]. discriminate Hvals. }
  rewrite Hstats. split; [reflexivity|].
  exact (stats_of_converted _ fs Hne Hvals).
Qed.

Lemma profile_column_stats_over_collected_witness :
  exists cp,
    profile_column revenue_rows revenue_column = Ok cp
    /\ cp_type cp = TNumeric
    /\ [1; 2; 3; 100]%float <> []
    /\ numeric_vals_of (collect_samples (col_name_of revenue_column) revenue_rows)
       = Some [1; 2; 3; 100]%float
    /\ exists st, cp_stats cp = Some st
                  /\ greatest_of [1; 2; 3; 100]%float (st_max st).
Proof.
  eexists.
  assert (H1 : profile_column revenue_rows revenue_column
               = Ok {| cp_name := "Revenue"; cp_type := TNumeric;
                       cp_samples := [PInt 1; PInt 2; PInt 3];
                       cp_stats := Some {| st_min := 1; st_max := 100;
                                           st_sample_avg := 26.5 |} |})
    by (vm_compute; reflexivity).
  assert (H3 : [1; 2; 3; 100]%float <> []) by discriminate.
  assert (H4 : numeric_vals_of (collect_samples (col_name_of revenue_column) revenue_rows)
               = Some [1; 2; 3; 100]%float)
    by (vm_compute; reflexivity).
  split; [exact H1|]. split; [reflexivity|]. split; [exact H3|]. split; [exact H4|].
  destruct (profile_column_stats_over_collected _ _ _ _ H1 eq_refl H3 H4)
    as (_ & _ & _ & st & Hst & _ & Hmax & _).
  exists st. split; [exact Hst | exact Hmax].
Defined.

End ProfilerFacts.

(** ** JSON Extraction *)

Section JsonExtractionFacts.
Import PyStr JsonExtraction Samples.

Lemma lstrip_starts_clean (s : string) : starts_clean (lstrip s).
Proof.
  induction s as [|c r IH]; simpl; [exact I|].
  destruct (isspace c) eqn:E; [exact IH|exact E].
Qed.

Lemma lstrip_id (s : string) : starts_clean s -> lstrip s = s.
Proof. destruct s as [|c r]; simpl; [done|]. by intros ->. Qed.

Lemma rstrip_starts_clean (s : string) : starts_clean s -> starts_clean (rstrip s).
Proof.
  destruct s as [|c r]; simpl; [done|]. intros Hc.
  destruct (rstrip r); [rewrite Hc|]; exact Hc.
Qed.

Lemma rstrip_idempotent (s : string) : rstrip (rstrip s) = rstrip s.
Proof.
  induction s as [|c r IH]; simpl; [reflexivity|].
  destruct (rstrip r) as [|d r'] eqn:E.
  - destruct (isspace c) eqn:Ec; simpl; [reflexivity|by rewrite Ec].
  - change (rstrip (String c (String d r'))) with
      (match rstrip (String d r') with
       | EmptyString => if isspace c then EmptyString else String c EmptyString
       | x => String c x
       end).
    by rewrite IH.
Qed.

Lemma strip_idempotent (s : string) : strip (strip s) = strip s.
Proof.
  unfold strip.
  rewrite (lstrip_id (rstrip (lstrip s))).
  - apply rstrip_idempotent.
  - apply rstrip_starts_clean, lstrip_starts_clean.
Qed.

Lemma strip_artifacts_stripped (text : string) :
  strip (strip_artifacts text) = strip_artifacts text.
Proof. unfold strip_artifacts. apply strip_idempotent. Qed.

Lemma startswith_char (ch d : ascii) (s : string) :
  startswith (String ch "") (String d s) = Ascii.eqb ch d.
Proof. simpl. apply andb_true_r. Qed.

(** The two searches for a one-character needle, one character at a
    time. *)
Lemma find_nat_cons (ch d : ascii) (r : string) :
  find_nat (String ch "") (String d r)
  = if Ascii.eqb ch d then Some 0 else S <$> find_nat (String ch "") r.
Proof.
  change (find_nat (String ch "") (String d r)) with
    (if startswith (String ch "") (String d r) then Some 0
     else S <$> find_nat (String ch "") r).
  by rewrite startswith_char.
Qed.

Lemma rfind_nat_cons (ch d : ascii) (r : string) :
  rfind_nat (String ch "") (String d r)
  = match rfind_nat (String ch "") r with
    | Some i => Some (S i)
    | None => if Ascii.eqb ch d then Some 0 else None
    end.
Proof.
  change (rfind_nat (String ch "") (String d r)) with
    (match rfind_nat (String ch "") r with
     | Some i => Some (S i)
     | None => if startswith (String ch "") (String d r) then Some 0 else None
     end).
  by rewrite startswith_char.
Qed.

Lemma chars_cons (d : ascii) (r : string) : chars (String d r) = d :: chars r.
Proof. reflexivity. Qed.

Lemma find_nat_absent (ch : ascii) (s : string) :
  ch ∉ chars s -> find_nat (String ch "") s = None.
Proof.
  induction s as [|d r IH]; [reflexivity|].
  rewrite chars_cons, not_elem_of_cons, find_nat_cons. intros [Hne Hnot].
  destruct (Ascii.eqb_spec ch d) as [->|_]; [done|].
  by rewrite IH.
Qed.

Lemma rfind_nat_absent (ch : ascii) (s : string) :
  ch ∉ chars s -> rfind_nat (String ch "") s = None.
Proof.
  induction s as [|d r IH]; [reflexivity|].
  rewrite chars_cons, not_elem_of_cons, rfind_nat_cons. intros [Hne Hnot].
  rewrite (IH Hnot).
  by destruct (Ascii.eqb_spec ch d) as [->|_].
Qed.

(** The first [ch] of [pre ++ k post] when [pre] holds none. *)
Lemma find_nat_past_prefix (ch k : ascii) (pre post : string) :
  ch ∉ chars pre ->
  find_nat (String ch "") (pre ++ String k post)
  = if Ascii.eqb ch k then Some (String.length pre)
    else (fun i => String.length pre + S i) <$> find_nat (String ch "") post.
Proof.
  induction pre as [|d r IH].
  - intros _. change ("" ++ String k post) with (String k post).
    rewrite find_nat_cons.
    destruct (Ascii.eqb ch k); [reflexivity|].
    by destruct (find_nat (String ch "") post).
  - rewrite chars_cons, not_elem_of_cons. intros [Hne Hnot].
    change (String d r ++ String k post) with (String d (r ++ String k post)).
    rewrite find_nat_cons.
    destruct (Ascii.eqb_spec ch d) as [->|_]; [done|].
    rewrite (IH Hnot).
    destruct (Ascii.eqb ch k); [reflexivity|].
    by destruct (find_nat (String ch "") post).
Qed.

(** The last [ch] of [pre ++ k post], if any, lies inside [pre] when
    neither [k] nor [post] holds one. *)
Lemma rfind_nat_inside_prefix (ch k : ascii) (pre post : string) (j : nat) :
  ch <> k -> ch ∉ chars post ->
  rfind_nat (String ch "") (pre ++ String k post) = Some j ->
  j < String.length pre.
Proof.
  intros Hk Hpost. revert j.
  induction pre as [|d r IH]; intros j.
  - change ("" ++ String k post) with (String k post).
    rewrite rfind_nat_cons, (rfind_nat_absent _ _ Hpost).
    by destruct (Ascii.eqb_spec ch k).
  - change (String d r ++ String k post) with (String d (r ++ String k post)).
    rewrite rfind_nat_cons.
    destruct (rfind_nat (String ch "") (r ++ String k post)) as [i|] eqn:E.
    + intros [= <-]. specialize (IH i eq_refl). simpl. lia.
    + destruct (Ascii.eqb ch d); [|done]. intros [= <-]. simpl. lia.
Qed.

Lemma get_past_prefix (k : ascii) (pre post : string) :
  String.get (String.length pre) (pre ++ String k post) = Some k.
Proof. induction pre as [|d r IH]; [reflexivity|exact IH]. Qed.

Lemma closer_differs (k : ascii) : k = "{"%char \/ k = "["%char -> closer k <> k.
Proof. intros [->| ->]; discriminate. Qed.

(** The bracket scan on a text that opens a bracket at the end of [pre]
    and never closes it afterwards. *)
Lemma extract_span_unclosed (pre post : string) (k : ascii) :
  "{"%char ∉ chars pre -> "["%char ∉ chars pre ->
  k = "{"%char \/ k = "["%char ->
  closer k ∉ chars post ->
  extract_span (pre ++ String k post) = strip (pre ++ String k post).
Proof.
  intros Hobj Harr Hk Hclose.
  pose proof (find_nat_past_prefix "{" k pre post Hobj) as Fobj.
  pose proof (find_nat_past_prefix "[" k pre post Harr) as Farr.
  pose proof (get_past_prefix k pre post) as Hget.
  pose proof (rfind_nat_inside_prefix (closer k) k pre post) as Hlast.
  specialize (fun j => Hlast j (closer_differs k Hk) Hclose).
  unfold extract_span, find, rfind, has_brace_at.
  set (c := pre ++ String k post) in *.
  assert (Hstart :
    (if Z.eqb (index_or_minus1 (find_nat "{" c)) (-1)
     then index_or_minus1 (find_nat "[" c)
     else if Z.eqb (index_or_minus1 (find_nat "[" c)) (-1)
          then index_or_minus1 (find_nat "{" c)
          else Z.min (index_or_minus1 (find_nat "{" c))
                     (index_or_minus1 (find_nat "[" c)))
    = Z.of_nat (String.length pre)
    /\ (Z.eqb (index_or_minus1 (find_nat "{" c)) (-1)
        && Z.eqb (index_or_minus1 (find_nat "[" c)) (-1)) = false).
  { rewrite Fobj, Farr.
    destruct Hk as [-> | ->]; simpl Ascii.eqb; cbv iota.
    - destruct (find_nat "[" post) as [i|]; simpl.
      + destruct (Z.eqb_spec (Z.of_nat (String.length pre)) (-1)); [lia|].
        destruct (Z.eqb_spec (Z.of_nat (String.length pre + S i)) (-1)); [lia|].
        split; [lia|reflexivity].
      + destruct (Z.eqb_spec (Z.of_nat (String.length pre)) (-1)); [lia|].
        split; reflexivity.
    - destruct (find_nat "{" post) as [i|]; simpl.
      + destruct (Z.eqb_spec (Z.of_nat (String.length pre + S i)) (-1)); [lia|].
        destruct (Z.eqb_spec (Z.of_nat (String.length pre)) (-1)); [lia|].
        split; [lia|reflexivity].
      + destruct (Z.eqb_spec (Z.of_nat (String.length pre)) (-1)); [lia|].
        split; reflexivity. }
  destruct Hstart as [-> ->].
  rewrite Nat2Z.id, Hget.
  assert (Hend :
    (if Ascii.eqb k "{" then index_or_minus1 (rfind_nat "}" c)
     else index_or_minus1 (rfind_nat "]" c))
    = index_or_minus1 (rfind_nat (String (closer k) "") c)).
  { unfold closer. by destruct (Ascii.eqb k "{"). }
  rewrite Hend.
  destruct (rfind_nat (String (closer k) "") c) as [j|] eqn:E.
  - specialize (Hlast j eq_refl). simpl index_or_minus1.
    destruct (Z.ltb_spec (Z.of_nat (String.length pre)) (Z.of_nat j)); [lia|].
    by rewrite andb_false_r.
  - reflexivity.
Qed.

(** The bracket scan on a text without any opening bracket. *)
Lemma extract_span_no_opening (c : string) :
  "{"%char ∉ chars c -> "["%char ∉ chars c -> extract_span c = "{}".
Proof.
  intros Hobj Harr. unfold extract_span, find.
  by rewrite (find_nat_absent _ _ Hobj), (find_nat_absent _ _ Harr).
Qed.

(** C5, as stated, fails: a non-empty reply without any bracket is
    turned into the text of an empty object, not returned stripped. *)
Lemma clean_llm_json_plain_text :
  Some "hello" <> None
  /\ "hello" <> ""
  /\ ("{"%char ∉ chars (strip "hello"))
  /\ ("["%char ∉ chars (strip "hello"))
  /\ clean_llm_json (Some "hello") = "{}"
  /\ clean_llm_json (Some "hello") <> strip "hello".
Proof.
  assert (Hnot : forall ch, In ch (chars "hello") -> ch <> "{"%char /\ ch <> "["%char).
  { intros ch [<-|[<-|[<-|[<-|[<-|[]]]]]]; split; discriminate. }
  split; [discriminate|]. split; [discriminate|].
  split; [intros H%list_elem_of_In; by destruct (Hnot _ H)|].
  split; [intros H%list_elem_of_In; by destruct (Hnot _ H)|].
  split; [reflexivity|]. discriminate.
Qed.

(** C5, amended.  JSON Extraction returns the text of an empty object
    when its input is absent or empty and also whenever the text left
    after artifact stripping holds neither an opening brace nor an opening
    square bracket; when that text does open a bracket but holds no closing
    bracket of the same kind after the first opening one, it is returned
    as it is. *)
Theorem clean_llm_json_without_span (text pre post : string) (k : ascii) :
  clean_llm_json None = "{}"
  /\ clean_llm_json (Some "") = "{}"
  /\ ("{"%char ∉ chars (strip_artifacts text) ->
      "["%char ∉ chars (strip_artifacts text) ->
      clean_llm_json (Some text) = "{}")
  /\ (text <> "" ->
      strip_artifacts text = pre ++ String k post ->
      "{"%char ∉ chars pre -> "["%char ∉ chars pre ->
      k = "{"%char \/ k = "["%char ->
      closer k ∉ chars post ->
      clean_llm_json (Some text) = strip_artifacts text).
Proof.
  split; [reflexivity|]. split; [reflexivity|]. split.
  - intros Hobj Harr. destruct text as [|c r]; [reflexivity|].
    by apply extract_span_no_opening.
  - intros Hne Hc Hobj Harr Hk Hclose.
    destruct text as [|c r]; [done|].
    unfold clean_llm_json. rewrite Hc.
    rewrite (extract_span_unclosed pre post k Hobj Harr Hk Hclose).
    rewrite <- Hc. apply strip_artifacts_stripped.
Qed.

Lemma clean_llm_json_without_span_witness :
  "see { below" <> ""
  /\ strip_artifacts "see { below" = "see " ++ String "{" " below"
  /\ ("{"%char ∉ chars "see ")
  /\ ("["%char ∉ chars "see ")
  /\ (closer "{" ∉ chars " below")
  /\ clean_llm_json (Some "see { below") = "see { below".
Proof.
  assert (H1 : "see { below" <> "") by discriminate.
  assert (H2 : strip_artifacts "see { below" = "see " ++ String "{" " below")
    by reflexivity.
  assert (Hpre : forall ch, In ch (chars "see ") -> ch <> "{"%char /\ ch <> "["%char).
  { intros ch [<-|[<-|[<-|[<-|[]]]]]; split; discriminate. }
  assert (H3 : "{"%char ∉ chars "see ")
    by (intros H%list_elem_of_In; by destruct (Hpre _ H)).
  assert (H4 : "["%char ∉ chars "see ")
    by (intros H%list_elem_of_In; by destruct (Hpre _ H)).
  assert (H5 : closer "{" ∉ chars " below").
  { intros H%list_elem_of_In. simpl in H.
    destruct H as [H|[H|[H|[H|[H|[H|[]]]]]]]; discriminate H. }
  split; [exact H1|]. split; [exact H2|]. split; [exact H3|].
  split; [exact H4|]. split; [exact H5|].
  exact (proj2 (proj2 (proj2 (clean_llm_json_without_span "see { below" "see " " below" "{")))
           H1 H2 H3 H4 (or_introl eq_refl) H5).
Defined.

End JsonExtractionFacts.

(** ** Chart Candidate Generator *)

Section ChartSuggesterFacts.
Import Profiler ChartSuggester Samples.

Lemma references_known_columns_grounded (names : list string)
    (chart : ChartCandidate) :
  references_known_columns (list_to_set names) chart = true
  <-> encoding_grounded names chart.
Proof.
  unfold references_known_columns, encoding_grounded, encoding_get.
  rewrite andb_true_iff, !orb_true_iff, !bool_decide_eq_true,
    !elem_of_list_to_set, !String.eqb_eq.
  split.
  - intros [Hx Hy] role v [-> | ->] Hv Hne.
    + rewrite Hv in Hx. simpl in Hx. by destruct Hx.
    + rewrite Hv in Hy. simpl in Hy. by destruct Hy.
  - intros H. split.
    + destruct (cc_encoding chart !! "x") as [v|] eqn:E; simpl; [|by left].
      destruct (decide (v = "")) as [->|Hne]; [by left|right].
      by apply (H "x"); [left| |].
    + destruct (cc_encoding chart !! "y") as [v|] eqn:E; simpl; [|by left].
      destruct (decide (v = "")) as [->|Hne]; [by left|right].
      by apply (H "y"); [right| |].
Qed.

Lemma validated_all_grounded (p : SchemaProfile) (chosen : list ChartCandidate) :
  Forall (encoding_grounded (column_names p))
         (List.filter (references_known_columns (list_to_set (column_names p))) chosen).
Proof.
  apply Forall_forall. intros c Hc%list_elem_of_In%filter_In.
  apply references_known_columns_grounded, Hc.
Qed.

(** The two sibling paths cut their output to four candidates. *)
Lemma fallback_at_most_four (user_prompts : list string)
    (schema_profile : option SchemaProfile) (s : Suggestion) :
  s ∈ _generate_fallback_suggestions user_prompts schema_profile ->
  length (chosen_charts s) <= 4.
Proof.
  unfold _generate_fallback_suggestions.
  destruct (usable_columns schema_profile) as [cols|];
    intros (prompt & -> & _)%list_elem_of_fmap; simpl.
  - rewrite length_take. lia.
  - lia.
Qed.

Lemma unvalidated_at_most_four (p : SchemaProfile) (chosen : list ChartCandidate) :
  List.filter (references_known_columns (list_to_set (column_names p))) chosen = [] ->
  length (validate_charts p chosen) <= 4.
Proof.
  intros H. unfold validate_charts. rewrite H, length_take. lia.
Qed.

(** C1, as stated, fails: when no candidate of the reply passes the
    column check, the first four are emitted as they came, here with a
    [y] that is not a column of the profile. *)
Lemma suggest_emits_unknown_column :
  suggest (fun _ _ => LlmCharts [profit_chart]) ["profit by region"]
          (Some sales_profile)
  = [ {| user_prompt := "profit by region"; chosen_charts := [profit_chart] |} ]
  /\ cc_encoding profit_chart !! "y" = Some "Profit"
  /\ "Profit" <> ""
  /\ ("Profit" ∉ column_names sales_profile)
  /\ ~ encoding_grounded (column_names sales_profile) profit_chart.
Proof.
  assert (Hy : cc_encoding profit_chart !! "y" = Some "Profit")
    by (vm_compute; reflexivity).
  assert (Hnot : "Profit" ∉ column_names sales_profile).
  { simpl. intros H. apply elem_of_cons in H as [H|H]; [discriminate|].
    apply elem_of_cons in H as [H|H]; [discriminate|].
    by apply elem_of_nil in H. }
  split; [vm_compute; reflexivity|].
  split; [exact Hy|]. split; [discriminate|]. split; [exact Hnot|].
  intros H. apply Hnot. apply (H "y"); [by right|exact Hy|discriminate].
Qed.

(** C1, amended.  When at least one candidate of the parsed reply passes
    the column check, every candidate emitted for the prompt has its
    present, non-empty [x] and [y] among the profile's [column_names];
    when none passes, the emitted set is the first four candidates of the
    reply, unchecked. *)
Theorem suggest_prompt_grounded (p : SchemaProfile) (prompt : string)
    (chosen : list ChartCandidate) :
  ((exists c, c ∈ chosen /\ encoding_grounded (column_names p) c) ->
   Forall (encoding_grounded (column_names p))
          (chosen_charts (suggest_prompt p prompt (LlmCharts chosen))))
  /\ (Forall (fun c => ~ encoding_grounded (column_names p) c) chosen ->
      chosen_charts (suggest_prompt p prompt (LlmCharts chosen)) = take 4 chosen).
Proof.
  simpl. unfold validate_charts.
  pose proof (validated_all_grounded p chosen) as Hall.
  split.
  - intros (c & Hin & Hc).
    destruct (List.filter _ chosen) as [|v vs] eqn:E; [|exact Hall].
    exfalso.
    assert (Hf : In c (List.filter
                         (references_known_columns (list_to_set (column_names p)))
                         chosen)).
    { apply filter_In. split; [by apply list_elem_of_In|].
      by apply references_known_columns_grounded. }
    rewrite E in Hf. exact Hf.
  - intros Hnone.
    destruct (List.filter _ chosen) as [|v vs] eqn:E; [reflexivity|].
    exfalso.
    assert (Hf : In v (List.filter
                         (references_known_columns (list_to_set (column_names p)))
                         chosen)) by (rewrite E; by left).
    apply filter_In in Hf as [Hin Hv].
    rewrite Forall_forall in Hnone.
    apply (Hnone v); [by apply list_elem_of_In|].
    by apply references_known_columns_grounded.
Qed.

Lemma suggest_prompt_grounded_witness :
  (exists c, c ∈ [profit_chart; sales_chart 1 "bar_chart"]
             /\ encoding_grounded (column_names sales_profile) c)
  /\ Forall (encoding_grounded (column_names sales_profile))
            (chosen_charts (suggest_prompt sales_profile "sales by region"
                              (LlmCharts [profit_chart; sales_chart 1 "bar_chart"]))).
Proof.
  assert (H : exists c, c ∈ [profit_chart; sales_chart 1 "bar_chart"]
                        /\ encoding_grounded (column_names sales_profile) c).
  { exists (sales_chart 1 "bar_chart"). split; [set_solver|].
    apply references_known_columns_grounded. vm_compute. reflexivity. }
  split; [exact H|].
  exact (proj1 (suggest_prompt_grounded sales_profile "sales by region"
                  [profit_chart; sales_chart 1 "bar_chart"]) H).
Defined.

(** C2: the code at the failing input.  Five candidates that all pass the
    column check are all emitted for the one prompt. *)
Theorem suggest_emits_five_validated :
  Forall (encoding_grounded (column_names sales_profile)) five_valid_charts
  /\ suggest (fun _ _ => LlmCharts five_valid_charts) ["sales by region"]
             (Some sales_profile)
     = [ {| user_prompt := "sales by region"; chosen_charts := five_valid_charts |} ]
  /\ length five_valid_charts = 5.
Proof.
  split; [|split; [vm_compute; reflexivity|reflexivity]].
  apply Forall_forall. intros c Hc.
  apply references_known_columns_grounded.
  unfold five_valid_charts in Hc.
  repeat (apply elem_of_cons in Hc as [->|Hc]; [vm_compute; reflexivity|]).
  by apply elem_of_nil in Hc.
Qed.

End ChartSuggesterFacts.

(** ** Query Execution Client *)

Section ExecutionFacts.
Import Execution Samples.

Lemma poll_count_bounded (be : backend) (job_id : string) (attempt remaining : nat) :
  snd (poll be job_id attempt remaining) <= remaining.
Proof.
  revert attempt. induction remaining as [|k IH]; intros attempt; simpl; [lia|].
  destruct (get_query be job_id attempt) as [text|text|d]; simpl; try lia.
  repeat case_bool_decide; simpl; try lia.
  specialize (IH (S attempt)).
  destruct (poll be job_id (S attempt) k) as [r n]. simpl in *. lia.
Qed.

(** Skipping [k] pending replies. *)
Lemma poll_skips_pending (be : backend) (job_id : string) (k attempt remaining : nat) :
  (forall i, i < k -> pending (get_query be job_id (attempt + i))) ->
  k <= remaining ->
  poll be job_id attempt remaining
  = (fst (poll be job_id (attempt + k) (remaining - k)),
     k + snd (poll be job_id (attempt + k) (remaining - k))).
Proof.
  revert attempt remaining.
  induction k as [|k IH]; intros attempt remaining Hpend Hle.
  - rewrite Nat.add_0_r, Nat.sub_0_r. simpl. by destruct (poll _ _ _ _).
  - destruct remaining as [|rem]; [lia|].
    destruct (Hpend 0 ltac:(lia)) as (d & Hd & Hc & Hf).
    rewrite Nat.add_0_r in Hd. simpl poll. rewrite Hd.
    rewrite (bool_decide_eq_false_2 _ Hc), (bool_decide_eq_false_2 _ Hf).
    rewrite (IH (S attempt) rem).
    + replace (S attempt + k) with (attempt + S k) by lia.
      replace (S rem - S k) with (rem - k) by lia.
      reflexivity.
    + intros i Hi. replace (S attempt + i) with (attempt + S i) by lia.
      apply Hpend. lia.
    + lia.
Qed.

(** C8.  Once a submission yields a job identifier, at most 60 status
    requests are made.  After [k] replies that are neither [completed] nor
    [failed]: a [completed] reply at request [k < 60] is returned whole; a
    [failed] reply there ends in a failure that carries the backend's
    message; and if all 60 replies are of the first kind the call ends in
    the timeout failure. *)
Theorem execute_query_polling (be : backend) (q : QuerySpec) (job_id : string)
    (k : nat) (d : status_body) :
  post_query be q = Body {| jobId := Some job_id |} ->
  job_id <> "" ->
  (forall i, i < k -> pending (get_query be job_id i)) ->
  snd (execute_query_on_datalake be q) <= 60
  /\ (k < 60 -> get_query be job_id k = Body d ->
      status d = Some "completed" ->
      execute_query_on_datalake be q = (Ok d, S k))
  /\ (k < 60 -> get_query be job_id k = Body d ->
      status d = Some "failed" ->
      execute_query_on_datalake be q
      = (Raise (HTTPException 500
                  ("Query failed: " ++ default "Unknown error" (message d))),
         S k))
  /\ (k = 60 ->
      execute_query_on_datalake be q
      = (Raise (HTTPException 500 "Query execution timeout"), 60)).
Proof.
  intros Hpost Hjob Hpend.
  unfold execute_query_on_datalake. rewrite Hpost. simpl jobId.
  destruct job_id as [|c r]; [done|].
  split; [apply poll_count_bounded|].
  split; [|split].
  - intros Hk Hd Hs.
    rewrite (poll_skips_pending be _ k 0 max_attempts Hpend);
      [|unfold max_attempts; lia].
    simpl (0 + k).
    destruct (max_attempts - k) as [|rem] eqn:E; [unfold max_attempts in E; lia|].
    simpl poll. rewrite Hd, (bool_decide_eq_true_2 _ Hs). simpl.
    f_equal. lia.
  - intros Hk Hd Hs.
    rewrite (poll_skips_pending be _ k 0 max_attempts Hpend);
      [|unfold max_attempts; lia].
    simpl (0 + k).
    destruct (max_attempts - k) as [|rem] eqn:E; [unfold max_attempts in E; lia|].
    simpl poll. rewrite Hd.
    rewrite bool_decide_eq_false_2 by (rewrite Hs; discriminate).
    rewrite (bool_decide_eq_true_2 _ Hs). simpl.
    f_equal. lia.
  - intros ->.
    rewrite (poll_skips_pending be _ 60 0 max_attempts Hpend);
      [|unfold max_attempts; lia].
    reflexivity.
Qed.

Lemma execute_query_polling_witness :
  post_query backend_running sales_query = Body {| jobId := Some "job-1" |}
  /\ "job-1" <> ""
  /\ (forall i, i < 60 -> pending (get_query backend_running "job-1" i))
  /\ execute_query_on_datalake backend_running sales_query
     = (Raise (HTTPException 500 "Query execution timeout"), 60).
Proof.
  assert (H1 : post_query backend_running sales_query
               = Body {| jobId := Some "job-1" |}) by reflexivity.
  assert (H2 : "job-1" <> "") by discriminate.
  assert (H3 : forall i, i < 60 -> pending (get_query backend_running "job-1" i)).
  { intros i _. exists running_body. split; [reflexivity|]. split; discriminate. }
  split; [exact H1|]. split; [exact H2|]. split; [exact H3|].
  exact (proj2 (proj2 (proj2
           (execute_query_polling backend_running sales_query "job-1" 60
              running_body H1 H2 H3))) eq_refl).
Defined.

End ExecutionFacts.

(** ** Result Reshaper *)

Section ReshaperFacts.
Import PyStr PyFloat Reshaper Samples.

(** The cell conversion of the code is the conversion of the rule. *)
Lemma to_number_reshaped_value (v : pyval) : to_number v = reshaped_value v.
Proof.
  destruct v as [|b|z|f|s]; try reflexivity.
  destruct s as [|c r]; [reflexivity|].
  unfold to_number, reshaped_value.
  by destruct (py_float (String c r)).
Qed.

Lemma palette_has_eight : length colors = 8.
Proof. reflexivity. Qed.

Lemma palette_lookup (j : nat) : exists c, colors !! (j mod 8) = Some c.
Proof.
  apply lookup_lt_is_Some_2. rewrite palette_has_eight.
  apply Nat.mod_upper_bound. lia.
Qed.

(** The [j]-th dataset built from position [i] on. *)
Lemma build_datasets_lookup (result_data : list row) (cols : list string)
    (i j : nat) (col : string) :
  cols !! j = Some col ->
  build_datasets i cols result_data !! j
  = Some {| label := col;
            data := (fun r => to_number (row_get r col (PInt 0))) <$> result_data;
            backgroundColor :=
              replicate (length result_data)
                        (default "" (colors !! ((i + j) mod 8))) |}.
Proof.
  revert i j. induction cols as [|c cols IH]; intros i j Hj; [done|].
  destruct j as [|j]; simpl in Hj.
  - injection Hj as ->. simpl. rewrite Nat.add_0_r, length_fmap. reflexivity.
  - simpl. rewrite (IH (S i) j Hj).
    by replace (S i + j) with (i + S j) by lia.
Qed.

Lemma build_datasets_length (result_data : list row) (cols : list string) (i : nat) :
  length (build_datasets i cols result_data) = length cols.
Proof.
  revert i. induction cols as [|c cols IH]; intros i; simpl; [done|].
  by rewrite IH.
Qed.

(** C9.  For a non-empty list of rows whose first row begins with the
    column [label_col]: the labels are that column's cell of every row,
    stringified; every later column of the first row yields one dataset,
    in order, labelled by the column, holding for every row the cell kept
    as it is when numeric (an int, a bool or a float), converted with
    [float] otherwise and 0 when that fails, and coloured throughout with
    the palette entry at its position modulo 8.  The rows of scenario B
    give labels Asia, EU and the one dataset Sales with data 100, 50; rows
    with float, text and missing cells show each case of the cell rule. *)
Theorem transform_to_chartjs_format_shape (execution_result : status_body)
    (first : row) (rest : list row) (label_col : string) (v0 : pyval)
    (more : row) :
  resultData execution_result = Some (first :: rest) ->
  first = (label_col, v0) :: more ->
  let rows := first :: rest in
  let out := transform_to_chartjs_format execution_result in
  labels out = (fun r => py_str (row_get r label_col (PStr ""))) <$> rows
  /\ length (datasets out) = length more
  /\ (forall j col,
        (fst <$> more) !! j = Some col ->
        exists ds c,
          datasets out !! j = Some ds
          /\ label ds = col
          /\ data ds = (fun r => reshaped_value (row_get r col (PInt 0))) <$> rows
          /\ colors !! (j mod 8) = Some c
          /\ backgroundColor ds = replicate (length rows) c)
  /\ (let scenario := transform_to_chartjs_format (completed_with region_sales_rows) in
      labels scenario = ["Asia"; "EU"]
      /\ (label <$> datasets scenario) = ["Sales"]
      /\ (data <$> datasets scenario) = [[NInt 100; NInt 50]])
  /\ (let mixed := transform_to_chartjs_format (completed_with mixed_cell_rows) in
      labels mixed = ["a"; "b"; "c"; "d"; "e"; "f"; "0.5"; "None"]
      /\ (data <$> datasets mixed)
         = [[NFloat 2.5; NFloat 3.5; NFloat 0.1; NFloat infinity;
             NInt 0; NInt 0; NInt 0; NInt 0]]).
Proof.
  intros Hrows Hfirst rows out.
  assert (Hgeneral :
    labels out = (fun r => py_str (row_get r label_col (PStr ""))) <$> rows
    /\ length (datasets out) = length more
    /\ (forall j col,
          (fst <$> more) !! j = Some col ->
          exists ds c,
            datasets out !! j = Some ds
            /\ label ds = col
            /\ data ds = (fun r => reshaped_value (row_get r col (PInt 0))) <$> rows
            /\ colors !! (j mod 8) = Some c
            /\ backgroundColor ds = replicate (length rows) c)).
  { subst out rows. unfold transform_to_chartjs_format.
    rewrite Hrows. simpl default. subst first. simpl fmap at 1.
    cbv beta iota.
    change (fst <$> (label_col, v0) :: more) with (label_col :: (fst <$> more)).
    cbv beta iota. simpl labels. simpl datasets.
    split; [reflexivity|].
    split; [by rewrite build_datasets_length, length_fmap|].
    intros j col Hj.
    destruct (palette_lookup j) as [c Hc].
    eexists. exists c.
    split; [apply build_datasets_lookup; exact Hj|].
    cbn [label data backgroundColor].
    split; [reflexivity|]. split.
    + apply list_fmap_ext. intros _ r _. apply to_number_reshaped_value.
    + split; [exact Hc|]. rewrite Nat.add_0_l, Hc. reflexivity. }
  destruct Hgeneral as (Hlabels & Hlength & Hdatasets).
  split; [exact Hlabels|]. split; [exact Hlength|]. split; [exact Hdatasets|].
  split; vm_compute; repeat split.
Qed.

Lemma transform_to_chartjs_format_shape_witness :
  resultData (completed_with region_sales_rows)
  = Some ([("Region", PStr "Asia"); ("Sales", PInt 100)]
          :: [[("Region", PStr "EU"); ("Sales", PInt 50)]])
  /\ [("Region", PStr "Asia"); ("Sales", PInt 100)]
     = ("Region", PStr "Asia") :: [("Sales", PInt 100)]
  /\ labels (transform_to_chartjs_format (completed_with region_sales_rows))
     = ["Asia"; "EU"].
Proof.
  split; [reflexivity|]. split; [reflexivity|].
  exact (proj1 (transform_to_chartjs_format_shape
                  (completed_with region_sales_rows)
                  [("Region", PStr "Asia"); ("Sales", PInt 100)]
                  [[("Region", PStr "EU"); ("Sales", PInt 50)]]
                  "Region" (PStr "Asia") [("Sales", PInt 100)]
                  eq_refl eq_refl)).
Defined.

End ReshaperFacts.

(** ** The operations that execute chart queries *)

Section ApiFacts.
Import Execution Reshaper Api Samples.

Context {Metadata Suggestions : Type}.

Lemma build_queries_chart_source (be : backend) (chart : ChartResult) :
  Forall (fun q => source q = hardcoded_source) (snd (build_queries_chart be chart))
  /\ (forall chart', fst (build_queries_chart be chart) = Ok chart' ->
      cr_query chart <> None -> reads_from hardcoded_source chart').
Proof.
  unfold build_queries_chart.
  destruct (cr_chart_id chart) as [cid|]; [|split; [constructor|done]].
  destruct (cr_query chart) as [q|] eqn:Eq; [|split; [constructor|done]].
  split; [repeat constructor|].
  intros chart' Hc _. simpl in Hc.
  destruct (fst (execute_query_on_datalake be (with_source q hardcoded_source)))
    as [res|[code detail| |key|text]];
    injection Hc as <-; reflexivity.
Qed.

Lemma build_queries_loop_source (be : nat -> backend) (i : nat)
    (todo : list ChartResult) :
  Forall (fun q => source q = hardcoded_source) (snd (build_queries_loop be i todo))
  /\ (forall finished, fst (build_queries_loop be i todo) = Ok finished ->
      Forall (fun c => cr_query c <> None) todo ->
      Forall (reads_from hardcoded_source) finished).
Proof.
  revert i. induction todo as [|chart rest IH]; intros i.
  - simpl. split; [constructor|]. intros finished [= <-] _. constructor.
  - simpl.
    destruct (build_queries_chart_source (be i) chart) as [Hsent Hchart].
    destruct (build_queries_chart (be i) chart) as [[chart'|e] sent];
      simpl in Hsent, Hchart.
    + destruct (IH (S i)) as [Hsent' Hrest].
      destruct (build_queries_loop be (S i) rest) as [r sent']. simpl in *.
      split; [by apply Forall_app|].
      intros finished Hdone Hq.
      destruct r as [cs|e]; [|discriminate].
      simpl in Hdone. injection Hdone as <-.
      apply Forall_cons in Hq as [Hq Hqs].
      constructor; [by apply Hchart|by apply Hrest].
    + split; [exact Hsent|]. simpl. discriminate.
Qed.

(** C7.  Whatever the request's [dataset_metadata] and whatever the
    query builder replies, every query that the build-queries operation
    hands to the backend has the one fixed table identifier as its
    [source], and so has the query of every chart it returns. *)
Theorem api_build_queries_fixed_source
    (builder_llm : Metadata -> Suggestions -> builder_reply)
    (be : nat -> backend) (dataset_metadata : Metadata) (suggestions : Suggestions) :
  hardcoded_source = "elm4r7a.sales"
  /\ Forall (fun q => source q = "elm4r7a.sales")
            (snd (api_build_queries builder_llm be dataset_metadata suggestions))
  /\ (forall r built,
        builder_llm dataset_metadata suggestions = BuilderResult built ->
        Forall (fun c => cr_query c <> None) (charts built) ->
        fst (api_build_queries builder_llm be dataset_metadata suggestions) = Ok r ->
        Forall (reads_from "elm4r7a.sales") (charts r)).
Proof.
  split; [reflexivity|].
  unfold api_build_queries, build_final_charts.
  destruct (builder_llm dataset_metadata suggestions) as [text| |built].
  - split; [constructor|]. discriminate.
  - split; [constructor|]. discriminate.
  - destruct (build_queries_loop_source be 0 (charts built)) as [Hsent Hdone].
    destruct (build_queries_loop be 0 (charts built)) as [r sent]. simpl in *.
    split; [exact Hsent|].
    intros r' built' [= <-] Hq Hr.
    destruct r as [cs|e]; [|discriminate].
    simpl in Hr. injection Hr as <-. simpl. by apply Hdone.
Qed.

End ApiFacts.

Section ApiScenarios.
Import Execution Reshaper Api Samples.

Lemma api_build_queries_fixed_source_witness :
  builder_one_chart orders_metadata ()
  = BuilderResult {| intent := "visualization"; charts := [sales_chart_result] |}
  /\ Forall (fun c => cr_query c <> None) [sales_chart_result]
  /\ (exists r,
        fst (api_build_queries builder_one_chart (fun _ => backend_failed)
               orders_metadata ()) = Ok r
        /\ Forall (reads_from "elm4r7a.sales") (charts r)).
Proof.
  assert (H1 : builder_one_chart orders_metadata ()
               = BuilderResult {| intent := "visualization";
                                  charts := [sales_chart_result] |}) by reflexivity.
  assert (H2 : Forall (fun c => cr_query c <> None) [sales_chart_result])
    by (repeat constructor; discriminate).
  split; [exact H1|]. split; [exact H2|].
  eexists. split; [vm_compute; reflexivity|].
  refine (proj2 (proj2 (api_build_queries_fixed_source builder_one_chart
                          (fun _ => backend_failed) orders_metadata ()))
            _ _ H1 H2 _).
  vm_compute. reflexivity.
Defined.

(** With a ["chart_id"] on the chart, no failure of the execution leaves
    the loop of [api_build_queries]: the chart is returned. *)
Lemma build_queries_chart_handles_failure (be : backend) (chart : ChartResult) :
  cr_chart_id chart <> None ->
  exists chart', fst (build_queries_chart be chart) = Ok chart'.
Proof.
  intros Hid. unfold build_queries_chart.
  destruct (cr_chart_id chart) as [cid|]; [|done].
  destruct (cr_query chart) as [q|]; [|simpl; eauto].
  simpl.
  destruct (fst (execute_query_on_datalake be (with_source q hardcoded_source)))
    as [res|[code detail| |key|text]]; eauto.
Qed.

(** Where step 5 of [api_execute_prompt] ends in a failure, the chart
    carries the message and the empty data. *)
Lemma execute_prompt_chart_failure (be : backend) (valid_column_names : gset string)
    (project_id table_name : string) (chart : ChartResult) (q q1 : QuerySpec)
    (e : exn) :
  cr_query chart = Some q ->
  repair_select valid_column_names q = Some q1 ->
  fst (execute_query_on_datalake be (with_source q1 (project_id ++ "." ++ table_name)))
  = Raise e ->
  exists chart' text,
    execute_prompt_chart be valid_column_names project_id table_name chart = Some chart'
    /\ cr_error chart' = Some (Some text)
    /\ cr_data chart' = Some empty_chart.
Proof.
  intros Hq Hsel Hexec. unfold execute_prompt_chart.
  rewrite Hq, Hsel, Hexec.
  destruct e as [code detail| |key|text]; eexists; eexists;
    (split; [reflexivity|split; reflexivity]).
Qed.

(** C6: the code at the failing input.  The build-queries operation, for
    a chart whose job the backend reports failed, records the message but
    leaves the chart without [data]; step 5 of the execute-prompt
    operation, on the same chart and backend, sets the empty data. *)
Theorem api_build_queries_failure_leaves_data_unset :
  fst (execute_query_on_datalake backend_failed
         (with_source sales_query hardcoded_source))
  = Raise (HTTPException 500 "Query failed: table not found")
  /\ (exists chart',
        fst (api_build_queries builder_one_chart (fun _ => backend_failed)
               orders_metadata ())
        = Ok {| intent := "visualization"; charts := [chart'] |}
        /\ cr_error chart' = Some (Some "Query failed: table not found")
        /\ cr_data chart' = None)
  /\ (exists chart',
        execute_prompt_charts (fun _ => backend_failed)
          (list_to_set ["Region"; "Sales"]) "acme" "orders" [sales_chart_result]
        = [chart']
        /\ cr_error chart' = Some (Some "Query failed: table not found")
        /\ cr_data chart' = Some empty_chart).
Proof.
  split; [vm_compute; reflexivity|].
  split; eexists; (split; [vm_compute; reflexivity|split; reflexivity]).
Qed.

End ApiScenarios.

(** * Further properties *)

(** ** Type Inference, beyond the tags settled above *)

Section TypeInferenceMore.
Import PyStr PyFloat TypeInference.

Lemma digit_code (c : ascii) :
  isdigit_char c = true -> 48 <= code c /\ code c <= 57.
Proof.
  unfold isdigit_char. intros [H1 H2]%andb_true_iff.
  split; by apply Nat.leb_le.
Qed.

(** A digit differs from every character whose code lies outside 48..57. *)
Lemma digit_differs (k c : ascii) :
  isdigit_char c = true -> isdigit_char k = false -> Ascii.eqb k c = false.
Proof.
  intros Hc Hk. destruct (Ascii.eqb_spec k c) as [->|]; [congruence|reflexivity].
Qed.

Lemma remove_char_digits (k : ascii) (s : string) :
  isdigit_char k = false -> all_chars isdigit_char s = true -> remove_char k s = s.
Proof.
  intros Hk. induction s as [|c r IH]; [reflexivity|].
  simpl. intros [Hc Hr]%andb_true_iff.
  by rewrite (digit_differs k c Hc Hk), IH.
Qed.

Lemma isdigit_all_chars (s : string) :
  isdigit s = true -> all_chars isdigit_char s = true /\ s <> "".
Proof. destruct s; [discriminate|]. by split. Qed.

Lemma digits_only_of_isdigit (s : string) : isdigit s = true -> digits_only s = true.
Proof.
  intros Hs. destruct (isdigit_all_chars s Hs) as [Hall _].
  unfold digits_only.
  rewrite (remove_char_digits "," s eq_refl Hall),
    (remove_char_digits "." s eq_refl Hall),
    (remove_char_digits "-" s eq_refl Hall).
  exact Hs.
Qed.

Lemma digit_not_c_space (c : ascii) : isdigit_char c = true -> c_isspace c = false.
Proof.
  intros [H1 H2]%digit_code. unfold c_isspace.
  destruct (Nat.eqb_spec (code c) 32); [lia|].
  repeat match goal with
         | |- context [Nat.leb ?a ?b] => destruct (Nat.leb_spec a b)
         end; simpl; try reflexivity; lia.
Qed.

Lemma skip_leading_digits (s : string) :
  all_chars isdigit_char s = true -> skip_leading s = s.
Proof.
  destruct s as [|c r]; [reflexivity|].
  simpl. intros [Hc _]%andb_true_iff. by rewrite (digit_not_c_space c Hc).
Qed.

Lemma skip_trailing_digits (s : string) :
  all_chars isdigit_char s = true -> skip_trailing s = s.
Proof.
  induction s as [|c r IH]; [reflexivity|].
  simpl. intros [Hc Hr]%andb_true_iff. rewrite (IH Hr).
  destruct r; [by rewrite (digit_not_c_space c Hc)|reflexivity].
Qed.

Lemma digits_tail_digits (s : string) :
  all_chars isdigit_char s = true ->
  digits_tail s = (String.list_ascii_of_string s, "").
Proof.
  induction s as [|c r IH]; [reflexivity|].
  simpl. intros [Hc Hr]%andb_true_iff. by rewrite Hc, (IH Hr).
Qed.

(** [float] accepts every text made of digits only. *)
Lemma py_float_digits (s : string) : isdigit s = true -> is_Some (py_float s).
Proof.
  intros Hs. destruct (isdigit_all_chars s Hs) as [Hall Hne].
  unfold py_float.
  rewrite (skip_leading_digits s Hall), (skip_trailing_digits s Hall).
  destruct s as [|c r]; [done|].
  simpl in Hall. apply andb_true_iff in Hall as [Hc Hr].
  unfold read_sign.
  rewrite (Ascii.eqb_sym c "-"), (Ascii.eqb_sym c "+"),
    (digit_differs "-" c Hc eq_refl), (digit_differs "+" c Hc eq_refl).
  assert (Hword : forall w, isdigit_char w = false ->
            forall rest, String.eqb (lower (String c r)) (String w rest) = false).
  { intros w Hw rest. simpl.
    assert (lower_char c = c) as ->.
    { unfold lower_char. destruct (digit_code c Hc) as [H1 H2].
      destruct (Nat.leb_spec 65 (code c)); [lia|reflexivity]. }
    destruct (Ascii.eqb_spec c w) as [->|]; [congruence|reflexivity]. }
  rewrite (Hword "i"%char eq_refl "nf"), (Hword "i"%char eq_refl "nfinity"),
    (Hword "n"%char eq_refl "an").
  cbn [orb].
  unfold read_number, digitpart. rewrite Hc, (digits_tail_digits r Hr).
  cbv beta iota zeta delta [read_exponent]. eauto.
Qed.

Lemma str_values_of_strs (l : list string) : str_values_of (PStr <$> l) = l.
Proof.
  induction l as [|s l IH]; [reflexivity|].
  change (str_values_of (PStr <$> s :: l))
    with (s :: str_values_of (PStr <$> l)).
  by rewrite IH.
Qed.

Lemma filter_all_true {A : Type} (f : A -> bool) (l : list A) :
  Forall (fun x => f x = true) l -> List.filter f l = l.
Proof.
  induction 1 as [|x l Hx _ IH]; [reflexivity|].
  simpl. by rewrite Hx, IH.
Qed.

(** X1.  A non-empty column whose samples are all digit-only strings is
    tagged [numeric]; the numeric rule comes first, so this also holds
    for a column of 0 and 1 only, which the boolean rule would accept. *)
Theorem infer_column_type_digit_strings (texts : list string) :
  texts <> [] ->
  Forall (fun s => isdigit s = true) texts ->
  infer_column_type (PStr <$> texts) = Ok TNumeric.
Proof.
  intros Hne Hall.
  destruct texts as [|sample others]; [done|].
  assert (Hsample : isdigit sample = true) by (by apply Forall_cons in Hall as [? _]).
  assert (Hnum : numeric_count (sample :: others) = length (sample :: others)).
  { unfold numeric_count. rewrite filter_all_true; [reflexivity|].
    eapply Forall_impl; [exact Hall|]. intros s. apply digits_only_of_isdigit. }
  change (PStr <$> sample :: others) with (PStr sample :: (PStr <$> others)).
  unfold infer_column_type.
  change (PStr sample :: (PStr <$> others)) with (PStr <$> sample :: others).
  rewrite str_values_of_strs. unfold classify_by_content.
  destruct (isdigit_all_chars sample Hsample) as [Hchars _].
  rewrite (remove_char_digits "," sample eq_refl Hchars).
  destruct (py_float_digits sample Hsample) as [f ->].
  rewrite Hnum. unfold above_80_percent.
  assert (Nat.ltb (8 * length (sample :: others)) (10 * length (sample :: others)) = true)
    as -> by (apply Nat.ltb_lt; simpl; lia).
  reflexivity.
Qed.

Lemma infer_column_type_digit_strings_witness :
  ["1"; "0"; "1"] <> []
  /\ Forall (fun s => isdigit s = true) ["1"; "0"; "1"]
  /\ infer_column_type [PStr "1"; PStr "0"; PStr "1"] = Ok TNumeric.
Proof.
  assert (H1 : ["1"; "0"; "1"] <> []) by discriminate.
  assert (H2 : Forall (fun s => isdigit s = true) ["1"; "0"; "1"])
    by (repeat constructor).
  split; [exact H1|]. split; [exact H2|].
  exact (infer_column_type_digit_strings ["1"; "0"; "1"] H1 H2).
Defined.

Lemma bool_text_cases (b : bool) :
  py_float (remove_char "," (py_str (PBool b))) = None
  /\ (existsb (fun p => contains p (py_str (PBool b))) date_patterns
      && Nat.leb 8 (String.length (py_str (PBool b)))) = false
  /\ bool_decide (lower (py_str (PBool b)) ∈ boolean_words) = true.
Proof. destruct b; vm_compute; repeat split. Qed.

Lemma str_values_of_bools (bs : list bool) :
  str_values_of (PBool <$> bs) = (fun b => py_str (PBool b)) <$> bs.
Proof.
  induction bs as [|b bs IH]; [reflexivity|].
  change (str_values_of (PBool <$> b :: bs))
    with (py_str (PBool b) :: str_values_of (PBool <$> bs)).
  by rewrite IH.
Qed.

(** X2.  A non-empty column of JSON booleans is tagged [boolean]: their
    texts [True] and [False] do not convert with [float], are too short
    for a date, and are boolean words once lower-cased. *)
Theorem infer_column_type_bools (bs : list bool) :
  bs <> [] -> infer_column_type (PBool <$> bs) = Ok TBoolean.
Proof.
  intros Hne. destruct bs as [|b bs']; [done|].
  change (PBool <$> b :: bs') with (PBool b :: (PBool <$> bs')).
  unfold infer_column_type.
  change (PBool b :: (PBool <$> bs')) with (PBool <$> b :: bs').
  rewrite str_values_of_bools.
  change ((fun b0 => py_str (PBool b0)) <$> b :: bs')
    with (py_str (PBool b) :: ((fun b0 => py_str (PBool b0)) <$> bs')).
  unfold classify_by_content.
  destruct (bool_text_cases b) as (-> & -> & Hb).
  assert (Hall : forallb (fun v => bool_decide (lower v ∈ boolean_words))
                   (py_str (PBool b) :: ((fun b0 => py_str (PBool b0)) <$> bs')) = true).
  { apply forallb_forall. intros v Hv.
    change (py_str (PBool b) :: ((fun b0 => py_str (PBool b0)) <$> bs'))
      with ((fun b0 => py_str (PBool b0)) <$> b :: bs') in Hv.
    apply list_elem_of_In, list_elem_of_fmap in Hv as (b0 & -> & _).
    apply (bool_text_cases b0). }
  by rewrite Hall.
Qed.

Lemma infer_column_type_bools_witness :
  [true; false] <> []
  /\ infer_column_type [PBool true; PBool false] = Ok TBoolean.
Proof.
  assert (H : [true; false] <> []) by discriminate.
  split; [exact H|]. exact (infer_column_type_bools [true; false] H).
Defined.

(** X3.  The tag [unknown] is returned for the empty list and for no
    other input. *)
Theorem infer_column_type_unknown_iff_empty (values : list pyval) :
  infer_column_type values = Ok TUnknown <-> values = [].
Proof.
  split; [|by intros ->].
  destruct values as [|v vs]; [done|]. intros H. exfalso.
  unfold infer_column_type in H.
  destruct (classify_by_content (str_values_of (v :: vs))) as [t|] eqn:E.
  - unfold classify_by_content in E.
    destruct (str_values_of (v :: vs)) as [|sample rest]; [discriminate|].
    repeat match type of E with
           | (if ?c then _ else _) = _ => destruct c
           end; congruence.
  - destruct (ratio_below_30_percent _ _) as [[|]|e]; discriminate.
Qed.

Lemma infer_column_type_unknown_iff_empty_witness :
  infer_column_type [] = Ok TUnknown.
Proof. exact (proj2 (infer_column_type_unknown_iff_empty []) eq_refl). Defined.

End TypeInferenceMore.

(** ** Schema Profiler, beyond the statistics *)

Section ProfilerMore.
Import PyStr PyFloat TypeInference Profiler.

Lemma column_type_returns (col_type_raw : string) (samples : list pyval) :
  exists t, column_type col_type_raw samples = Ok t.
Proof.
  unfold column_type.
  destruct (declared_type col_type_raw) as [t|]; [by exists t|].
  destruct samples as [|v vs]; [by exists TString|].
  apply infer_column_type_returns.
Qed.

Lemma result_mapM_ok {A B : Type} (f : A -> result B) (l : list A) :
  (forall x, exists y, f x = Ok y) ->
  exists l', result_mapM f l = Ok l'.
Proof.
  intros Hf. induction l as [|x l [l' IH]]; [by exists []|].
  destruct (Hf x) as [y Hy]. exists (y :: l').
  simpl. rewrite Hy. simpl. rewrite IH. reflexivity.
Qed.

Lemma result_mapM_Forall2 {A B : Type} (f : A -> result B) (l : list A) (l' : list B) :
  result_mapM f l = Ok l' -> Forall2 (fun x y => f x = Ok y) l l'.
Proof.
  revert l'. induction l as [|x l IH]; intros l'; simpl.
  - intros [= <-]. constructor.
  - destruct (f x) as [y|e] eqn:Ey; [|discriminate]. simpl.
    destruct (result_mapM f l) as [ys|e]; [|discriminate]. simpl.
    intros [= <-]. constructor; [exact Ey|by apply IH].
Qed.

Lemma profile_column_returns (sample_rows : list (gmap string pyval))
    (col : raw_column) :
  exists cp, profile_column sample_rows col = Ok cp.
Proof.
  unfold profile_column.
  destruct (column_type_returns (col_type_raw_of col)
              (collect_samples (col_name_of col) sample_rows)) as [t ->].
  simpl. eauto.
Qed.

Lemma profile_column_name (sample_rows : list (gmap string pyval))
    (col : raw_column) (cp : ColumnProfile) :
  profile_column sample_rows col = Ok cp -> cp_name cp = col_name_of col.
Proof.
  unfold profile_column.
  destruct (column_type _ _) as [t|e]; [|discriminate].
  by intros [= <-].
Qed.

(** What a collected sample is. *)
Lemma collect_samples_elem (col_name : string)
    (sample_rows : list (gmap string pyval)) (v : pyval) :
  v ∈ collect_samples col_name sample_rows ->
  v <> PNone /\ strip (py_str v) <> ""
  /\ exists r, r ∈ take 5 sample_rows /\ r !! col_name = Some v.
Proof.
  unfold collect_samples.
  intros (r & Hr & Hv)%list_elem_of_omap.
  destruct (r !! col_name) as [val|] eqn:E; [|discriminate].
  destruct (is_none val) eqn:En; [discriminate|].
  destruct (strip (py_str val)) as [|c s'] eqn:Es; [discriminate|].
  injection Hv as <-.
  split; [by intros ->|]. split; [by rewrite Es|]. by exists r.
Qed.

Lemma elem_of_take_elem {A : Type} (n : nat) (l : list A) (x : A) :
  x ∈ take n l -> x ∈ l.
Proof.
  intros (i & Hi)%list_elem_of_lookup.
  apply lookup_take_Some in Hi as [Hi _].
  apply list_elem_of_lookup. eauto.
Qed.

Lemma build_schema_profile_ok (columns_data : list raw_column)
    (sample_rows : list (gmap string pyval)) (row_count_arg : option Z) :
  exists p,
    build_schema_profile columns_data sample_rows row_count_arg = Ok p
    /\ column_names p = col_name_of <$> columns_data
    /\ cp_name <$> columns p = column_names p
    /\ length (columns p) = length columns_data
    /\ row_count p = default 0%Z row_count_arg.
Proof.
  unfold build_schema_profile.
  destruct (result_mapM_ok (profile_column sample_rows) columns_data
              (profile_column_returns sample_rows)) as [cols Hcols].
  rewrite Hcols. simpl. eexists. split; [reflexivity|]. simpl.
  apply result_mapM_Forall2 in Hcols.
  split; [|split; [reflexivity|split; [|reflexivity]]].
  - induction Hcols as [|col cp cs cps Hcp _ IH]; [reflexivity|].
    rewrite !fmap_cons, IH. f_equal. by apply (profile_column_name sample_rows).
  - symmetry. by eapply Forall2_length.
Qed.

(** X4.  The profiler has no error path: for every list of column
    descriptors, whatever the sample rows, a profile is returned; it
    lists one column per descriptor, in order, under the descriptor's
    name, and its [column_names] are the names of its columns in the same
    order (a name borne by two descriptors is listed twice). *)
Theorem build_schema_profile_returns (columns_data : list raw_column)
    (sample_rows : list (gmap string pyval)) (row_count_arg : option Z) :
  exists p,
    build_schema_profile columns_data sample_rows row_count_arg = Ok p
    /\ column_names p = col_name_of <$> columns_data
    /\ cp_name <$> columns p = column_names p
    /\ length (columns p) = length columns_data
    /\ row_count p = default 0%Z row_count_arg.
Proof. apply build_schema_profile_ok. Qed.

(** X5.  In every profile built, each column retains at most three
    samples; each retained sample is a cell found under the column's name
    in one of the first five sample rows, is not [None] and is not blank;
    and statistics are attached only to a [numeric] column that has a
    sample. *)
Theorem build_schema_profile_columns (columns_data : list raw_column)
    (sample_rows : list (gmap string pyval)) (row_count_arg : option Z)
    (p : SchemaProfile) :
  build_schema_profile columns_data sample_rows row_count_arg = Ok p ->
  Forall (fun cp =>
            length (cp_samples cp) <= 3
            /\ Forall (fun v =>
                         v <> PNone /\ strip (py_str v) <> ""
                         /\ exists r, r ∈ take 5 sample_rows
                                      /\ r !! cp_name cp = Some v)
                      (cp_samples cp)
            /\ (is_Some (cp_stats cp) ->
                cp_type cp = TNumeric /\ cp_samples cp <> []))
         (columns p).
Proof.
  unfold build_schema_profile.
  destruct (result_mapM (profile_column sample_rows) columns_data)
    as [cols|e] eqn:Hcols; [|discriminate].
  simpl. intros [= <-]. simpl.
  apply result_mapM_Forall2 in Hcols.
  induction Hcols as [|col cp cs cps Hcp _ IH]; constructor; [|exact IH].
  unfold profile_column in Hcp.
  destruct (column_type _ _) as [t|e]; [|discriminate].
  simpl in Hcp. injection Hcp as <-. simpl.
  split; [rewrite length_take; lia|]. split.
  - apply Forall_forall. intros v Hv%elem_of_take_elem.
    by apply collect_samples_elem.
  - intros [st Hst].
    destruct t; try discriminate.
    destruct (collect_samples (col_name_of col) sample_rows) as [|v vs];
      [discriminate|].
    split; [reflexivity|discriminate].
Qed.

Lemma build_schema_profile_columns_witness :
  exists p,
    build_schema_profile [Samples.revenue_column] Samples.revenue_rows None = Ok p
    /\ Forall (fun cp => length (cp_samples cp) <= 3) (columns p).
Proof.
  assert (H : exists p, build_schema_profile [Samples.revenue_column]
                          Samples.revenue_rows None = Ok p)
    by (vm_compute; eauto).
  destruct H as [p Hp]. exists p. split; [exact Hp|].
  eapply Forall_impl; [exact (build_schema_profile_columns _ _ _ _ Hp)|].
  intros cp H. exact (proj1 H).
Defined.

End ProfilerMore.

(** ** JSON Extraction, beyond the missing span *)

Section JsonExtractionMore.
Import PyStr JsonExtraction Samples.

Lemma lstrip_keeps (ch : ascii) (s : string) :
  isspace ch = false -> ch ∈ chars s -> ch ∈ chars (lstrip s).
Proof.
  intros Hch. induction s as [|c r IH]; [done|].
  rewrite chars_cons. intros Hin. cbn [lstrip].
  destruct (isspace c) eqn:Ec; [|by rewrite chars_cons].
  apply elem_of_cons in Hin as [->|Hin]; [congruence|by apply IH].
Qed.

Lemma rstrip_keeps (ch : ascii) (s : string) :
  isspace ch = false -> ch ∈ chars s -> ch ∈ chars (rstrip s).
Proof.
  intros Hch. induction s as [|c r IH]; [done|].
  rewrite chars_cons. intros Hin. cbn [rstrip].
  apply elem_of_cons in Hin as [->|Hin].
  - destruct (rstrip r); [rewrite Hch|]; rewrite chars_cons; by left.
  - specialize (IH Hin).
    destruct (rstrip r) as [|d r']; [by apply elem_of_nil in IH|].
    rewrite chars_cons. by right.
Qed.

Lemma strip_keeps (ch : ascii) (s : string) :
  isspace ch = false -> ch ∈ chars s -> ch ∈ chars (strip s).
Proof. intros Hch Hin. by apply rstrip_keeps, lstrip_keeps. Qed.

Lemma find_nat_Some_get (ch : ascii) (s : string) (i : nat) :
  find_nat (String ch "") s = Some i -> String.get i s = Some ch.
Proof.
  revert i. induction s as [|d r IH]; intros i; [discriminate|].
  rewrite find_nat_cons.
  destruct (Ascii.eqb_spec ch d) as [->|_]; [by intros [= <-]|].
  destruct (find_nat (String ch "") r) as [j|]; [|discriminate].
  intros [= <-]. by apply IH.
Qed.

Lemma get_elem_of_chars (i : nat) (s : string) (ch : ascii) :
  String.get i s = Some ch -> ch ∈ chars s.
Proof.
  revert i. induction s as [|d r IH]; intros i; [discriminate|].
  rewrite chars_cons. destruct i as [|i]; cbn [String.get].
  - intros [= ->]. by left.
  - intros H. right. by eapply IH.
Qed.

(** The slice that starts at a character of the text and is not empty
    holds that character. *)
Lemma slice_holds_start (i j : nat) (s : string) (ch : ascii) :
  String.get i s = Some ch -> i < j -> ch ∈ chars (slice i j s).
Proof.
  unfold slice. intros Hget Hij.
  destruct (j - i) as [|n] eqn:E; [lia|]. clear E Hij.
  revert i Hget. induction s as [|d r IH]; intros i; [discriminate|].
  destruct i as [|i]; cbn [String.get drop_chars take_chars].
  - intros [= ->]. rewrite chars_cons. by left.
  - apply IH.
Qed.

Lemma opener_not_space (k : ascii) :
  k = "{"%char \/ k = "["%char -> isspace k = false.
Proof. by intros [->| ->]. Qed.

(** The bracket scan gives the text of an empty object or strips a text
    that holds an opening bracket. *)
Lemma extract_span_cases (c : string) :
  extract_span c = "{}"
  \/ exists content' k,
       extract_span c = strip content'
       /\ k ∈ chars content' /\ (k = "{"%char \/ k = "["%char).
Proof.
  unfold extract_span, find.
  destruct (find_nat "{" c) as [i|] eqn:Eo; destruct (find_nat "[" c) as [j|] eqn:Ea;
    simpl index_or_minus1.
  4: by left.
  all: right.
  all: match goal with
       | |- context [if ?b then "{}" else _] =>
           assert (b = false) as ->
             by (repeat match goal with
                        | |- context [Z.eqb ?x ?y] => destruct (Z.eqb_spec x y)
                        end; simpl; try reflexivity; lia)
       end.
  all: match goal with
       | |- context [has_brace_at ?start ?cc] =>
           assert (Hstart : exists n k, start = Z.of_nat n
                              /\ String.get n cc = Some k
                              /\ (k = "{"%char \/ k = "["%char))
       end.
  1: { destruct (Z.eqb_spec (Z.of_nat i) (-1)); [lia|].
       destruct (Z.eqb_spec (Z.of_nat j) (-1)); [lia|].
       destruct (Z.min_spec (Z.of_nat i) (Z.of_nat j)) as [[_ ->]|[_ ->]].
       - exists i, "{"%char. split; [done|]. split; [by apply find_nat_Some_get|by left].
       - exists j, "["%char. split; [done|]. split; [by apply find_nat_Some_get|by right]. }
  2: { destruct (Z.eqb_spec (Z.of_nat i) (-1)); [lia|].
       exists i, "{"%char. split; [done|]. split; [by apply find_nat_Some_get|by left]. }
  3: { exists j, "["%char. split; [done|]. split; [by apply find_nat_Some_get|by right]. }
  all: destruct Hstart as (n & k & -> & Hget & Hk).
  all: match goal with
       | |- context [if ?b then slice ?a ?e ?cc else _] =>
           destruct b eqn:Eb;
           [exists (slice a e cc), k | exists cc, k]
       end.
  all: split; [reflexivity|]; split; [|exact Hk].
  all: try (by eapply get_elem_of_chars).
  all: apply andb_true_iff in Eb as [_ Hlt%Z.ltb_lt].
  all: rewrite Nat2Z.id; apply slice_holds_start; [exact Hget|lia].
Qed.

(** X6.  Whatever the reply holds, JSON Extraction never returns an
    empty text, and what it returns has no white space at either end. *)
Theorem clean_llm_json_never_blank (content : option string) :
  clean_llm_json content <> ""
  /\ strip (clean_llm_json content) = clean_llm_json content.
Proof.
  assert (H : clean_llm_json content = "{}"
              \/ exists content' k,
                   clean_llm_json content = strip content'
                   /\ k ∈ chars content' /\ (k = "{"%char \/ k = "["%char)).
  { destruct content as [[|c r]|]; [by left| |by left].
    apply extract_span_cases. }
  destruct H as [->|(content' & k & -> & Hin & Hk)]; [by split|].
  split; [|apply strip_idempotent].
  intros Hempty.
  pose proof (strip_keeps k content' (opener_not_space k Hk) Hin) as Hk'.
  rewrite Hempty in Hk'. by apply elem_of_nil in Hk'.
Qed.

Lemma append_cons_string (d : ascii) (a b : string) :
  String d a ++ b = String d (a ++ b).
Proof. reflexivity. Qed.

Lemma append_assoc_string (a b c : string) : (a ++ b) ++ c = a ++ (b ++ c).
Proof.
  induction a as [|d a IH]; [reflexivity|].
  by rewrite !append_cons_string, IH.
Qed.

Lemma append_length_string (a b : string) :
  String.length (a ++ b) = String.length a + String.length b.
Proof.
  induction a as [|d a IH]; [reflexivity|].
  rewrite append_cons_string. simpl. by rewrite IH.
Qed.

Lemma drop_chars_app (a b : string) : drop_chars (String.length a) (a ++ b) = b.
Proof.
  induction a as [|d a IH]; [by destruct b|].
  rewrite append_cons_string. exact IH.
Qed.

Lemma take_chars_app (a b : string) : take_chars (String.length a) (a ++ b) = a.
Proof.
  induction a as [|d a IH]; [by destruct b|].
  rewrite append_cons_string. simpl. by rewrite IH.
Qed.

(** The last [ch] of a text that holds none after one occurrence. *)
Lemma rfind_nat_last (ch : ascii) (a post : string) :
  ch ∉ chars post ->
  rfind_nat (String ch "") (a ++ String ch post) = Some (String.length a).
Proof.
  intros Hpost. induction a as [|d a IH].
  - change ("" ++ String ch post) with (String ch post).
    rewrite rfind_nat_cons, (rfind_nat_absent _ _ Hpost).
    by rewrite Ascii.eqb_refl.
  - change (String d a ++ String ch post) with (String d (a ++ String ch post)).
    by rewrite rfind_nat_cons, IH.
Qed.

Lemma rstrip_ends_clean (s : string) (c : ascii) :
  isspace c = false -> rstrip (s ++ String c "") = s ++ String c "".
Proof.
  intros Hc. induction s as [|d s IH]; [simpl; by rewrite Hc|].
  change (String d s ++ String c "") with (String d (s ++ String c "")).
  change (rstrip (String d (s ++ String c ""))) with
    (match rstrip (s ++ String c "") with
     | EmptyString => if isspace d then EmptyString else String d EmptyString
     | x => String d x
     end).
  rewrite IH. by destruct s.
Qed.

Lemma closer_not_space (k : ascii) : isspace (closer k) = false.
Proof. unfold closer. by destruct (Ascii.eqb k "{"). Qed.

(** The index where the scan starts, for a text whose first opening
    bracket sits right after [pre]. *)
Lemma scan_start_index (pre rest : string) (k : ascii) :
  "{"%char ∉ chars pre -> "["%char ∉ chars pre ->
  k = "{"%char \/ k = "["%char ->
  let c := pre ++ String k rest in
  (Z.eqb (find "{" c) (-1) && Z.eqb (find "[" c) (-1)) = false
  /\ (if Z.eqb (find "{" c) (-1) then find "[" c
      else if Z.eqb (find "[" c) (-1) then find "{" c
           else Z.min (find "{" c) (find "[" c))
     = Z.of_nat (String.length pre).
Proof.
  intros Hobj Harr Hk c. subst c. unfold find.
  rewrite (find_nat_past_prefix "{" k pre rest Hobj),
    (find_nat_past_prefix "[" k pre rest Harr).
  destruct Hk as [-> | ->]; simpl Ascii.eqb; cbv iota.
  - destruct (find_nat "[" rest) as [i|]; simpl.
    + destruct (Z.eqb_spec (Z.of_nat (String.length pre)) (-1)); [lia|].
      destruct (Z.eqb_spec (Z.of_nat (String.length pre + S i)) (-1)); [lia|].
      split; [reflexivity|lia].
    + destruct (Z.eqb_spec (Z.of_nat (String.length pre)) (-1)); [lia|].
      split; reflexivity.
  - destruct (find_nat "{" rest) as [i|]; simpl.
    + destruct (Z.eqb_spec (Z.of_nat (String.length pre + S i)) (-1)); [lia|].
      destruct (Z.eqb_spec (Z.of_nat (String.length pre)) (-1)); [lia|].
      split; [reflexivity|lia].
    + destruct (Z.eqb_spec (Z.of_nat (String.length pre)) (-1)); [lia|].
      split; reflexivity.
Qed.

(** X7.  When the text left after artifact stripping opens its first
    bracket after [pre] and holds the matching closing bracket for the
    last time after [mid], JSON Extraction returns exactly the span from
    that opening bracket to that closing bracket: what precedes and what
    follows is cut away. *)
Theorem clean_llm_json_span (text pre mid post : string) (k : ascii) :
  text <> "" ->
  strip_artifacts text = pre ++ String k (mid ++ String (closer k) post) ->
  "{"%char ∉ chars pre -> "["%char ∉ chars pre ->
  k = "{"%char \/ k = "["%char ->
  closer k ∉ chars post ->
  clean_llm_json (Some text) = String k (mid ++ String (closer k) "").
Proof.
  intros Hne Hc Hobj Harr Hk Hpost.
  destruct text as [|t0 tr]; [done|].
  unfold clean_llm_json. rewrite Hc.
  set (rest := mid ++ String (closer k) post).
  destruct (scan_start_index pre rest k Hobj Harr Hk) as [Hnone Hstart].
  unfold extract_span. rewrite Hnone, Hstart.
  unfold has_brace_at. rewrite Nat2Z.id, get_past_prefix.
  assert (Hend :
    (if Ascii.eqb k "{" then rfind "}" (pre ++ String k rest)
     else rfind "]" (pre ++ String k rest))
    = Z.of_nat (String.length pre + S (String.length mid))).
  { assert (Hsplit : pre ++ String k rest
                     = (pre ++ String k mid) ++ String (closer k) post).
    { subst rest. by rewrite append_assoc_string. }
    assert (Hr : rfind (String (closer k) "") (pre ++ String k rest)
                 = Z.of_nat (String.length pre + S (String.length mid))).
    { unfold rfind. rewrite Hsplit, (rfind_nat_last _ _ _ Hpost).
      simpl. by rewrite append_length_string. }
    revert Hr. unfold closer. by destruct (Ascii.eqb k "{"). }
  rewrite Hend.
  destruct (Z.eqb_spec (Z.of_nat (String.length pre + S (String.length mid))) (-1));
    [lia|].
  destruct (Z.ltb_spec (Z.of_nat (String.length pre))
              (Z.of_nat (String.length pre + S (String.length mid)))); [|lia].
  cbn [negb andb].
  assert (Hslice :
    slice (String.length pre)
          (Z.to_nat (Z.of_nat (String.length pre + S (String.length mid)) + 1))
          (pre ++ String k rest)
    = String k (mid ++ String (closer k) "")).
  { unfold slice. rewrite drop_chars_app.
    replace (Z.to_nat (Z.of_nat (String.length pre + S (String.length mid)) + 1)
             - String.length pre)
      with (S (String.length (mid ++ String (closer k) "")))
      by (rewrite append_length_string; simpl; lia).
    subst rest. simpl. f_equal.
    change (String (closer k) post) with (String (closer k) "" ++ post).
    rewrite <- append_assoc_string. apply take_chars_app. }
  rewrite Hslice. unfold strip.
  assert (lstrip (String k (mid ++ String (closer k) ""))
          = String k (mid ++ String (closer k) "")) as ->.
  { simpl. by rewrite (opener_not_space k Hk). }
  change (String k (mid ++ String (closer k) ""))
    with (String k mid ++ String (closer k) "").
  apply rstrip_ends_clean, closer_not_space.
Qed.

Lemma clean_llm_json_span_witness :
  "Sure: [1, 2] ok" <> ""
  /\ strip_artifacts "Sure: [1, 2] ok"
     = "Sure: " ++ String "[" ("1, 2" ++ String (closer "[") " ok")
  /\ clean_llm_json (Some "Sure: [1, 2] ok") = "[1, 2]".
Proof.
  assert (H1 : "Sure: [1, 2] ok" <> "") by discriminate.
  assert (H2 : strip_artifacts "Sure: [1, 2] ok"
               = "Sure: " ++ String "[" ("1, 2" ++ String (closer "[") " ok"))
    by reflexivity.
  assert (Hpre : forall ch, In ch (chars "Sure: ") -> ch <> "{"%char /\ ch <> "["%char).
  { intros ch [<-|[<-|[<-|[<-|[<-|[<-|[]]]]]]]; split; discriminate. }
  assert (H3 : "{"%char ∉ chars "Sure: ")
    by (intros H%list_elem_of_In; by destruct (Hpre _ H)).
  assert (H4 : "["%char ∉ chars "Sure: ")
    by (intros H%list_elem_of_In; by destruct (Hpre _ H)).
  assert (H5 : closer "[" ∉ chars " ok").
  { intros H%list_elem_of_In. simpl in H.
    destruct H as [H|[H|[H|[]]]]; discriminate H. }
  split; [exact H1|]. split; [exact H2|].
  exact (clean_llm_json_span "Sure: [1, 2] ok" "Sure: " "1, 2" " ok" "["
           H1 H2 H3 H4 (or_intror eq_refl) H5).
Defined.

End JsonExtractionMore.

(** ** Chart Candidate Generator, beyond validation *)

Section ChartSuggesterMore.
Import Profiler ChartSuggester SuggestApi Samples Shapes.

Lemma names_of_type_within (ok : TypeTag -> bool) (cols : list ColumnProfile)
    (v : string) :
  v ∈ names_of_type ok cols -> v ∈ cp_name <$> cols.
Proof.
  unfold names_of_type.
  intros (c & -> & Hc%list_elem_of_In%filter_In)%list_elem_of_fmap.
  apply list_elem_of_fmap. exists c. split; [done|].
  apply list_elem_of_In, Hc.
Qed.

Lemma encoding_within_pair (names : list string) (id : Z) (name reason x y : string) :
  x ∈ names -> y ∈ names ->
  encoding_within names
    {| cc_id := id; cc_name := name; cc_reason := reason;
       cc_encoding := {[ "x" := x; "y" := y ]} |}.
Proof.
  intros Hx Hy role v. simpl.
  rewrite lookup_insert_Some, lookup_singleton_Some.
  intros [[_ <-]|[_ [_ <-]]]; assumption.
Qed.

Lemma encoding_within_single (names : list string) (id : Z)
    (name reason role0 x : string) :
  x ∈ names ->
  encoding_within names
    {| cc_id := id; cc_name := name; cc_reason := reason;
       cc_encoding := {[ role0 := x ]} |}.
Proof.
  intros Hx role v. simpl. rewrite lookup_singleton_Some. by intros [_ <-].
Qed.

Lemma rule_suggestions_within (cols : list ColumnProfile) :
  Forall (encoding_within (cp_name <$> cols)) (rule_suggestions cols).
Proof.
  unfold rule_suggestions.
  set (date_cols := names_of_type _ cols).
  set (numeric_cols := names_of_type (fun t => bool_decide (t = TNumeric)) cols).
  set (category_cols := names_of_type (fun t => bool_decide (t = TCategory) || _) cols).
  assert (Hd : forall v, v ∈ date_cols -> v ∈ cp_name <$> cols)
    by (intros v; apply names_of_type_within).
  assert (Hn : forall v, v ∈ numeric_cols -> v ∈ cp_name <$> cols)
    by (intros v; apply names_of_type_within).
  assert (Hc : forall v, v ∈ category_cols -> v ∈ cp_name <$> cols)
    by (intros v; apply names_of_type_within).
  clearbody date_cols numeric_cols category_cols.
  repeat apply Forall_app_2.
  - destruct date_cols as [|d ?], numeric_cols as [|n ?]; repeat constructor.
    apply encoding_within_pair; [apply Hd|apply Hn]; by left.
  - destruct category_cols as [|c ?], numeric_cols as [|n ?]; repeat constructor.
    apply encoding_within_pair; [apply Hc|apply Hn]; by left.
  - destruct numeric_cols as [|n ?]; repeat constructor.
    apply encoding_within_single, Hn. by left.
  - destruct category_cols as [|c ?], numeric_cols as [|n ?]; repeat constructor.
    apply encoding_within_pair; [apply Hc|apply Hn]; by left.
  - destruct numeric_cols as [|n0 [|n1 ?]]; repeat constructor.
    apply encoding_within_pair; apply Hn; [by left|right; by left].
  - destruct numeric_cols as [|n ?]; repeat constructor.
    apply encoding_within_single, Hn. by left.
Qed.

Lemma Forall_take_weaken {A : Type} (P : A -> Prop) (n : nat) (l : list A) :
  Forall P l -> Forall P (take n l).
Proof.
  intros H. rewrite <- (take_drop n l) in H. by apply Forall_app in H as [? _].
Qed.

Lemma generic_charts_within (names : list string) :
  Forall (encoding_within names) generic_charts.
Proof.
  repeat constructor; intros role v; simpl; by rewrite lookup_empty.
Qed.

Lemma usable_columns_Some (sp : option SchemaProfile) (cols : list ColumnProfile) :
  usable_columns sp = Some cols -> exists p, sp = Some p /\ columns p = cols.
Proof.
  destruct sp as [p|]; [|discriminate]. simpl.
  destruct (columns p) eqn:E; [discriminate|]. intros [= <-]. eauto.
Qed.

(** Every chart of a fallback suggestion stays within the profile's
    column names. *)
Lemma fallback_charts_within (user_prompts : list string)
    (sp : option SchemaProfile) :
  Forall (fun s => Forall (encoding_within (profile_names sp)) (chosen_charts s))
         (_generate_fallback_suggestions user_prompts sp).
Proof.
  unfold _generate_fallback_suggestions.
  destruct (usable_columns sp) as [cols|] eqn:E.
  - apply usable_columns_Some in E as (p & -> & <-).
    apply Forall_fmap, Forall_forall. intros prompt _. simpl.
    apply Forall_take_weaken, rule_suggestions_within.
  - apply Forall_fmap, Forall_forall. intros prompt _. simpl.
    apply generic_charts_within.
Qed.

Lemma fallback_prompts (user_prompts : list string) (sp : option SchemaProfile) :
  user_prompt <$> _generate_fallback_suggestions user_prompts sp = user_prompts.
Proof.
  unfold _generate_fallback_suggestions.
  destruct (usable_columns sp); rewrite <- list_fmap_compose;
    simpl; apply list_fmap_id.
Qed.

(** X8.  The rule-based fallback answers every prompt, in order, with at
    most four charts, and every value of every encoding it emits is the
    name of a column of the profile it was given (without a profile the
    encodings are empty). *)
Theorem fallback_suggestions_shape (user_prompts : list string)
    (schema_profile : option SchemaProfile) :
  user_prompt <$> _generate_fallback_suggestions user_prompts schema_profile
  = user_prompts
  /\ Forall (fun s =>
               length (chosen_charts s) <= 4
               /\ Forall (encoding_within (profile_names schema_profile))
                         (chosen_charts s))
            (_generate_fallback_suggestions user_prompts schema_profile).
Proof.
  split; [apply fallback_prompts|].
  pose proof (fallback_charts_within user_prompts schema_profile) as Hw.
  rewrite Forall_forall in Hw. apply Forall_forall. intros s Hs.
  split; [by eapply fallback_at_most_four|by apply Hw].
Qed.

Lemma names_of_type_none (ok : TypeTag -> bool) (cols : list ColumnProfile) :
  Forall (fun c => ok (cp_type c) = false) cols -> names_of_type ok cols = [].
Proof.
  unfold names_of_type. induction 1 as [|c cols Hc _ IH]; [reflexivity|].
  simpl. by rewrite Hc.
Qed.

(** X9.  A profile that has columns but no [numeric] one gets no chart at
    all from the fallback, for any prompt: every rule needs a numeric
    column (only a missing or empty profile gets the four generic
    charts). *)
Theorem fallback_without_numeric_column (user_prompts : list string)
    (p : SchemaProfile) :
  columns p <> [] ->
  Forall (fun c => cp_type c <> TNumeric) (columns p) ->
  Forall (fun s => chosen_charts s = [])
         (_generate_fallback_suggestions user_prompts (Some p)).
Proof.
  intros Hne Hnum. unfold _generate_fallback_suggestions, usable_columns.
  destruct (columns p) as [|c cs] eqn:E; [done|].
  apply Forall_fmap, Forall_forall. intros prompt _. simpl.
  unfold rule_suggestions.
  rewrite (names_of_type_none (fun t => bool_decide (t = TNumeric)) (c :: cs)).
  - by repeat match goal with
              | |- context [match ?l with [] => _ | _ :: _ => _ end] => destruct l
              end.
  - eapply Forall_impl; [exact Hnum|]. intros c0 H. by apply bool_decide_eq_false.
Qed.

Lemma fallback_without_numeric_column_witness :
  let p := {| columns := [ {| cp_name := "Region"; cp_type := TCategory;
                              cp_samples := []; cp_stats := None |};
                           {| cp_name := "Day"; cp_type := TDate;
                              cp_samples := []; cp_stats := None |} ];
              row_count := 0; column_names := ["Region"; "Day"];
              summary := "" |} in
  columns p <> []
  /\ Forall (fun c => cp_type c <> TNumeric) (columns p)
  /\ Forall (fun s => chosen_charts s = [])
            (_generate_fallback_suggestions ["trend"; "share"] (Some p)).
Proof.
  intros p.
  assert (H1 : columns p <> []) by discriminate.
  assert (H2 : Forall (fun c => cp_type c <> TNumeric) (columns p))
    by (repeat constructor; discriminate).
  split; [exact H1|]. split; [exact H2|].
  exact (fallback_without_numeric_column ["trend"; "share"] p H1 H2).
Defined.

Lemma imap_prompts (f : nat -> string -> Suggestion) (l : list string) :
  (forall i x, user_prompt (f i x) = x) -> user_prompt <$> imap f l = l.
Proof.
  intros Hf. apply list_eq. intros i.
  rewrite list_lookup_fmap, list_lookup_imap.
  destruct (l !! i) as [x|]; simpl; [by rewrite Hf|reflexivity].
Qed.

(** X10.  Whatever the completion service does, [suggest] answers every
    prompt, in order; and the answer to the [i]-th prompt depends only on
    the reply to that prompt's own request: a failure for one prompt
    leaves the other answers as they are. *)
Theorem suggest_per_prompt (llm llm' : nat -> string -> llm_reply)
    (user_prompts : list string) (schema_profile : option SchemaProfile) :
  user_prompt <$> suggest llm user_prompts schema_profile = user_prompts
  /\ (forall i prompt,
        user_prompts !! i = Some prompt ->
        llm i prompt = llm' i prompt ->
        suggest llm user_prompts schema_profile !! i
        = suggest llm' user_prompts schema_profile !! i).
Proof.
  unfold suggest.
  destruct schema_profile as [p|]; [|split; [apply fallback_prompts|done]].
  destruct (usable_columns (Some p)) as [cols|];
    [|split; [apply fallback_prompts|done]].
  split; [by apply imap_prompts|].
  intros i prompt Hi Heq.
  by rewrite !list_lookup_imap, Hi; simpl; rewrite Heq.
Qed.

Lemma suggest_per_prompt_witness :
  let failing := fun (i : nat) (_ : string) =>
                   if Nat.eqb i 0 then LlmRaises else LlmCharts five_valid_charts in
  let working := fun (_ : nat) (_ : string) => LlmCharts five_valid_charts in
  ["first"; "second"] !! 1 = Some "second"
  /\ failing 1 "second" = working 1 "second"
  /\ suggest failing ["first"; "second"] (Some sales_profile) !! 1
     = suggest working ["first"; "second"] (Some sales_profile) !! 1.
Proof.
  intros failing working.
  assert (H1 : ["first"; "second"] !! 1 = Some "second") by reflexivity.
  assert (H2 : failing 1 "second" = working 1 "second") by reflexivity.
  split; [exact H1|]. split; [exact H2|].
  exact (proj2 (suggest_per_prompt failing working ["first"; "second"]
                  (Some sales_profile)) 1 "second" H1 H2).
Defined.

Lemma encoding_within_grounded (names : list string) (chart : ChartCandidate) :
  encoding_within names chart -> encoding_grounded names chart.
Proof. intros H role v _ Hv _. by eapply H. Qed.

Lemma build_schema_profile_names (columns_data : list raw_column)
    (sample_rows : list (gmap string pyval)) (row_count_arg : option Z)
    (p : SchemaProfile) :
  build_schema_profile columns_data sample_rows row_count_arg = Ok p ->
  cp_name <$> columns p = column_names p.
Proof.
  unfold build_schema_profile.
  destruct (result_mapM _ _) as [cols|e]; [|discriminate].
  by intros [= <-].
Qed.

(** Over a profile whose [column_names] are its columns' names, every
    chart emitted for a prompt is grounded unless the reply parsed and
    none of its candidates passed the column check. *)
Lemma suggest_prompt_grounded_unless (p : SchemaProfile) (prompt : string)
    (reply : llm_reply) :
  cp_name <$> columns p = column_names p ->
  (forall chosen, reply = LlmCharts chosen ->
                  Exists (encoding_grounded (column_names p)) chosen) ->
  Forall (encoding_grounded (column_names p))
         (chosen_charts (suggest_prompt p prompt reply)).
Proof.
  intros Hnames Hreply.
  assert (Hfb : Forall (encoding_grounded (column_names p))
                       (fallback_charts prompt (Some p))).
  { unfold fallback_charts.
    pose proof (fallback_charts_within [prompt] (Some p)) as Hw.
    destruct (_generate_fallback_suggestions [prompt] (Some p)) as [|s ss];
      [constructor|].
    apply Forall_cons in Hw as [Hs _]. simpl in Hs. rewrite Hnames in Hs.
    eapply Forall_impl; [exact Hs|]. apply encoding_within_grounded. }
  destruct reply as [| |chosen]; simpl; try exact Hfb.
  unfold validate_charts.
  pose proof (validated_all_grounded p chosen) as Hall.
  destruct (List.filter _ chosen) as [|v vs] eqn:E; [|exact Hall].
  exfalso. specialize (Hreply chosen eq_refl).
  apply Exists_exists in Hreply as (c & Hin & Hc).
  assert (Hf : In c (List.filter
                       (references_known_columns (list_to_set (column_names p)))
                       chosen)).
  { apply filter_In. split; [by apply list_elem_of_In|].
    by apply references_known_columns_grounded. }
  rewrite E in Hf. exact Hf.
Qed.

(** X11.  Profiling and suggesting compose: over a profile returned by
    [build_schema_profile], every chart that [suggest] emits for a prompt
    has its present [x] and [y] among the profile's [column_names],
    whether the completion service failed, replied with unparseable text,
    or replied with candidates of which at least one passed the column
    check. *)
Theorem suggest_over_built_profile (columns_data : list raw_column)
    (sample_rows : list (gmap string pyval)) (row_count_arg : option Z)
    (p : SchemaProfile) (prompt : string) (reply : llm_reply) :
  build_schema_profile columns_data sample_rows row_count_arg = Ok p ->
  (forall chosen, reply = LlmCharts chosen ->
                  Exists (encoding_grounded (column_names p)) chosen) ->
  Forall (encoding_grounded (column_names p))
         (chosen_charts (suggest_prompt p prompt reply)).
Proof.
  intros Hp Hreply.
  apply suggest_prompt_grounded_unless; [|exact Hreply].
  by eapply build_schema_profile_names.
Qed.

Lemma suggest_over_built_profile_witness :
  exists p,
    build_schema_profile [Samples.revenue_column] Samples.revenue_rows None = Ok p
    /\ (forall chosen, LlmRaises = LlmCharts chosen ->
                       Exists (encoding_grounded (column_names p)) chosen)
    /\ Forall (encoding_grounded (column_names p))
              (chosen_charts (suggest_prompt p "revenue" LlmRaises)).
Proof.
  assert (H : exists p, build_schema_profile [Samples.revenue_column]
                          Samples.revenue_rows None = Ok p)
    by (vm_compute; eauto).
  destruct H as [p Hp]. exists p.
  assert (H2 : forall chosen, LlmRaises = LlmCharts chosen ->
                 Exists (encoding_grounded (column_names p)) chosen)
    by (intros chosen Habs; discriminate Habs).
  split; [exact Hp|]. split; [exact H2|].
  exact (suggest_over_built_profile _ _ _ p "revenue" LlmRaises Hp H2).
Defined.

(** X12.  The suggest-charts operation passes no schema, so it never
    uses what the completion service replies: every prompt is answered
    with the same four generic charts, all with an empty encoding. *)
Theorem api_suggest_charts_generic (llm : nat -> string -> llm_reply)
    (user_prompts : list string) :
  api_suggest_charts llm user_prompts
  = (fun prompt => {| user_prompt := prompt; chosen_charts := generic_charts |})
      <$> user_prompts
  /\ length generic_charts = 4
  /\ Forall (fun c => cc_encoding c = ∅) generic_charts.
Proof.
  split; [reflexivity|]. split; [reflexivity|]. repeat constructor.
Qed.

End ChartSuggesterMore.

(** ** Query Execution Client, beyond the three terminal cases *)

Section ExecutionMore.
Import Execution Samples.

Lemma poll_outcome (be : backend) (job_id : string) (attempt remaining : nat) :
  (forall d, fst (poll be job_id attempt remaining) = Ok d ->
             status d = Some "completed"
             /\ 1 <= snd (poll be job_id attempt remaining))
  /\ (forall e, fst (poll be job_id attempt remaining) = Raise e ->
                (exists detail, e = HTTPException 500 detail)
                \/ (exists err, e = OtherError err)).
Proof.
  revert attempt. induction remaining as [|k IH]; intros attempt; simpl.
  - split; [discriminate|]. intros e [= <-]. left. eauto.
  - destruct (get_query be job_id attempt) as [err|err|d0]; simpl.
    + split; [discriminate|]. intros e [= <-]. left. eauto.
    + split; [discriminate|]. intros e [= <-]. right. eauto.
    + case_bool_decide as Hc; simpl.
      { split; [|discriminate]. intros d [= <-]. split; [exact Hc|lia]. }
      case_bool_decide as Hf; simpl.
      { split; [discriminate|]. intros e [= <-]. left. eauto. }
      destruct (IH (S attempt)) as [IHok IHerr].
      destruct (poll be job_id (S attempt) k) as [r n]. simpl in *.
      split; [|exact IHerr].
      intros d Hd. destruct (IHok d Hd) as [Hs Hn]. split; [exact Hs|lia].
Qed.

(** X13.  Whatever the backend answers, one execution makes at most 60
    status requests; a payload it returns has status [completed] and cost
    at least one status request; an exception it raises is an
    HTTPException with status code 500, or the non-HTTP exception of a
    malformed exchange passed on as it is. *)
Theorem execute_query_outcome (be : backend) (q : QuerySpec) :
  snd (execute_query_on_datalake be q) <= 60
  /\ (forall d, fst (execute_query_on_datalake be q) = Ok d ->
                status d = Some "completed"
                /\ 1 <= snd (execute_query_on_datalake be q))
  /\ (forall e, fst (execute_query_on_datalake be q) = Raise e ->
                (exists detail, e = HTTPException 500 detail)
                \/ (exists err, e = OtherError err)).
Proof.
  unfold execute_query_on_datalake.
  destruct (post_query be q) as [err|err|result].
  - simpl. split; [lia|]. split; [discriminate|]. intros e [= <-]. left. eauto.
  - simpl. split; [lia|]. split; [discriminate|]. intros e [= <-]. right. eauto.
  - destruct (jobId result) as [[|c r]|]; cbv beta iota.
    + simpl. split; [lia|]. split; [discriminate|]. intros e [= <-]. left. eauto.
    + split; [apply poll_count_bounded|]. apply poll_outcome.
    + simpl. split; [lia|]. split; [discriminate|]. intros e [= <-]. left. eauto.
Qed.

Lemma execute_query_outcome_witness :
  fst (execute_query_on_datalake backend_failed sales_query)
  = Raise (HTTPException 500 "Query failed: table not found")
  /\ ((exists detail,
         HTTPException 500 "Query failed: table not found" = HTTPException 500 detail)
      \/ (exists err,
            HTTPException 500 "Query failed: table not found" = OtherError err)).
Proof.
  assert (H : fst (execute_query_on_datalake backend_failed sales_query)
              = Raise (HTTPException 500 "Query failed: table not found"))
    by reflexivity.
  split; [exact H|].
  exact (proj2 (proj2 (execute_query_outcome backend_failed sales_query)) _ H).
Defined.

(** X14.  The client fails fast.  A submission reply without a usable
    job identifier (absent, or the empty string) ends in a failure before
    any status request; and a transport error on the status request that
    follows [k < 60] pending replies ends the execution there, with the
    transport text in the failure. *)
Theorem execute_query_fails_fast (be : backend) (q : QuerySpec)
    (reply : submit_body) (job_id : string) (k : nat) (err : string) :
  post_query be q = Body reply ->
  (jobId reply = None \/ jobId reply = Some "" ->
   execute_query_on_datalake be q
   = (Raise (HTTPException 500 "No jobId returned from data-lakehouse"), 0))
  /\ (jobId reply = Some job_id -> job_id <> "" ->
      k < 60 ->
      (forall i, i < k -> pending (get_query be job_id i)) ->
      get_query be job_id k = TransportError err ->
      execute_query_on_datalake be q
      = (Raise (HTTPException 500 ("Data-lakehouse error: " ++ err)), S k)).
Proof.
  intros Hpost. unfold execute_query_on_datalake. rewrite Hpost. split.
  - by intros [-> | ->].
  - intros -> Hne Hk Hpend Herr.
    destruct job_id as [|c r]; [done|].
    rewrite (poll_skips_pending be _ k 0 max_attempts Hpend);
      [|unfold max_attempts; lia].
    simpl (0 + k).
    destruct (max_attempts - k) as [|rem] eqn:E; [unfold max_attempts in E; lia|].
    simpl poll. rewrite Herr. simpl. f_equal. lia.
Qed.

Lemma execute_query_fails_fast_witness :
  let be := {| post_query := fun _ => Body {| jobId := Some "" |};
               get_query := fun _ _ => Body running_body |} in
  post_query be sales_query = Body {| jobId := Some "" |}
  /\ execute_query_on_datalake be sales_query
     = (Raise (HTTPException 500 "No jobId returned from data-lakehouse"), 0).
Proof.
  intros be.
  assert (H : post_query be sales_query = Body {| jobId := Some "" |})
    by reflexivity.
  split; [exact H|].
  exact (proj1 (execute_query_fails_fast be sales_query {| jobId := Some "" |}
                  "" 0 "" H) (or_intror eq_refl)).
Defined.

End ExecutionMore.

(** ** Result Reshaper, beyond the per-column rule *)

Section ReshaperMore.
Import PyStr PyFloat Reshaper Samples.

Lemma build_datasets_rectangular (result_data : list row) (cols : list string)
    (i : nat) :
  Forall (fun ds =>
            length (data ds) = length result_data
            /\ exists c, c ∈ colors
                         /\ backgroundColor ds = replicate (length result_data) c)
         (build_datasets i cols result_data).
Proof.
  revert i. induction cols as [|col cols IH]; intros i; [constructor|].
  cbn [build_datasets]. constructor; [|apply IH].
  cbn [data backgroundColor]. rewrite length_fmap. split; [reflexivity|].
  destruct (lookup_lt_is_Some_2 colors (i mod length colors)) as [c Hc].
  { apply Nat.mod_upper_bound. discriminate. }
  exists c. split; [by eapply list_elem_of_lookup_2|by rewrite Hc].
Qed.

(** X15.  The reshaped output is rectangular for every execution result:
    there are as many labels as result rows, or none at all; every
    dataset holds exactly one value and one colour per label; and the
    colours of a dataset are one and the same entry of the palette. *)
Theorem transform_to_chartjs_format_rectangular (execution_result : status_body) :
  let out := transform_to_chartjs_format execution_result in
  (labels out = []
   \/ length (labels out) = length (default [] (resultData execution_result)))
  /\ Forall (fun ds =>
               length (data ds) = length (labels out)
               /\ exists c, c ∈ colors
                            /\ backgroundColor ds = replicate (length (labels out)) c)
            (datasets out).
Proof.
  unfold transform_to_chartjs_format.
  destruct (default [] (resultData execution_result)) as [|first rest] eqn:E;
    [split; [by left|constructor]|].
  destruct (fst <$> first) as [|label_col value_cols];
    [split; [by left|constructor]|].
  cbn [labels datasets]. rewrite length_fmap.
  split; [by right|apply build_datasets_rectangular].
Qed.

(** X16.  The reshaper gives the empty output exactly when there is no
    result row or the first row has no column; otherwise there is a label
    for every row. *)
Theorem transform_to_chartjs_format_empty_iff (execution_result : status_body) :
  transform_to_chartjs_format execution_result = empty_chart
  <-> (resultData execution_result = None
       \/ resultData execution_result = Some []
       \/ exists rest, resultData execution_result = Some ([] :: rest)).
Proof.
  unfold transform_to_chartjs_format. split.
  - destruct (resultData execution_result) as [[|first rest]|]; simpl;
      [by right; left| |by left].
    destruct first as [|[k v] more]; [right; right; eauto|].
    discriminate.
  - intros [-> | [-> | [rest ->]]]; reflexivity.
Qed.

Lemma transform_to_chartjs_format_empty_iff_witness :
  (resultData (completed_with [[]; [("Region", PStr "Asia")]]) = None
   \/ resultData (completed_with [[]; [("Region", PStr "Asia")]]) = Some []
   \/ exists rest,
        resultData (completed_with [[]; [("Region", PStr "Asia")]])
        = Some ([] :: rest))
  /\ transform_to_chartjs_format (completed_with [[]; [("Region", PStr "Asia")]])
     = empty_chart.
Proof.
  assert (H : resultData (completed_with [[]; [("Region", PStr "Asia")]]) = None
              \/ resultData (completed_with [[]; [("Region", PStr "Asia")]]) = Some []
              \/ exists rest,
                   resultData (completed_with [[]; [("Region", PStr "Asia")]])
                   = Some ([] :: rest))
    by (right; right; eexists; reflexivity).
  split; [exact H|].
  exact (proj2 (transform_to_chartjs_format_empty_iff _) H).
Defined.

Lemma row_get_missing (r : row) (key : string) (dflt : pyval) :
  key ∉ (fst <$> r) -> row_get r key dflt = dflt.
Proof.
  induction r as [|[k v] r IH]; [done|].
  rewrite fmap_cons, not_elem_of_cons. simpl. intros [Hne Hnot].
  destruct (String.eqb_spec k key) as [->|_]; [done|]. by apply IH.
Qed.

(** In a row, whose keys are distinct, the cell held under a key is the
    one [get] returns. *)
Lemma row_get_elem (r : row) (key : string) (v dflt : pyval) :
  NoDup (fst <$> r) -> (key, v) ∈ r -> row_get r key dflt = v.
Proof.
  induction r as [|[k w] r IH]; intros Hnodup Hin;
    [by apply elem_of_nil in Hin|].
  rewrite fmap_cons in Hnodup. apply NoDup_cons in Hnodup as [Hk Hnodup].
  simpl. apply elem_of_cons in Hin as [Heq|Hin].
  - injection Heq as -> ->. by rewrite String.eqb_refl.
  - destruct (String.eqb_spec k key) as [->|_]; [|by apply IH].
    exfalso. apply Hk. apply list_elem_of_fmap. by exists (key, v).
Qed.

(** X17.  How gaps are rendered, for rows [first :: rest] whose first row
    begins with the label column and for any of these rows [r] (a
    mapping: its keys are distinct).  When [r] lacks the label column its
    label is the empty text, when it holds [None] there its label is
    [None]; in every dataset, a cell that [r] lacks and a cell where [r]
    holds [None], wherever in the row, both become the integer 0. *)
Theorem transform_to_chartjs_format_gaps (execution_result : status_body)
    (first : row) (rest : list row) (label_col : string) (v0 : pyval)
    (more : row) (i : nat) (r : row) :
  resultData execution_result = Some (first :: rest) ->
  first = (label_col, v0) :: more ->
  (first :: rest) !! i = Some r ->
  NoDup (fst <$> r) ->
  let out := transform_to_chartjs_format execution_result in
  (label_col ∉ (fst <$> r) -> labels out !! i = Some "")
  /\ ((label_col, PNone) ∈ r -> labels out !! i = Some "None")
  /\ (forall j col ds,
        (fst <$> more) !! j = Some col ->
        datasets out !! j = Some ds ->
        (col ∉ (fst <$> r) -> data ds !! i = Some (NInt 0))
        /\ ((col, PNone) ∈ r -> data ds !! i = Some (NInt 0))).
Proof.
  intros Hrows Hfirst Hi Hkeys out. subst out.
  unfold transform_to_chartjs_format. rewrite Hrows. simpl default.
  subst first. cbv beta iota.
  change (fst <$> (label_col, v0) :: more) with (label_col :: (fst <$> more)).
  cbv beta iota. cbn [labels datasets].
  split; [|split].
  - intros Hmiss. rewrite list_lookup_fmap, Hi. simpl.
    by rewrite (row_get_missing r label_col _ Hmiss).
  - intros Hin. rewrite list_lookup_fmap, Hi. simpl.
    by rewrite (row_get_elem r label_col PNone _ Hkeys Hin).
  - intros j col ds Hj Hds.
    rewrite (build_datasets_lookup _ _ 0 j col Hj) in Hds.
    assert (Hd : data ds
                 = (fun r0 => to_number (row_get r0 col (PInt 0)))
                     <$> ((label_col, v0) :: more) :: rest)
      by (injection Hds as <-; reflexivity).
    rewrite Hd. clear Hd Hds. unfold row in *.
    split.
    + intros Hmiss. rewrite list_lookup_fmap, Hi. simpl.
      by rewrite (row_get_missing r col _ Hmiss).
    + intros Hin. rewrite list_lookup_fmap, Hi. simpl.
      by rewrite (row_get_elem r col PNone _ Hkeys Hin).
Qed.

Lemma transform_to_chartjs_format_gaps_witness :
  let rows := [ [("Region", PStr "Asia"); ("Sales", PInt 100)];
                [("Region", PStr "EU"); ("Sales", PNone)];
                [("Sales", PInt 50)] ] in
  let out := transform_to_chartjs_format (completed_with rows) in
  resultData (completed_with rows) = Some rows
  /\ rows !! 1 = Some [("Region", PStr "EU"); ("Sales", PNone)]
  /\ NoDup (fst <$> [("Region", PStr "EU"); ("Sales", PNone)])
  /\ ("Sales", PNone) ∈ [("Region", PStr "EU"); ("Sales", PNone)]
  /\ (forall ds, datasets out !! 0 = Some ds -> data ds !! 1 = Some (NInt 0)).
Proof.
  intros rows out.
  assert (H1 : resultData (completed_with rows) = Some rows) by reflexivity.
  assert (H2 : rows !! 1 = Some [("Region", PStr "EU"); ("Sales", PNone)])
    by reflexivity.
  assert (H3 : NoDup (fst <$> [("Region", PStr "EU"); ("Sales", PNone)])).
  { simpl. apply NoDup_cons. split; [|apply NoDup_singleton].
    intros H. apply list_elem_of_singleton in H. discriminate H. }
  assert (H4 : ("Sales", PNone) ∈ [("Region", PStr "EU"); ("Sales", PNone)])
    by (right; left).
  split; [exact H1|]. split; [exact H2|]. split; [exact H3|]. split; [exact H4|].
  intros ds Hds.
  exact (proj2 (proj2 (proj2 (transform_to_chartjs_format_gaps
                                (completed_with rows)
                                [("Region", PStr "Asia"); ("Sales", PInt 100)]
                                [[("Region", PStr "EU"); ("Sales", PNone)];
                                 [("Sales", PInt 50)]]
                                "Region" (PStr "Asia") [("Sales", PInt 100)]
                                1 [("Region", PStr "EU"); ("Sales", PNone)]
                                H1 eq_refl H2 H3))
                      0 "Sales" ds eq_refl Hds) H4).
Defined.

End ReshaperMore.

(** ** The operations that execute chart queries, beyond the source *)

Section ApiMore.
Import Execution Reshaper Api Samples Shapes.

Context {Metadata Suggestions : Type}.

Lemma build_queries_chart_identity (be : backend) (chart chart' : ChartResult) :
  fst (build_queries_chart be chart) = Ok chart' ->
  same_identity chart chart' /\ is_Some (cr_error chart')
  /\ length (snd (build_queries_chart be chart))
     = if has_query chart then 1 else 0.
Proof.
  unfold build_queries_chart, has_query.
  destruct (cr_chart_id chart) as [cid|] eqn:Eid; [|discriminate].
  destruct (cr_query chart) as [q|]; simpl.
  - destruct (fst (execute_query_on_datalake be (with_source q hardcoded_source)))
      as [res|[code detail| |key|err]];
      intros [= <-]; simpl; repeat split; eauto.
  - intros [= <-]. simpl. repeat split; eauto.
Qed.

Lemma build_queries_loop_keeps (be : nat -> backend) (i : nat)
    (todo : list ChartResult) :
  Forall (fun c => cr_chart_id c <> None) todo ->
  exists finished,
    fst (build_queries_loop be i todo) = Ok finished
    /\ Forall2 (fun c c' => same_identity c c' /\ is_Some (cr_error c')) todo finished
    /\ length (snd (build_queries_loop be i todo))
       = length (List.filter has_query todo).
Proof.
  revert i. induction todo as [|chart rest IH]; intros i Hids.
  - exists []. simpl. repeat split. constructor.
  - apply Forall_cons in Hids as [Hid Hids].
    destruct (build_queries_chart_handles_failure (be i) chart Hid) as [chart' Hc].
    destruct (build_queries_chart_identity (be i) chart chart' Hc)
      as (Hsame & Herr & Hlen).
    destruct (IH (S i) Hids) as (finished & Hf & Hall & Hsent).
    exists (chart' :: finished).
    cbn [build_queries_loop].
    destruct (build_queries_chart (be i) chart) as [r sent]. simpl in Hc, Hlen.
    subst r.
    destruct (build_queries_loop be (S i) rest) as [r' sent']. simpl in Hf, Hsent.
    subst r'. simpl.
    split; [reflexivity|]. split; [by constructor|].
    rewrite length_app, Hlen, Hsent.
    by destruct (has_query chart).
Qed.

Lemma build_queries_loop_aborts (be : nat -> backend) (i : nat)
    (todo : list ChartResult) :
  Exists (fun c => cr_chart_id c = None) todo ->
  fst (build_queries_loop be i todo) = Raise (KeyError "chart_id").
Proof.
  revert i. induction todo as [|chart rest IH]; intros i Hex;
    [by apply Exists_nil in Hex|].
  cbn [build_queries_loop].
  destruct (cr_chart_id chart) as [cid|] eqn:Eid.
  - apply Exists_cons in Hex as [Hex|Hex]; [congruence|].
    destruct (build_queries_chart_handles_failure (be i) chart) as [chart' Hc];
      [congruence|].
    destruct (build_queries_chart (be i) chart) as [r sent]. simpl in Hc. subst r.
    specialize (IH (S i) Hex).
    destruct (build_queries_loop be (S i) rest) as [r' sent']. simpl in IH.
    subst r'. reflexivity.
  - unfold build_queries_chart. by rewrite Eid.
Qed.

(** X18.  When every chart of the query builder's reply carries a
    ["chart_id"], the build-queries operation returns a response with the
    reply's intent and exactly the reply's charts, in order, each with
    its prompt, id, type and encoding unchanged and with its [error]
    field set, whatever the backend does; and it hands the backend one
    query per chart that has a query. *)
Theorem api_build_queries_keeps_every_chart
    (builder_llm : Metadata -> Suggestions -> builder_reply)
    (be : nat -> backend) (dataset_metadata : Metadata)
    (suggestions : Suggestions) (built : BuildResult) :
  builder_llm dataset_metadata suggestions = BuilderResult built ->
  Forall (fun c => cr_chart_id c <> None) (charts built) ->
  exists r,
    fst (api_build_queries builder_llm be dataset_metadata suggestions) = Ok r
    /\ intent r = intent built
    /\ Forall2 (fun c c' => same_identity c c' /\ is_Some (cr_error c'))
               (charts built) (charts r)
    /\ length (snd (api_build_queries builder_llm be dataset_metadata suggestions))
       = length (List.filter has_query (charts built)).
Proof.
  intros Hreply Hids.
  unfold api_build_queries, build_final_charts. rewrite Hreply.
  destruct (build_queries_loop_keeps be 0 (charts built) Hids)
    as (finished & Hf & Hall & Hsent).
  destruct (build_queries_loop be 0 (charts built)) as [r sent].
  simpl in Hf, Hsent. subst r. simpl.
  eexists. split; [reflexivity|]. simpl. by repeat split.
Qed.

(** X19.  How the build-queries operation fails.  If the query
    builder's completion request raises, the operation raises an
    HTTPException 500 and no query reaches the backend; if its reply does
    not parse, the operation returns the empty visualization response,
    again without any query; and if one chart of a parsed reply has no
    ["chart_id"], the operation ends in a KeyError whatever the backend
    does, so that not even the charts executed before it are returned. *)
Theorem api_build_queries_failures
    (builder_llm : Metadata -> Suggestions -> builder_reply)
    (be : nat -> backend) (dataset_metadata : Metadata)
    (suggestions : Suggestions) :
  (forall err,
     builder_llm dataset_metadata suggestions = BuilderRaises err ->
     api_build_queries builder_llm be dataset_metadata suggestions
     = (Raise (HTTPException 500 ("Error in Query Builder: " ++ err)), []))
  /\ (builder_llm dataset_metadata suggestions = BuilderUnparseable ->
      api_build_queries builder_llm be dataset_metadata suggestions
      = (Ok {| intent := "visualization"; charts := [] |}, []))
  /\ (forall built,
        builder_llm dataset_metadata suggestions = BuilderResult built ->
        Exists (fun c => cr_chart_id c = None) (charts built) ->
        fst (api_build_queries builder_llm be dataset_metadata suggestions)
        = Raise (KeyError "chart_id")).
Proof.
  unfold api_build_queries, build_final_charts.
  split; [|split].
  - by intros err ->.
  - by intros ->.
  - intros built -> Hex.
    pose proof (build_queries_loop_aborts be 0 (charts built) Hex) as H.
    destruct (build_queries_loop be 0 (charts built)) as [r sent].
    simpl in H. by subst r.
Qed.

End ApiMore.

Section ApiMoreScenarios.
Import Execution Reshaper Api Samples Shapes.

Lemma api_build_queries_keeps_every_chart_witness :
  builder_one_chart orders_metadata ()
  = BuilderResult {| intent := "visualization"; charts := [sales_chart_result] |}
  /\ Forall (fun c => cr_chart_id c <> None) [sales_chart_result]
  /\ exists r,
       fst (api_build_queries builder_one_chart (fun _ => backend_running)
              orders_metadata ()) = Ok r
       /\ length (charts r) = 1.
Proof.
  assert (H1 : builder_one_chart orders_metadata ()
               = BuilderResult {| intent := "visualization";
                                  charts := [sales_chart_result] |}) by reflexivity.
  assert (H2 : Forall (fun c => cr_chart_id c <> None) [sales_chart_result])
    by (repeat constructor; discriminate).
  split; [exact H1|]. split; [exact H2|].
  destruct (api_build_queries_keeps_every_chart builder_one_chart
              (fun _ => backend_running) orders_metadata () _ H1 H2)
    as (r & Hr & _ & Hall & _).
  exists r. split; [exact Hr|].
  apply Forall2_length in Hall. simpl in Hall. by rewrite <- Hall.
Defined.

Lemma api_build_queries_failures_witness :
  let anonymous :=
    {| cr_user_prompt := "sales by region"; cr_chart_id := None;
       cr_chart_type := "pie_chart"; cr_query := Some sales_query;
       cr_encoding := ∅; cr_data := None; cr_error := None |} in
  let llm := fun (_ _ : unit) =>
    BuilderResult {| intent := "visualization";
                     charts := [sales_chart_result; anonymous] |} in
  llm () () = BuilderResult {| intent := "visualization";
                               charts := [sales_chart_result; anonymous] |}
  /\ Exists (fun c => cr_chart_id c = None) [sales_chart_result; anonymous]
  /\ fst (api_build_queries llm (fun _ => backend_running) () ())
     = Raise (KeyError "chart_id").
Proof.
  intros anonymous llm.
  assert (H1 : llm () () = BuilderResult {| intent := "visualization";
                                            charts := [sales_chart_result; anonymous] |})
    by reflexivity.
  assert (H2 : Exists (fun c => cr_chart_id c = None) [sales_chart_result; anonymous])
    by (right; left; reflexivity).
  split; [exact H1|]. split; [exact H2|].
  exact (proj2 (proj2 (api_build_queries_failures llm (fun _ => backend_running)
                         () ())) _ H1 H2).
Defined.

Lemma repair_select_within (valid : gset string) (q q1 : QuerySpec) :
  repair_select valid q = Some q1 ->
  selects_within valid q1
  /\ source q1 = source q /\ filters q1 = filters q
  /\ groupBy q1 = groupBy q /\ orderBy q1 = orderBy q /\ limit q1 = limit q.
Proof.
  unfold repair_select, selects_within.
  case_bool_decide as Hvalid.
  - intros [= <-]. split; [|by repeat split].
    apply Forall_forall. intros s Hs col Hcol.
    assert (Hin : col ∈ (list_to_set (omap selected_column (select q)) : gset string)).
    { apply elem_of_list_to_set, list_elem_of_omap. eauto. }
    set_solver.
  - destruct (List.filter (keeps_select valid) (select q)) as [|s0 kept] eqn:E;
      [discriminate|].
    intros [= <-]. split; [|by repeat split].
    simpl. rewrite <- E.
    apply Forall_forall. intros s [_ Hs]%list_elem_of_In%filter_In col Hcol.
    destruct s as [[c|] agg al|t]; try discriminate.
    simpl in Hs. apply bool_decide_eq_true in Hs.
    destruct c; [discriminate|]. simpl in Hcol. by injection Hcol as <-.
Qed.

Lemma execute_prompt_chart_shape (be : backend) (valid : gset string)
    (project_id table_name : string) (chart chart' : ChartResult) :
  execute_prompt_chart be valid project_id table_name chart = Some chart' ->
  same_identity chart chart'
  /\ is_Some (cr_data chart') /\ is_Some (cr_error chart')
  /\ (cr_error chart' = Some None \/ cr_data chart' = Some empty_chart)
  /\ exists q, cr_query chart' = Some q
               /\ source q = project_id ++ "." ++ table_name
               /\ selects_within valid q.
Proof.
  unfold execute_prompt_chart.
  destruct (cr_query chart) as [q|]; [|discriminate].
  destruct (repair_select valid q) as [q1|] eqn:Hrep; [|discriminate].
  apply repair_select_within in Hrep as (Hsel & _).
  destruct (fst (execute_query_on_datalake be _)) as [res|[code detail| |key|err]];
    intros [= <-]; simpl;
    (split; [by repeat split|]);
    (split; [eauto|]); (split; [eauto|]);
    (split; [auto|]);
    (eexists; split; [reflexivity|]; split; [reflexivity|exact Hsel]).
Qed.

Lemma execute_prompt_charts_Forall (be : nat -> backend)
    (valid_column_names : gset string) (project_id table_name : string)
    (todo : list ChartResult) :
  let out := execute_prompt_charts be valid_column_names project_id table_name todo in
  length out <= length todo
  /\ Forall (fun c' =>
               is_Some (cr_data c') /\ is_Some (cr_error c')
               /\ (cr_error c' = Some None \/ cr_data c' = Some empty_chart)
               /\ (exists c, c ∈ todo /\ same_identity c c')
               /\ exists q, cr_query c' = Some q
                            /\ source q = project_id ++ "." ++ table_name
                            /\ selects_within valid_column_names q)
            out.
Proof.
  intros out. subst out. unfold execute_prompt_charts.
  split.
  - etransitivity; [apply length_omap_le|]. by rewrite length_imap.
  - apply Forall_forall. intros c' (o & Ho & Hy)%list_elem_of_omap.
    simpl in Hy. subst o.
    apply list_elem_of_lookup in Ho as [i Hi].
    rewrite list_lookup_imap in Hi.
    destruct (todo !! i) as [c|] eqn:Ec; [|discriminate]. simpl in Hi.
    injection Hi as Hi.
    destruct (execute_prompt_chart_shape _ _ _ _ _ _ Hi)
      as (Hsame & Hdata & Herr & Hor & Hq).
    repeat split; try assumption.
    exists c. split; [by eapply list_elem_of_lookup_2|exact Hsame].
Qed.

(** X20.  Every chart that step 5 of the execute-prompt operation
    returns has both its [data] and its [error] field set (with the empty
    data whenever the error is not [None]), keeps its prompt, id, type
    and encoding, and carries the query that was executed: its source is
    [project_id.table_name] and every column named by one of its select
    records is a column of the schema.  Charts can only be dropped, never
    added. *)
Theorem execute_prompt_charts_shape (be : nat -> backend)
    (valid_column_names : gset string) (project_id table_name : string)
    (todo : list ChartResult) :
  let out := execute_prompt_charts be valid_column_names project_id table_name todo in
  length out <= length todo
  /\ Forall (fun c' =>
               is_Some (cr_data c') /\ is_Some (cr_error c')
               /\ (cr_error c' = Some None \/ cr_data c' = Some empty_chart)
               /\ (exists c, c ∈ todo /\ same_identity c c')
               /\ exists q, cr_query c' = Some q
                            /\ source q = project_id ++ "." ++ table_name
                            /\ selects_within valid_column_names q)
            out.
Proof. apply execute_prompt_charts_Forall. Qed.

End ApiMoreScenarios.

(** ** Fallback query builder *)

Section FallbackBuilderFacts.
Import Profiler ChartSuggester Execution Reshaper Api FallbackBuilder Samples Shapes.

Lemma truthy_Some (o : option string) (s : string) :
  truthy o = Some s <-> o = Some s /\ s <> "".
Proof.
  destruct o as [[|c r]|]; simpl; (split; [intros H|intros [H1 H2]]);
    try discriminate; try congruence.
  injection H as <-. split; [reflexivity|discriminate].
Qed.

Lemma fallback_chart_shaped (project_id table_name : string)
    (numeric_cols category_cols date_cols : list string)
    (prompt : string) (chart : ChartCandidate) (c : ChartResult) :
  fallback_chart project_id table_name numeric_cols category_cols date_cols
                 prompt chart = Some c ->
  fallback_shaped project_id table_name c
  /\ cr_user_prompt c = prompt /\ cr_chart_type c = cc_name chart.
Proof.
  unfold fallback_chart.
  destruct (truthy (pick_y chart numeric_cols)) as [y|] eqn:Ey; [|discriminate].
  apply truthy_Some in Ey as [_ Hy].
  intros [= <-]. split; [|by split].
  exists (fallback_query project_id table_name
            (pick_x chart category_cols date_cols) y), y.
  cbn [cr_query cr_encoding cr_chart_id cr_data cr_error].
  unfold fallback_query. cbn [source filters orderBy limit select groupBy].
  do 6 (split; [done|]).
  split; [|by repeat split].
  destruct (truthy (pick_x chart category_cols date_cols)) as [x|] eqn:Ex.
  - right. exists x. apply truthy_Some in Ex as [_ Hx].
    repeat split; done.
  - left. repeat split; try done.
Qed.

(** The charts the fallback builder makes, before the cut to four. *)
Lemma fallback_charts_elem (suggestions : list Suggestion) (p : SchemaProfile)
    (project_id table_name : string) (c : ChartResult) :
  c ∈ charts (_build_fallback_charts suggestions p project_id table_name) ->
  exists s chart,
    s ∈ suggestions /\ chart ∈ chosen_charts s
    /\ fallback_chart project_id table_name
         (names_of_type (fun t => bool_decide (t = TNumeric)) (columns p))
         (names_of_type (fun t => bool_decide (t = TCategory) || bool_decide (t = TString))
                        (columns p))
         (names_of_type (fun t => bool_decide (t = TDate)) (columns p))
         (user_prompt s) chart = Some c.
Proof.
  unfold _build_fallback_charts. cbn [charts].
  intros Hc%elem_of_take_elem.
  apply list_elem_of_bind in Hc as (s & Hc & Hs).
  apply list_elem_of_omap in Hc as (chart & Hchart%elem_of_take_elem & Hc).
  by exists s, chart.
Qed.

(** X21.  The fallback builder returns a visualization response of at
    most four charts in all.  Each chart carries a complete query over
    [project_id.table_name]: its measure summed and listed last in the
    select, preceded by its dimension when it has one, which is then also
    the grouping; no filter; descending order on the measure; limit 20.
    The measure is never empty, and no chart has [data] or [error] yet. *)
Theorem build_fallback_charts_shape (suggestions : list Suggestion)
    (p : SchemaProfile) (project_id table_name : string) :
  let r := _build_fallback_charts suggestions p project_id table_name in
  intent r = "visualization"
  /\ length (charts r) <= 4
  /\ Forall (fallback_shaped project_id table_name) (charts r).
Proof.
  intros r. split; [reflexivity|]. split.
  - subst r. unfold _build_fallback_charts. cbn [charts].
    rewrite length_take. lia.
  - apply Forall_forall. intros c Hc.
    apply fallback_charts_elem in Hc as (s & chart & _ & _ & Hc).
    by apply fallback_chart_shaped in Hc as [Hc _].
Qed.

Lemma selects_within_repair (valid : gset string) (q : QuerySpec) :
  selects_within valid q -> repair_select valid q = Some q.
Proof.
  unfold selects_within, repair_select. intros Hsel.
  rewrite bool_decide_eq_true_2; [reflexivity|].
  apply elem_of_equiv_empty_L. intros col [Hin Hnot]%elem_of_difference.
  apply Hnot.
  apply elem_of_list_to_set, list_elem_of_omap in Hin as (s & Hs & Hcol).
  rewrite Forall_forall in Hsel. by eapply Hsel.
Qed.

Lemma pick_x_within (names : list string) (chart : ChartCandidate)
    (cols : list ColumnProfile) (x : string) :
  cp_name <$> cols = names ->
  encoding_grounded names chart ->
  truthy (pick_x chart
            (names_of_type (fun t => bool_decide (t = TCategory) || bool_decide (t = TString)) cols)
            (names_of_type (fun t => bool_decide (t = TDate)) cols)) = Some x ->
  x ∈ names.
Proof.
  intros Hnames Hg [Hx Hne]%truthy_Some. unfold pick_x in Hx.
  destruct (truthy (cc_encoding chart !! "x")) as [x0|] eqn:E.
  - injection Hx as ->. apply truthy_Some in E as [E _].
    by apply (Hg "x"); [left| |].
  - rewrite <- Hnames.
    destruct (names_of_type (fun t => bool_decide (t = TCategory) || _) cols)
      as [|c0 ?] eqn:Ec.
    + destruct (names_of_type (fun t => bool_decide (t = TDate)) cols)
        as [|d0 ?] eqn:Ed; [discriminate|].
      injection Hx as ->.
      apply (names_of_type_within (fun t => bool_decide (t = TDate))).
      rewrite Ed. by left.
    + injection Hx as ->.
      apply (names_of_type_within
               (fun t => bool_decide (t = TCategory) || bool_decide (t = TString))).
      rewrite Ec. by left.
Qed.

Lemma pick_y_within (names : list string) (chart : ChartCandidate)
    (cols : list ColumnProfile) (y : string) :
  cp_name <$> cols = names ->
  encoding_grounded names chart ->
  truthy (pick_y chart (names_of_type (fun t => bool_decide (t = TNumeric)) cols))
  = Some y ->
  y ∈ names.
Proof.
  intros Hnames Hg [Hy Hne]%truthy_Some. unfold pick_y in Hy.
  destruct (truthy (cc_encoding chart !! "y")) as [y0|] eqn:E.
  - injection Hy as ->. apply truthy_Some in E as [E _].
    by apply (Hg "y"); [right| |].
  - rewrite <- Hnames.
    destruct (names_of_type (fun t => bool_decide (t = TNumeric)) cols)
      as [|n0 ?] eqn:En; [discriminate|].
    injection Hy as ->.
    apply (names_of_type_within (fun t => bool_decide (t = TNumeric))).
    rewrite En. by left.
Qed.

(** Over grounded suggestions, the query of every fallback chart selects
    schema columns only. *)
Lemma fallback_charts_select_within (suggestions : list Suggestion)
    (p : SchemaProfile) (project_id table_name : string) :
  cp_name <$> columns p = column_names p ->
  Forall (fun s => Forall (encoding_grounded (column_names p)) (chosen_charts s))
         suggestions ->
  Forall (fun c => exists q, cr_query c = Some q
                             /\ selects_within (list_to_set (column_names p)) q)
         (charts (_build_fallback_charts suggestions p project_id table_name)).
Proof.
  intros Hnames Hg. apply Forall_forall. intros c Hc.
  apply fallback_charts_elem in Hc as (s & chart & Hs & Hchart & Hc).
  rewrite Forall_forall in Hg. specialize (Hg s Hs).
  rewrite Forall_forall in Hg. specialize (Hg chart Hchart).
  unfold fallback_chart in Hc.
  destruct (truthy (pick_y chart _)) as [y|] eqn:Ey; [|discriminate].
  injection Hc as <-. eexists. split; [reflexivity|].
  pose proof (pick_y_within _ chart (columns p) y Hnames Hg Ey) as Hy.
  unfold selects_within, fallback_query. cbn [select].
  apply Forall_app. split.
  - destruct (truthy (pick_x chart _ _)) as [x|] eqn:Ex; [|constructor].
    pose proof (pick_x_within _ chart (columns p) x Hnames Hg Ex) as Hx.
    repeat constructor. intros col Hcol.
    apply truthy_Some in Ex as [_ Hne].
    destruct x; [done|]. injection Hcol as <-. by apply elem_of_list_to_set.
  - repeat constructor. intros col Hcol.
    apply truthy_Some in Ey as [_ Hne].
    destruct y; [done|]. injection Hcol as <-. by apply elem_of_list_to_set.
Qed.

Lemma execute_prompt_charts_keep_all (be : nat -> backend) (valid : gset string)
    (project_id table_name : string) (todo : list ChartResult) :
  Forall (fun c => exists q, cr_query c = Some q /\ selects_within valid q) todo ->
  length (execute_prompt_charts be valid project_id table_name todo) = length todo.
Proof.
  unfold execute_prompt_charts. revert be.
  induction todo as [|c todo IH]; intros be Hall; [reflexivity|].
  apply Forall_cons in Hall as [(q & Hq & Hsel) Hall].
  rewrite imap_cons.
  assert (Hc : is_Some (execute_prompt_chart (be 0) valid project_id table_name c)).
  { unfold execute_prompt_chart. rewrite Hq, (selects_within_repair _ _ Hsel).
    destruct (fst (execute_query_on_datalake _ _)) as [res|[code detail| |key|err]];
      eauto. }
  destruct Hc as [c' Hc].
  change (omap id (?x :: ?l)) with (match id x with Some y => y :: omap id l | None => omap id l end).
  rewrite Hc. cbn [id length]. f_equal.
  exact (IH (fun i => be (S i)) Hall).
Qed.

(** X22.  The fallback builder and step 5 of the execute-prompt
    operation compose without loss: over a profile whose [column_names]
    are its columns' names, and suggestions whose encodings name schema
    columns only, every chart the fallback builder makes passes the
    column check of step 5 untouched and is executed, so as many charts
    are returned as were built, whatever the backend answers. *)
Theorem fallback_charts_all_executed (be : nat -> backend)
    (suggestions : list Suggestion) (p : SchemaProfile)
    (project_id table_name : string) :
  cp_name <$> columns p = column_names p ->
  Forall (fun s => Forall (encoding_grounded (column_names p)) (chosen_charts s))
         suggestions ->
  let built := _build_fallback_charts suggestions p project_id table_name in
  Forall (fun c => exists q,
            cr_query c = Some q
            /\ repair_select (list_to_set (column_names p)) q = Some q)
         (charts built)
  /\ length (execute_prompt_charts be (list_to_set (column_names p))
               project_id table_name (charts built))
     = length (charts built).
Proof.
  intros Hnames Hg built.
  pose proof (fallback_charts_select_within suggestions p project_id table_name
                Hnames Hg) as Hsel.
  split.
  - eapply Forall_impl; [exact Hsel|].
    intros c (q & Hq & Hw). exists q. split; [exact Hq|].
    by apply selects_within_repair.
  - by apply execute_prompt_charts_keep_all.
Qed.

Lemma fallback_charts_all_executed_witness :
  let suggestions := _generate_fallback_suggestions ["sales by region"]
                       (Some sales_profile) in
  cp_name <$> columns sales_profile = column_names sales_profile
  /\ Forall (fun s => Forall (encoding_grounded (column_names sales_profile))
                             (chosen_charts s)) suggestions
  /\ length (execute_prompt_charts (fun _ => backend_failed)
               (list_to_set (column_names sales_profile)) "acme" "orders"
               (charts (_build_fallback_charts suggestions sales_profile
                          "acme" "orders")))
     = length (charts (_build_fallback_charts suggestions sales_profile
                         "acme" "orders")).
Proof.
  intros suggestions.
  assert (H1 : cp_name <$> columns sales_profile = column_names sales_profile)
    by reflexivity.
  assert (H2 : Forall (fun s => Forall (encoding_grounded (column_names sales_profile))
                                       (chosen_charts s)) suggestions).
  { pose proof (fallback_charts_within ["sales by region"] (Some sales_profile)) as Hw.
    eapply Forall_impl; [exact Hw|]. intros s Hs.
    eapply Forall_impl; [exact Hs|]. apply encoding_within_grounded. }
  split; [exact H1|]. split; [exact H2|].
  exact (proj2 (fallback_charts_all_executed (fun _ => backend_failed) suggestions
                  sales_profile "acme" "orders" H1 H2)).
Defined.

End FallbackBuilderFacts.

(** ** Schema fetch *)

Section SchemaFetchFacts.
Import Profiler Execution Api SchemaFetch Shapes.

Lemma poll_schema_job_outcome (be : schema_backend) (job_id : string)
    (attempt remaining : nat) :
  snd (poll_schema_job be job_id attempt remaining) <= remaining
  /\ (forall e, fst (poll_schema_job be job_id attempt remaining) = Raise e ->
                (exists code detail,
                   e = HTTPException code detail
                   /\ (code = 400 \/ code = 502 \/ code = 504))
                \/ (exists err, e = OtherError err)).
Proof.
  revert attempt. induction remaining as [|k IH]; intros attempt;
    cbn [poll_schema_job].
  - cbn [fst snd]. split; [lia|]. intros e [= <-]. left. eauto 6.
  - destruct (get_job be job_id attempt) as [err|err|resp].
    + cbn [fst snd]. split; [lia|]. intros e [= <-]. left. eauto 6.
    + cbn [fst snd]. split; [lia|]. intros e [= <-]. right. eauto.
    + cbv zeta. destruct (Nat.leb 500 (status_code resp)).
      { cbn [fst snd]. split; [lia|]. intros e [= <-]. left. eauto 6. }
      case_bool_decide; [cbn [fst snd]; split; [lia|discriminate]|].
      case_bool_decide.
      { cbn [fst snd]. split; [lia|]. intros e [= <-]. left. eauto 6. }
      destruct (IH (S attempt)) as [IHn IHe].
      destruct (poll_schema_job be job_id (S attempt) k) as [r n].
      cbn [fst snd] in *. split; [lia|exact IHe].
Qed.

Lemma fetch_table_columns_raises (be : schema_backend)
    (project_id table_name : string) (timeout : nat) :
  snd (fetch_table_columns be project_id table_name timeout) <= timeout
  /\ (forall e, fst (fetch_table_columns be project_id table_name timeout) = Raise e ->
                (exists code detail,
                   e = HTTPException code detail
                   /\ (code = 400 \/ code = 502 \/ code = 504))
                \/ (exists err, e = OtherError err)).
Proof.
  unfold fetch_table_columns.
  destruct (get_schema be project_id table_name) as [err|err|resp].
  - cbn [fst snd]. split; [lia|]. intros e [= <-]. left. eauto 6.
  - cbn [fst snd]. split; [lia|]. intros e [= <-]. right. eauto.
  - cbv zeta. destruct (Nat.leb 500 (status_code resp)).
    { cbn [fst snd]. split; [lia|]. intros e [= <-]. left. eauto 6. }
    destruct (Nat.leb 400 (status_code resp)).
    { cbn [fst snd]. split; [lia|]. intros e [= <-]. left. eauto 6. }
    destruct (job_pointer (payload_of resp)) as [job_id|].
    + destruct (poll_schema_job_outcome be job_id 0 timeout) as [Hn He].
      destruct (poll_schema_job be job_id 0 timeout) as [r n].
      cbn [fst snd] in *. split; [exact Hn|].
      intros e Hr. destruct r as [payload|e0]; [discriminate|].
      simpl in Hr. injection Hr as <-. by apply He.
    + cbn [fst snd]. split; [lia|discriminate].
Qed.

(** X23.  Whatever the backend answers, the schema fetch makes at most
    [timeout] job-status requests, and an exception it raises is an
    HTTPException with status code 400, 502 or 504, or the non-HTTP
    exception of a malformed exchange passed on as it is. *)
Theorem fetch_table_columns_outcome (be : schema_backend)
    (project_id table_name : string) (timeout : nat) :
  snd (fetch_table_columns be project_id table_name timeout) <= timeout
  /\ (forall e, fst (fetch_table_columns be project_id table_name timeout) = Raise e ->
                (exists code detail,
                   e = HTTPException code detail
                   /\ (code = 400 \/ code = 502 \/ code = 504))
                \/ (exists err, e = OtherError err)).
Proof. apply fetch_table_columns_raises. Qed.

Lemma fetch_table_columns_outcome_witness :
  fst (fetch_table_columns backend_queued_then_404 "acme" "orders" 3)
  = Raise (HTTPException 504 "Timed out waiting for schema job to complete")
  /\ ((exists code detail,
         HTTPException 504 "Timed out waiting for schema job to complete"
         = HTTPException code detail
         /\ (code = 400 \/ code = 502 \/ code = 504))
      \/ (exists err,
            HTTPException 504 "Timed out waiting for schema job to complete"
            = OtherError err)).
Proof.
  assert (H : fst (fetch_table_columns backend_queued_then_404 "acme" "orders" 3)
              = Raise (HTTPException 504 "Timed out waiting for schema job to complete"))
    by reflexivity.
  split; [exact H|].
  exact (proj2 (fetch_table_columns_outcome backend_queued_then_404
                  "acme" "orders" 3) _ H).
Defined.

Lemma poll_schema_job_skips (be : schema_backend) (job_id : string)
    (k attempt remaining : nat) :
  (forall i, i < k -> schema_pending (get_job be job_id (attempt + i))) ->
  k <= remaining ->
  poll_schema_job be job_id attempt remaining
  = (fst (poll_schema_job be job_id (attempt + k) (remaining - k)),
     k + snd (poll_schema_job be job_id (attempt + k) (remaining - k))).
Proof.
  revert attempt remaining.
  induction k as [|k IH]; intros attempt remaining Hpend Hle.
  - rewrite Nat.add_0_r, Nat.sub_0_r. cbn [Nat.add].
    by destruct (poll_schema_job _ _ _ _).
  - destruct remaining as [|rem]; [lia|].
    destruct (Hpend 0 ltac:(lia)) as (resp & Hd & Hcode & Hc & Hf).
    rewrite Nat.add_0_r in Hd. cbn [poll_schema_job]. rewrite Hd. cbv zeta.
    destruct (Nat.leb_spec 500 (status_code resp)); [lia|].
    rewrite (bool_decide_eq_false_2 _ Hc), (bool_decide_eq_false_2 _ Hf).
    rewrite (IH (S attempt) rem).
    + replace (S attempt + k) with (attempt + S k) by lia.
      replace (S rem - S k) with (rem - k) by lia.
      reflexivity.
    + intros i Hi. replace (S attempt + i) with (attempt + S i) by lia.
      apply Hpend. lia.
    + lia.
Qed.

(** X24.  The paths of the schema fetch, for a first response below 400.
    Without a job pointer (a non-empty [jobId] together with status
    [queued] or [running]) the rows of the first response are returned
    and no status request is made.  With one, the job is polled: status
    replies below 500 that are neither [completed] nor [failed] -- a 404,
    or a body that is not JSON, included -- keep the polling going; a
    [completed] reply at request [k < timeout] ends it with that reply's
    rows; and after [timeout] such replies the fetch ends in the 504
    failure. *)
Theorem fetch_table_columns_paths (be : schema_backend)
    (project_id table_name : string) (timeout : nat)
    (resp : response) (job_id : string) (k : nat) (last : response) :
  get_schema be project_id table_name = Body resp ->
  status_code resp < 400 ->
  (job_pointer (payload_of resp) = None ->
   fetch_table_columns be project_id table_name timeout
   = (Ok (result_rows (payload_of resp)), 0))
  /\ (job_pointer (payload_of resp) = Some job_id ->
      (forall i, i < k -> schema_pending (get_job be job_id i)) ->
      (k < timeout ->
       get_job be job_id k = Body last ->
       status_code last < 500 ->
       sb_status (payload_of last) = Some "completed" ->
       fetch_table_columns be project_id table_name timeout
       = (Ok (result_rows (payload_of last)), S k))
      /\ (k = timeout ->
          fetch_table_columns be project_id table_name timeout
          = (Raise (HTTPException 504 "Timed out waiting for schema job to complete"),
             timeout))).
Proof.
  intros Hget Hcode. unfold fetch_table_columns. rewrite Hget.
  destruct (Nat.leb_spec 500 (status_code resp)); [lia|].
  destruct (Nat.leb_spec 400 (status_code resp)); [lia|].
  split; [by intros ->|].
  intros -> Hpend. split.
  - intros Hk Hlast Hlcode Hdone.
    rewrite (poll_schema_job_skips be job_id k 0 timeout Hpend) by lia.
    simpl (0 + k).
    destruct (timeout - k) as [|rem] eqn:E; [lia|].
    cbn [poll_schema_job]. rewrite Hlast. cbv zeta.
    destruct (Nat.leb_spec 500 (status_code last)); [lia|].
    rewrite (bool_decide_eq_true_2 _ Hdone). cbn [fst snd mbind].
    f_equal. lia.
  - intros ->.
    rewrite (poll_schema_job_skips be job_id timeout 0 timeout Hpend) by lia.
    rewrite Nat.sub_diag. simpl. f_equal. lia.
Qed.

Lemma fetch_table_columns_paths_witness :
  get_schema backend_queued_then_404 "acme" "orders" = Body (queued_response "job-9")
  /\ status_code (queued_response "job-9") < 400
  /\ job_pointer (payload_of (queued_response "job-9")) = Some "job-9"
  /\ (forall i, i < 30 -> schema_pending (get_job backend_queued_then_404 "job-9" i))
  /\ fetch_table_columns backend_queued_then_404 "acme" "orders" 30
     = (Raise (HTTPException 504 "Timed out waiting for schema job to complete"), 30).
Proof.
  assert (H1 : get_schema backend_queued_then_404 "acme" "orders"
               = Body (queued_response "job-9")) by reflexivity.
  assert (H2 : status_code (queued_response "job-9") < 400) by (simpl; lia).
  assert (H3 : job_pointer (payload_of (queued_response "job-9")) = Some "job-9")
    by reflexivity.
  assert (H4 : forall i, i < 30 ->
                 schema_pending (get_job backend_queued_then_404 "job-9" i)).
  { intros i _. exists not_found_response. split; [reflexivity|].
    split; [simpl; lia|]. split; discriminate. }
  split; [exact H1|]. split; [exact H2|]. split; [exact H3|]. split; [exact H4|].
  exact (proj2 (proj2 (fetch_table_columns_paths backend_queued_then_404
                         "acme" "orders" 30 (queued_response "job-9") "job-9" 30
                         not_found_response H1 H2) H3 H4) eq_refl).
Defined.

(** X25.  The columns endpoint lets nothing but an HTTPException out:
    the failures of the fetch keep their status code (400, 502 or 504)
    and any other exception is turned into a 500. *)
Theorem api_get_table_columns_errors (be : schema_backend)
    (project_id table_name : string) (e : exn) :
  api_get_table_columns be project_id table_name = Raise e ->
  exists code detail,
    e = HTTPException code detail
    /\ (code = 400 \/ code = 500 \/ code = 502 \/ code = 504).
Proof.
  unfold api_get_table_columns.
  destruct (fetch_table_columns_raises be project_id table_name default_timeout)
    as [_ He].
  destruct (fst (fetch_table_columns be project_id table_name default_timeout))
    as [cols|e0]; [discriminate|].
  destruct (He e0 eq_refl) as [(code & detail & -> & Hcode)|[err ->]].
  - intros [= <-]. exists code, detail. split; [reflexivity|]. tauto.
  - intros [= <-]. eexists _, _. split; [reflexivity|]. tauto.
Qed.

Lemma api_get_table_columns_errors_witness :
  let be := {| get_schema := fun _ _ => Malformed "connection reset";
               get_job := fun _ _ => Body not_found_response |} in
  api_get_table_columns be "acme" "orders"
  = Raise (HTTPException 500 "connection reset")
  /\ exists code detail,
       HTTPException 500 "connection reset" = HTTPException code detail
       /\ (code = 400 \/ code = 500 \/ code = 502 \/ code = 504).
Proof.
  intros be.
  assert (H : api_get_table_columns be "acme" "orders"
              = Raise (HTTPException 500 "connection reset")) by reflexivity.
  split; [exact H|].
  exact (api_get_table_columns_errors be "acme" "orders" _ H).
Defined.

End SchemaFetchFacts.

(** ** The execute-prompt operation as a whole *)

Section ExecutePromptFacts.
Import Profiler ChartSuggester Execution Reshaper Api FallbackBuilder.
Import ExecutePrompt Samples Shapes.

Variable str_exn : exn -> string.
Variable suggest_llm : nat -> string -> llm_reply.
Variable builder_llm : EnhancedMetadata -> list Suggestion -> builder_reply.

(** With every completion request failing, [suggest] is the fallback. *)
Lemma suggest_all_failing (user_prompts : list string) (p : SchemaProfile) :
  (forall i prompt, suggest_llm i prompt = LlmRaises
                    \/ suggest_llm i prompt = LlmUnparseable) ->
  suggest suggest_llm user_prompts (Some p)
  = _generate_fallback_suggestions user_prompts (Some p).
Proof.
  intros Hfail. unfold suggest.
  destruct (usable_columns (Some p)) as [cols|] eqn:E; [|reflexivity].
  unfold _generate_fallback_suggestions. rewrite E.
  apply list_eq. intros i.
  rewrite list_lookup_imap, list_lookup_fmap.
  destruct (user_prompts !! i) as [prompt|]; [|reflexivity]. simpl.
  f_equal. unfold suggest_prompt. f_equal.
  assert (Hfb : fallback_charts prompt (Some p) = take 4 (rule_suggestions cols)).
  { unfold fallback_charts, _generate_fallback_suggestions. by rewrite E. }
  by destruct (Hfail i prompt) as [-> | ->].
Qed.

(** X26.  The execute-prompt operation fails in one way only.  When the
    schema fetch raises, the operation raises an HTTPException 400 that
    quotes it.  Once the schema is fetched, a response is returned
    whatever the data backend answers and whether each completion request
    fails or yields a reply of the expected shape; every chart in it has
    its [data] and [error] fields set, and carries a query over
    [project_id.table_name] whose select records name columns of the
    fetched schema only. *)
Theorem api_execute_prompt_total (schema : result (list raw_column))
    (be : nat -> backend) (user_prompts : list string)
    (project_id table_name : string) :
  (forall e, schema = Raise e ->
     api_execute_prompt str_exn suggest_llm builder_llm schema be user_prompts
                        project_id table_name
     = Raise (HTTPException 400 ("Failed to fetch table schema: " ++ str_exn e)))
  /\ (forall columns_data, schema = Ok columns_data ->
        exists r,
          api_execute_prompt str_exn suggest_llm builder_llm schema be user_prompts
                             project_id table_name = Ok r
          /\ Forall (fun c' =>
                       is_Some (cr_data c') /\ is_Some (cr_error c')
                       /\ exists q,
                            cr_query c' = Some q
                            /\ source q = project_id ++ "." ++ table_name
                            /\ selects_within
                                 (list_to_set (col_name_of <$> columns_data)) q)
                    (charts r)).
Proof.
  split; [by intros e ->|].
  intros columns_data ->. unfold api_execute_prompt.
  destruct (build_schema_profile_ok columns_data
              (list_to_map <$> fetch_sample_rows (be 0) columns_data
                                 project_id table_name) None)
    as (p & -> & Hnames & _).
  cbn [mbind result_mbind result_bind].
  eexists. split; [reflexivity|]. cbn [charts]. rewrite Hnames.
  eapply Forall_impl;
    [exact (proj2 (execute_prompt_charts_Forall _ _ _ _ _))|].
  intros c' (Hd & He & _ & _ & Hq). by repeat split.
Qed.

(** X27.  With the completion service down -- every suggestion request
    raising or unparseable, and the query builder's request raising --
    the execute-prompt operation still answers once the schema is
    fetched: it returns the visualization response holding every chart
    the fallback builder makes from the fallback suggestions over the
    built profile, none of them dropped by the column check, hence at
    most four. *)
Theorem api_execute_prompt_service_down (columns_data : list raw_column)
    (be : nat -> backend) (user_prompts : list string)
    (project_id table_name : string) :
  (forall i prompt, suggest_llm i prompt = LlmRaises
                    \/ suggest_llm i prompt = LlmUnparseable) ->
  (forall md s, exists err, builder_llm md s = BuilderRaises err) ->
  exists r p,
    api_execute_prompt str_exn suggest_llm builder_llm (Ok columns_data) be
                       user_prompts project_id table_name = Ok r
    /\ build_schema_profile columns_data
         (list_to_map <$> fetch_sample_rows (be 0) columns_data project_id table_name)
         None = Ok p
    /\ intent r = "visualization"
    /\ length (charts r)
       = length (charts (_build_fallback_charts
                           (_generate_fallback_suggestions user_prompts (Some p))
                           p project_id table_name))
    /\ length (charts r) <= 4.
Proof.
  intros Hsuggest Hbuilder. unfold api_execute_prompt.
  destruct (build_schema_profile_ok columns_data
              (list_to_map <$> fetch_sample_rows (be 0) columns_data
                                 project_id table_name) None)
    as (p & Hp & _ & Hnames & _).
  rewrite Hp. cbn [mbind result_mbind result_bind].
  eexists. exists p. split; [reflexivity|]. split; [reflexivity|].
  rewrite (suggest_all_failing user_prompts p Hsuggest).
  unfold build_or_fallback, build_final_charts.
  match goal with
  | |- context [builder_llm ?md ?s] => destruct (Hbuilder md s) as [err ->]
  end.
  cbn [intent charts].
  assert (Hg : Forall (fun s => Forall (encoding_grounded (column_names p))
                                       (chosen_charts s))
                      (_generate_fallback_suggestions user_prompts (Some p))).
  { pose proof (fallback_charts_within user_prompts (Some p)) as Hw.
    simpl in Hw. rewrite Hnames in Hw.
    eapply Forall_impl; [exact Hw|]. intros s Hs.
    eapply Forall_impl; [exact Hs|]. apply encoding_within_grounded. }
  pose proof (fallback_charts_select_within _ p project_id table_name Hnames Hg)
    as Hsel.
  rewrite (execute_prompt_charts_keep_all _ _ _ _ _ Hsel).
  split; [reflexivity|]. split; [reflexivity|].
  unfold _build_fallback_charts. cbn [charts]. rewrite length_take. lia.
Qed.

End ExecutePromptFacts.

Section ExecutePromptScenarios.
Import Profiler ChartSuggester Execution Reshaper Api FallbackBuilder.
Import ExecutePrompt Samples Shapes.

Lemma api_execute_prompt_total_witness :
  exists r,
    api_execute_prompt exn_text (fun _ _ => LlmCharts [profit_chart])
      (fun _ _ => BuilderUnparseable) (Ok [revenue_column])
      (fun _ => backend_running) ["revenue"] "acme" "orders" = Ok r
    /\ Forall (fun c' => is_Some (cr_data c') /\ is_Some (cr_error c')) (charts r).
Proof.
  destruct (proj2 (api_execute_prompt_total exn_text
                     (fun _ _ => LlmCharts [profit_chart])
                     (fun _ _ => BuilderUnparseable) (Ok [revenue_column])
                     (fun _ => backend_running) ["revenue"] "acme" "orders")
              [revenue_column] eq_refl) as (r & Hr & Hall).
  exists r. split; [exact Hr|].
  eapply Forall_impl; [exact Hall|]. intros c' (Hd & He & _). by split.
Defined.

Lemma api_execute_prompt_service_down_witness :
  (forall (i : nat) (prompt : string),
     (fun _ _ => LlmRaises) i prompt = LlmRaises
     \/ (fun _ _ => LlmRaises) i prompt = LlmUnparseable)
  /\ (forall (md : EnhancedMetadata) (s : list Suggestion),
        exists err, (fun _ _ => BuilderRaises "rate limited") md s = BuilderRaises err)
  /\ exists r,
       api_execute_prompt exn_text (fun _ _ => LlmRaises)
         (fun _ _ => BuilderRaises "rate limited") (Ok [revenue_column])
         (fun _ => backend_failed) ["revenue"] "acme" "orders" = Ok r
       /\ length (charts r) <= 4.
Proof.
  assert (H1 : forall (i : nat) (prompt : string),
                 (fun _ _ => LlmRaises) i prompt = LlmRaises
                 \/ (fun _ _ => LlmRaises) i prompt = LlmUnparseable)
    by (intros; by left).
  assert (H2 : forall (md : EnhancedMetadata) (s : list Suggestion),
                 exists err, (fun _ _ => BuilderRaises "rate limited") md s
                             = BuilderRaises err)
    by (intros; eexists; reflexivity).
  split; [exact H1|]. split; [exact H2|].
  destruct (api_execute_prompt_service_down exn_text (fun _ _ => LlmRaises)
              (fun _ _ => BuilderRaises "rate limited") [revenue_column]
              (fun _ => backend_failed) ["revenue"] "acme" "orders" H1 H2)
    as (r & p & Hr & _ & _ & _ & Hle).
  exists r. split; [exact Hr|exact Hle].
Defined.

Lemma profile_column_without_samples (col : raw_column) (cp : ColumnProfile) :
  profile_column [] col = Ok cp ->
  cp_samples cp = [] /\ cp_stats cp = None
  /\ cp_type cp = default TString (declared_type (col_type_raw_of col)).
Proof.
  unfold profile_column, column_type, collect_samples.
  rewrite take_nil. cbn [omap list_omap].
  destruct (declared_type (col_type_raw_of col)) as [t|];
    cbn [mbind result_mbind result_bind default];
    intros [= <-]; cbn [cp_samples cp_stats cp_type]; repeat split;
    by destruct t.
Qed.

(** X28.  A failing sample query is absorbed by the execute-prompt
    operation: the profile is then built without sample rows, so every
    column has no samples and no statistics, and is typed by its declared
    type when that names a numeric, date or boolean type and as [string]
    otherwise. *)
Theorem sample_failure_degrades_profile (be : backend)
    (columns_data : list raw_column) (project_id table_name : string) (e : exn) :
  fst (execute_query_on_datalake be
         (sample_query columns_data project_id table_name)) = Raise e ->
  fetch_sample_rows be columns_data project_id table_name = []
  /\ exists p,
       build_schema_profile columns_data
         (list_to_map <$> fetch_sample_rows be columns_data project_id table_name)
         None = Ok p
       /\ Forall2 (fun col cp =>
                     cp_name cp = col_name_of col
                     /\ cp_samples cp = [] /\ cp_stats cp = None
                     /\ cp_type cp
                        = default TString (declared_type (col_type_raw_of col)))
                  columns_data (columns p).
Proof.
  intros Hfail.
  assert (Hrows : fetch_sample_rows be columns_data project_id table_name = [])
    by (unfold fetch_sample_rows; by rewrite Hfail).
  split; [exact Hrows|]. rewrite Hrows. cbn [fmap list_fmap].
  unfold build_schema_profile.
  destruct (result_mapM_ok (profile_column []) columns_data
              (profile_column_returns [])) as [cols Hcols].
  rewrite Hcols. cbn [mbind result_mbind result_bind].
  eexists. split; [reflexivity|]. cbn [columns].
  apply result_mapM_Forall2 in Hcols.
  eapply Forall2_impl; [exact Hcols|].
  intros col cp Hcp. split; [by apply (profile_column_name [])|].
  by apply profile_column_without_samples.
Qed.

Lemma sample_failure_degrades_profile_witness :
  fst (execute_query_on_datalake backend_failed
         (sample_query [revenue_column] "acme" "orders"))
  = Raise (HTTPException 500 "Query failed: table not found")
  /\ fetch_sample_rows backend_failed [revenue_column] "acme" "orders" = [].
Proof.
  assert (H : fst (execute_query_on_datalake backend_failed
                     (sample_query [revenue_column] "acme" "orders"))
              = Raise (HTTPException 500 "Query failed: table not found"))
    by reflexivity.
  split; [exact H|].
  exact (proj1 (sample_failure_degrades_profile backend_failed [revenue_column]
                  "acme" "orders" _ H)).
Defined.

End ExecutePromptScenarios.
